(** * discord-purge: a shallow embedding of [src/main.go]

    The development follows the layout of the Go file: the primitives of
    the Go standard library the program relies on ([strconv], [net/url]),
    the snowflake ordering utilities, the rate-limit aware request
    executor, the search/history deletion walkers and, last, the purge
    orchestrator [PurgeAll].

    Conventions.
    - Go [string] is a byte string: [String.string], [len] is
      [String.length], [<] on strings is the bytewise order [String.ltb].
    - Go [uint64] is [N] with the wrap-around written out; Go [int]
      (64 bits, the Makefile builds for amd64) is [Z] wrapped by [wrapInt].
    - Go [map[string]bool] is [gmap string bool]; reading a missing key
      yields [false] ([mget]).
    - Go [float64] is IEEE 754 binary64 ([Float64], on the executable
      specification [SpecFloat] of the standard library): rounding, the
      NaN and the infinities are part of the model.
    - A [time.Duration] is a number of nanoseconds in [int64].
    - Console output ([fmt.Printf]) is not modelled. *)

From Stdlib Require Import ZArith NArith SpecFloat String Ascii List Lia Bool.
From stdpp Require Import gmap strings list fin_maps.

Open Scope string_scope.

(** ** Go standard library: [strconv] *)

Module Strconv.

Definition maxUint64 : N := 18446744073709551615.

Definition wrapUint64 (n : N) : N := (n mod 18446744073709551616)%N.

(** [cutoff] is the smallest number such that [cutoff * 10 > maxUint64]. *)
Definition cutoff : N := (maxUint64 / 10 + 1)%N.

(** The digit loop of [strconv.ParseUint(s, 10, 64)]: any byte outside
    ['0'..'9'] is a syntax error, an accumulator that would leave 64 bits
    is a range error; both are [None] (the callers only test [err]). *)
Fixpoint parseUintLoop (s : string) (n : N) : option N :=
  match s with
  | EmptyString => Some n
  | String c rest =>
      let b := N_of_ascii c in
      if ((48 <=? b) && (b <=? 57))%N then
        let d := (b - 48)%N in
        if (cutoff <=? n)%N then None
        else
          let n10 := wrapUint64 (n * 10) in
          let n1 := wrapUint64 (n10 + d) in
          if ((n1 <? n10) || (maxUint64 <? n1))%N then None
          else parseUintLoop rest n1
      else None
  end.

Definition ParseUint (s : string) : option N :=
  match s with
  | EmptyString => None
  | _ => parseUintLoop s 0%N
  end.

Definition digitChar (d : N) : ascii := ascii_of_N (48 + d).

(** The loop of [formatBits] for base 10: digits are produced from the
    least significant one and written in front of [acc]. Twenty rounds
    cover every 64-bit value. *)
Fixpoint formatDigits (rounds : nat) (n : N) (acc : string) : string :=
  match rounds with
  | O => acc
  | S r =>
      let acc' := String (digitChar (n mod 10)) acc in
      if (n / 10 =? 0)%N then acc' else formatDigits r (n / 10) acc'
  end.

Definition FormatUint (n : N) : string := formatDigits 20 n "".

End Strconv.

Import Strconv.

(** ** Snowflake ordering utilities (main.go, [olderSnowflakeID],
       [previousSnowflakeID]) *)

Definition olderSnowflakeID (currentOldest candidate : string) : string :=
  if candidate =? "" then currentOldest
  else if currentOldest =? "" then candidate
  else
    match ParseUint currentOldest, ParseUint candidate with
    | Some cur, Some cand =>
        if (cand <? cur)%N then candidate else currentOldest
    | _, _ =>
        if (String.length candidate <? String.length currentOldest)%nat then candidate
        else if (String.length currentOldest <? String.length candidate)%nat then currentOldest
        else if String.ltb candidate currentOldest then candidate
        else currentOldest
    end.

Definition previousSnowflakeID (id : string) : string :=
  match ParseUint id with
  | None => id
  | Some n => if (n =? 0)%N then id else FormatUint (wrapUint64 (n - 1))
  end.

(** The order the specification names for malformed cursors: shorter
    strings first, strings of equal length in bytewise lexicographic
    order. *)
Definition lenLexLt (x y : string) : bool :=
  (String.length x <? String.length y)%nat
  || ((String.length x =? String.length y)%nat && String.ltb x y).

(** "The older of the two" under [lenLexLt]; the current bound is kept on
    a tie. *)
Definition lenLexOlder (currentOldest candidate : string) : string :=
  if lenLexLt candidate currentOldest then candidate else currentOldest.

(** ** Go standard library: [net/url] and [strings] *)

Module Url.

Definition inRange (lo hi b : N) : bool := ((lo <=? b) && (b <=? hi))%N.

Definition isOneOf (c : ascii) (l : list ascii) : bool :=
  existsb (Ascii.eqb c) l.

(** [shouldEscape(c, encodePathSegment)]: letters and digits and the
    marks [- _ . ~] are kept; of the reserved characters a path segment
    keeps [$ & + : = @] and escapes [/ ; , ?]; every other byte is
    escaped. *)
Definition shouldEscape (c : ascii) : bool :=
  let b := N_of_ascii c in
  if inRange 97 122 b || inRange 65 90 b || inRange 48 57 b then false
  else if isOneOf c ["-"; "_"; "."; "~"]%char then false
  else if isOneOf c ["$"; "&"; "+"; ","; "/"; ":"; ";"; "="; "?"; "@"]%char
       then isOneOf c ["/"; ";"; ","; "?"]%char
  else true.

Definition upperhex : string := "0123456789ABCDEF".

Definition hexDigit (n : N) : ascii :=
  match String.get (N.to_nat n) upperhex with
  | Some c => c
  | None => "0"%char
  end.

(** ["%"] followed by the two upper-case hexadecimal digits of the byte. *)
Definition percentByte (c : ascii) (rest : string) : string :=
  let b := N_of_ascii c in
  String "%" (String (hexDigit (N.shiftr b 4)) (String (hexDigit (N.land b 15)) rest)).

Fixpoint escape (s : string) : string :=
  match s with
  | EmptyString => EmptyString
  | String c rest =>
      if shouldEscape c then percentByte c (escape rest)
      else String c (escape rest)
  end.

Definition PathEscape (s : string) : string := escape s.

End Url.

Module Strings.

(** [strings.Contains(s, substr)]. *)
Definition Contains (s substr : string) : bool :=
  match String.index 0 substr s with
  | Some _ => true
  | None => false
  end.

End Strings.

(** ** Go's [float64] and its conversion to [int64] *)

Module Float64.

(** IEEE 754 binary64 values: zeros, infinities, the NaN and the finite
    numbers [(-1)^s * m * 2^e], with the operations of the standard
    library's executable specification, which round to nearest, ties to
    even. A finite number is held in the canonical form that
    [binary_normalize] and the operations yield; the decoders of the
    runtime are taken to yield it too. [ltb] is Go's [<]; it is false
    when an argument is the NaN. *)
Definition float64 : Set := spec_float.

Definition prec : Z := 53.
Definition emax : Z := 1024.

Definition add : float64 -> float64 -> float64 := SFadd prec emax.
Definition mul : float64 -> float64 -> float64 := SFmul prec emax.
Definition ltb : float64 -> float64 -> bool := SFltb.
Definition leb : float64 -> float64 -> bool := SFleb.

(** The value of an integer constant such as [5.0] or [1000]. *)
Definition ofInt (z : Z) : float64 := binary_normalize prec emax z 0 false.

Definition NaN : float64 := S754_nan.

(** [int64(f)]: the fraction is discarded; for a value outside the range
    of [int64], an infinity or the NaN the Go specification leaves the
    result to the implementation, and on amd64, the architecture the
    Makefile builds for, the conversion instruction yields the least
    [int64]. *)
Definition toInt64 (f : float64) : Z :=
  match f with
  | S754_zero _ => 0%Z
  | S754_finite s m e =>
      let magnitude := if (0 <=? e)%Z then (Zpos m * 2 ^ e)%Z else (Zpos m / 2 ^ (- e))%Z in
      let v := if s then (- magnitude)%Z else magnitude in
      if ((- 9223372036854775808 <=? v) && (v <=? 9223372036854775807))%Z then v
      else (- 9223372036854775808)%Z
  | S754_infinity _ | S754_nan => (- 9223372036854775808)%Z
  end.

End Float64.

(** ** Discord API constants and types (main.go:21-140) *)

Definition apiBase : string := "https://discord.com/api/v9".

(** Pacing delays, in milliseconds. *)
Definition searchDelay : Z := 350.
Definition deleteDelay : Z := 350.
Definition reactionDelay : Z := 350.
Definition batchDelay : Z := 350.
Definition threadDiscoveryDelay : Z := 350.
Definition threadArchiveDelay : Z := 350.
Definition errorBackoffDelay : Z := 1250.

Definition maxSearchIndexWaits : Z := 40.

Definition ChannelTypeGuildText : Z := 0.
Definition ChannelTypeDM : Z := 1.
Definition ChannelTypeGuildVoice : Z := 2.
Definition ChannelTypeGroupDM : Z := 3.
Definition ChannelTypeGuildCategory : Z := 4.
Definition ChannelTypeGuildNews : Z := 5.
Definition ChannelTypeGuildNewsThread : Z := 10.
Definition ChannelTypeGuildPublicThread : Z := 11.
Definition ChannelTypeGuildPrivateThread : Z := 12.
Definition ChannelTypeGuildStageVoice : Z := 13.
Definition ChannelTypeGuildForum : Z := 15.
Definition ChannelTypeGuildMedia : Z := 16.

Record User := mkUser {
  userId : string;
  userUsername : string;
  userDiscriminator : string }.

Record Guild := mkGuild {
  guildId : string;
  guildName : string }.

Record ThreadMeta := mkThreadMeta {
  Archived : bool;
  ArchiveTimestamp : string }.

Record Channel := mkChannel {
  chanId : string;
  chanType : Z;
  chanName : string;
  chanGuildID : string;
  Recipients : list User;
  ThreadMetadata : option ThreadMeta }.

(** [ID] is a [*string]: [None] is [nil] (unicode emoji). *)
Record EmojiInfo := mkEmoji {
  emojiID : option string;
  emojiName : string }.

Record Reaction := mkReaction {
  Count : Z;
  Me : bool;
  Emoji : EmojiInfo }.

Record Message := mkMessage {
  msgID : string;
  Author : User;
  ChannelID : string;
  Hit : bool;
  Reactions : list Reaction }.

Record SearchResult := mkSearchResult {
  TotalResults : Z;
  Messages : list (list Message);
  Retry : bool }.

Record RateLimitResponse := mkRateLimit {
  rlMessage : string;
  RetryAfter : Float64.float64;
  Global : bool }.

Record Relationship := mkRelationship {
  relId : string;
  relType : Z;
  relUser : User }.

Record ThreadListResponse := mkThreadList {
  Threads : list Channel;
  HasMore : bool }.

(** ** Integers, maps and the outside world *)

(** Go [int] on amd64: 64-bit two's complement. *)
Definition wrapInt (z : Z) : Z :=
  ((z + 9223372036854775808) mod 18446744073709551616 - 9223372036854775808)%Z.

Definition addInt (a b : Z) : Z := wrapInt (a + b).

(** [m[k]] on a [map[string]bool]. *)
Definition mget (m : gmap string bool) (k : string) : bool :=
  default false (m !! k).

(** [strconv.Itoa], used in error messages only. *)
Definition itoa (z : Z) : string :=
  if (z <? 0)%Z then "-" ++ FormatUint (Z.to_N (- z)) else FormatUint (Z.to_N z).

(** The request as [requestWithBody] builds it: method, URL
    ([apiBase + path]), the [Authorization] header and the JSON body (empty
    for none). The fixed [Content-Type] and [User-Agent] headers are left
    out. *)
Record Request := mkRequest {
  reqMethod : string;
  reqURL : string;
  reqAuthorization : string;
  reqBody : string }.

(** [Header] is [resp.Header.Get]: the empty string when the header is
    absent. *)
Record Response := mkResponse {
  StatusCode : Z;
  Header : string -> string;
  Body : string }.

(** What the program does to the outside world, newest event first: the
    HTTP exchanges it starts and its calls of [time.Sleep], each with its
    [time.Duration], a number of nanoseconds; a duration that is not
    positive is no pause. *)
Inductive Event :=
| EvDo (r : Request)
| EvSleep (d : Z).

Definition World := list Event.

Definition isDo (e : Event) : bool :=
  match e with EvDo _ => true | EvSleep _ => false end.

(** Number of HTTP exchanges started so far. *)
Definition calls (w : World) : nat := length (filter (fun e => isDo e = true) w).

Definition Millisecond : Z := 1000000.

(** [time.Sleep(d)]. *)
Definition sleepFor (d : Z) (w : World) : World := EvSleep d :: w.

(** [time.Sleep] of a whole number of milliseconds, as the pacing delays
    are. *)
Definition sleep (ms : Z) (w : World) : World := sleepFor (ms * Millisecond) w.

(** The facilities of the Go runtime and libraries that the program uses
    and that are taken as given: request construction, number and JSON
    decoding, and the reader of the export index on disk
    ([LoadDataPackageChannelIDs], main.go:645, which only touches the file
    system). A decoder yields [None] where the Go call returns an error. *)
Class Runtime := {
  newRequestOK : string -> string -> bool;
  ParseFloat : string -> option Float64.float64;
  unmarshalRateLimit : string -> option RateLimitResponse;
  unmarshalGuilds : string -> option (list Guild);
  unmarshalChannels : string -> option (list Channel);
  unmarshalChannel : string -> option Channel;
  unmarshalRelationships : string -> option (list Relationship);
  unmarshalThreadList : string -> option ThreadListResponse;
  unmarshalSearchResult : string -> option SearchResult;
  unmarshalMessages : string -> option (list Message);
  LoadDataPackageChannelIDs : string -> list string * option string }.

(** [httpClient n req] is the outcome of [c.httpClient.Do(req)] when it is
    the [n]-th exchange of the run (counting from 0): a transport error
    text, or the response. *)
Record DiscordClient := mkClient {
  token : string;
  httpClient : nat -> Request -> string + Response;
  userID : string;
  username : string }.

(** Go's [error]: [None] is [nil], otherwise the message. Messages are
    kept up to their variable tail: the text of a wrapped library error
    and the response body quoted by a few of them are not modelled. *)
Definition error := option string.

(** What [request] hands back: Go's [(body, status, err)]. *)
Record Reply := mkReply {
  replyBody : string;
  replyStatus : Z;
  replyErr : error }.


(** ** HTTP layer with automatic rate-limit handling (main.go:155-234) *)

(** [time.Duration(waitTime*1000) * time.Millisecond] (main.go:227): the
    product in [float64], its conversion to [int64], and the product with
    the 1000000 nanoseconds of a millisecond, which wraps around as [int64]
    products do. *)
Definition waitDuration (waitTime : Float64.float64) : Z :=
  wrapInt (Float64.toInt64 (Float64.mul waitTime (Float64.ofInt 1000)) * Millisecond).

(** The wait computed on a 429 response (main.go:188-218), in [float64]
    as the source computes it; [a > b] is [Float64.ltb b a]. *)
Definition rateLimitWait `{Runtime} (method path : string) (resp : Response)
    : Float64.float64 :=
  let waitTime := Float64.ofInt 5 in
  let waitTime :=
    let ra := Header resp "Retry-After" in
    if negb (ra =? "") then
      match ParseFloat ra with
      | Some parsed => parsed
      | None => waitTime
      end
    else waitTime in
  let waitTime :=
    let resetAfter := Header resp "X-RateLimit-Reset-After" in
    if negb (resetAfter =? "") then
      match ParseFloat resetAfter with
      | Some parsed => if Float64.ltb waitTime parsed then parsed else waitTime
      | None => waitTime
      end
    else waitTime in
  let waitTime :=
    match unmarshalRateLimit (Body resp) with
    | Some rl =>
        if Float64.ltb (Float64.ofInt 0) (RetryAfter rl) then
          if Float64.ltb waitTime (RetryAfter rl) then RetryAfter rl else waitTime
        else waitTime
    | None => waitTime
    end in
  let waitTime := Float64.add waitTime (Float64.ofInt 1) in
  let waitTime := if Float64.ltb waitTime (Float64.ofInt 2) then Float64.ofInt 2 else waitTime in
  if (method =? "GET")
     && Strings.Contains path "/users/@me/threads/archived/private"
     && Float64.ltb waitTime (Float64.ofInt 6)
  then Float64.ofInt 6 else waitTime.

(** The loop [for attempt := 0; attempt < 5; attempt++] of
    [requestWithBody]; [remaining] is [5 - attempt]. *)
Fixpoint requestLoop `{Runtime} (c : DiscordClient) (remaining : nat)
    (method path jsonBody : string) (w : World) : Reply * World :=
  match remaining with
  | O => (mkReply "" 429 (Some "still rate limited after 5 retries"), w)
  | S remaining' =>
      if negb (newRequestOK method (apiBase ++ path)) then
        (mkReply "" 0 (Some "creating request"), w)
      else
        let req := mkRequest method (apiBase ++ path) (token c) jsonBody in
        let w1 := EvDo req :: w in
        match httpClient c (calls w) req with
        | inl e => (mkReply "" 0 (Some ("executing request: " ++ e)), w1)
        | inr resp =>
            let sc := StatusCode resp in
            if ((200 <=? sc) && (sc <? 300))%Z then (mkReply (Body resp) sc None, w1)
            else if (sc =? 429)%Z then
              let waitTime := rateLimitWait method path resp in
              requestLoop c remaining' method path jsonBody
                          (sleepFor (waitDuration waitTime) w1)
            else (mkReply (Body resp) sc None, w1)
        end
  end.

Definition requestWithBody `{Runtime} (c : DiscordClient)
    (method path jsonBody : string) (w : World) : Reply * World :=
  requestLoop c 5 method path jsonBody w.

Definition request `{Runtime} (c : DiscordClient) (method path : string)
    (w : World) : Reply * World :=
  requestWithBody c method path "" w.


(** ** Search and delete methods (main.go:684-1044) *)

(** The request paths the walkers build with [fmt.Sprintf] and the
    optional cursor parameter. *)
Definition guildSearchPath (c : DiscordClient) (guildID maxID : string) : string :=
  let path := "/guilds/" ++ guildID ++ "/messages/search?author_id=" ++ userID c
              ++ "&include_nsfw=true&sort_by=timestamp&sort_order=desc" in
  if negb (maxID =? "") then path ++ "&max_id=" ++ maxID else path.

Definition dmSearchPath (c : DiscordClient) (channelID maxID : string) : string :=
  let path := "/channels/" ++ channelID ++ "/messages/search?author_id=" ++ userID c
              ++ "&sort_by=timestamp&sort_order=desc" in
  if negb (maxID =? "") then path ++ "&max_id=" ++ maxID else path.

Definition messagesPath (channelID beforeID : string) : string :=
  let path := "/channels/" ++ channelID ++ "/messages?limit=100" in
  if negb (beforeID =? "") then path ++ "&before=" ++ beforeID else path.

Definition messagePath (channelID messageID : string) : string :=
  "/channels/" ++ channelID ++ "/messages/" ++ messageID.

(** The variables the page loop of a search walker updates. *)
Record PageState := mkPage {
  psTotalDeleted : Z;
  psDeletedThisRound : Z;
  psOldestHitID : string;
  psSeenInThisPage : gmap string bool;
  psSkippedMessageIDs : gmap string bool }.

Definition setOldest (id : string) (ps : PageState) : PageState :=
  mkPage (psTotalDeleted ps) (psDeletedThisRound ps) id
         (psSeenInThisPage ps) (psSkippedMessageIDs ps).

Definition markSeen (id : string) (ps : PageState) : PageState :=
  mkPage (psTotalDeleted ps) (psDeletedThisRound ps) (psOldestHitID ps)
         (<[id := true]> (psSeenInThisPage ps)) (psSkippedMessageIDs ps).

Definition markSkipped (id : string) (ps : PageState) : PageState :=
  mkPage (psTotalDeleted ps) (psDeletedThisRound ps) (psOldestHitID ps)
         (psSeenInThisPage ps) (<[id := true]> (psSkippedMessageIDs ps)).

Definition incTotalDeleted (ps : PageState) : PageState :=
  mkPage (addInt (psTotalDeleted ps) 1) (psDeletedThisRound ps) (psOldestHitID ps)
         (psSeenInThisPage ps) (psSkippedMessageIDs ps).

Definition incDeletedThisRound (ps : PageState) : PageState :=
  mkPage (psTotalDeleted ps) (addInt (psDeletedThisRound ps) 1) (psOldestHitID ps)
         (psSeenInThisPage ps) (psSkippedMessageIDs ps).

(** A [for _, x := range l] loop whose body updates [s] and the world. *)
Fixpoint forEach {A S : Type} (body : A -> S -> World -> S * World)
    (l : list A) (s : S) (w : World) : S * World :=
  match l with
  | [] => (s, w)
  | x :: rest => let '(s1, w1) := body x s w in forEach body rest s1 w1
  end.

(** The delete request for one hit and the reading of its outcome
    (main.go:764-796 in [SearchGuildMessages], the same code at 933-965 in
    [SearchDMMessages]). *)
Definition deleteHit `{Runtime} (c : DiscordClient) (channelID id : string)
    (ps : PageState) (w : World) : PageState * World :=
  let '(r, w) := request c "DELETE" (messagePath channelID id) w in
  let delStatus := replyStatus r in
  let '(ps, w) :=
    match replyErr r with
    | Some _ => (ps, sleep errorBackoffDelay w)
    | None =>
        if ((delStatus =? 204) || (delStatus =? 200))%Z then
          (incDeletedThisRound (incTotalDeleted ps), w)
        else if (delStatus =? 404)%Z then
          (markSkipped id (incDeletedThisRound ps), w)
        else if (delStatus =? 403)%Z then
          (markSkipped id ps, w)
        else if (delStatus =? 400)%Z then
          (markSkipped id ps, sleep errorBackoffDelay w)
        else (ps, sleep errorBackoffDelay w)
    end in
  (ps, sleep deleteDelay w).

(** Body of the inner loop of [SearchGuildMessages] (main.go:750-798). *)
Definition guildHit `{Runtime} (c : DiscordClient) (msg : Message)
    (ps : PageState) (w : World) : PageState * World :=
  if (userId (Author msg) =? userID c) && Hit msg then
    let ps := setOldest (olderSnowflakeID (psOldestHitID ps) (msgID msg)) ps in
    if (msgID msg =? "")
       || mget (psSeenInThisPage ps) (msgID msg)
       || mget (psSkippedMessageIDs ps) (msgID msg)
    then (ps, w)
    else
      let ps := markSeen (msgID msg) ps in
      if ChannelID msg =? "" then (markSkipped (msgID msg) ps, w)
      else deleteHit c (ChannelID msg) (msgID msg) ps w
  else (ps, w).

(** Body of the inner loop of [SearchDMMessages] (main.go:924-967). *)
Definition dmHit `{Runtime} (c : DiscordClient) (channelID : string) (msg : Message)
    (ps : PageState) (w : World) : PageState * World :=
  if (userId (Author msg) =? userID c) && Hit msg then
    let ps := setOldest (olderSnowflakeID (psOldestHitID ps) (msgID msg)) ps in
    if (msgID msg =? "")
       || mget (psSeenInThisPage ps) (msgID msg)
       || mget (psSkippedMessageIDs ps) (msgID msg)
    then (ps, w)
    else
      let ps := markSeen (msgID msg) ps in
      deleteHit c channelID (msgID msg) ps w
  else (ps, w).

(** The two nested [range] loops over [result.Messages]. *)
Definition guildPage `{Runtime} (c : DiscordClient) (groups : list (list Message))
    (ps : PageState) (w : World) : PageState * World :=
  forEach (fun msgGroup => forEach (guildHit c) msgGroup) groups ps w.

Definition dmPage `{Runtime} (c : DiscordClient) (channelID : string)
    (groups : list (list Message)) (ps : PageState) (w : World) : PageState * World :=
  forEach (fun msgGroup => forEach (dmHit c channelID) msgGroup) groups ps w.

(** Body of the message loop of [iterateAndDeleteChannel]
    (main.go:1024-1032). *)
Definition historyHit `{Runtime} (c : DiscordClient) (channelID : string) (msg : Message)
    (totalDeleted : Z) (w : World) : Z * World :=
  if userId (Author msg) =? userID c then
    let '(r, w) := request c "DELETE" (messagePath channelID (msgID msg)) w in
    let delStatus := replyStatus r in
    let totalDeleted :=
      match replyErr r with
      | None =>
          if ((delStatus =? 204) || (delStatus =? 200) || (delStatus =? 404))%Z
          then addInt totalDeleted 1 else totalDeleted
      | Some _ => totalDeleted
      end in
    (totalDeleted, sleep deleteDelay w)
  else (totalDeleted, w).

Definition lastMessageID (messages : list Message) : string :=
  match List.last (map Some messages) None with
  | Some m => msgID m
  | None => ""
  end.

(** [iterateAndDeleteChannel]: the [for] loop, with [fuel] bounding the
    number of pages; [None] when the bound is reached before the loop
    ends. *)
Fixpoint iterateAndDeleteLoop `{Runtime} (fuel : nat) (c : DiscordClient)
    (channelID : string) (totalDeleted : Z) (beforeID : string) (w : World)
    : option ((Z * error) * World) :=
  match fuel with
  | O => None
  | S fuel' =>
      let '(r, w) := request c "GET" (messagesPath channelID beforeID) w in
      match replyErr r with
      | Some e => Some ((totalDeleted, Some ("fetching messages: " ++ e)), w)
      | None =>
          let status := replyStatus r in
          if (status =? 403)%Z then Some ((totalDeleted, None), w)
          else if negb (status =? 200)%Z then
            Some ((totalDeleted, Some ("fetching messages: HTTP " ++ itoa status)), w)
          else
            match unmarshalMessages (replyBody r) with
            | None => Some ((totalDeleted, Some "parsing messages"), w)
            | Some messages =>
                if (length messages =? 0)%nat then Some ((totalDeleted, None), w)
                else
                  let '(totalDeleted, w) := forEach (historyHit c channelID) messages totalDeleted w in
                  let beforeID := lastMessageID messages in
                  if (length messages <? 100)%nat then Some ((totalDeleted, None), w)
                  else iterateAndDeleteLoop fuel' c channelID totalDeleted beforeID (sleep batchDelay w)
            end
      end
  end.

Definition iterateAndDeleteChannel `{Runtime} (fuel : nat) (c : DiscordClient)
    (channelID : string) (w : World) : option ((Z * error) * World) :=
  iterateAndDeleteLoop fuel c channelID 0 "" w.

(** [SearchDMMessages]: the [for] loop (main.go:863-985). When the search
    answers with a status other than 200 and 202 the walker hands the
    channel to [iterateAndDeleteChannel]. *)
Fixpoint searchDMLoop `{Runtime} (fuel : nat) (c : DiscordClient) (channelID : string)
    (totalDeleted indexWaitCount : Z) (maxID : string)
    (skippedMessageIDs : gmap string bool) (w : World)
    : option ((Z * error) * World) :=
  match fuel with
  | O => None
  | S fuel' =>
      let '(r, w) := request c "GET" (dmSearchPath c channelID maxID) w in
      match replyErr r with
      | Some e => Some ((totalDeleted, Some ("search request: " ++ e)), w)
      | None =>
          let status := replyStatus r in
          if (status =? 202)%Z then
            let indexWaitCount := addInt indexWaitCount 1 in
            if (maxSearchIndexWaits <=? indexWaitCount)%Z then
              Some ((totalDeleted, Some "search index not ready after 40 retries"), w)
            else
              searchDMLoop fuel' c channelID totalDeleted indexWaitCount maxID
                           skippedMessageIDs (sleep 3000 w)
          else
            let indexWaitCount := 0%Z in
            if ((status =? 403) || (status =? 400) || (status =? 404))%Z then
              match iterateAndDeleteChannel fuel' c channelID w with
              | None => None
              | Some ((fallbackCount, fallbackErr), w) =>
                  Some ((addInt totalDeleted fallbackCount, fallbackErr), w)
              end
            else if negb (status =? 200)%Z then
              match iterateAndDeleteChannel fuel' c channelID w with
              | None => None
              | Some ((fallbackCount, fallbackErr), w) =>
                  match fallbackErr with
                  | Some e =>
                      Some ((addInt totalDeleted fallbackCount,
                             Some ("search returned HTTP " ++ itoa status
                                   ++ " and fallback failed: " ++ e)), w)
                  | None => Some ((addInt totalDeleted fallbackCount, None), w)
                  end
              end
            else
              match unmarshalSearchResult (replyBody r) with
              | None => Some ((totalDeleted, Some "parsing search results"), w)
              | Some result =>
                  if Retry result then
                    let indexWaitCount := addInt indexWaitCount 1 in
                    if (maxSearchIndexWaits <=? indexWaitCount)%Z then
                      Some ((totalDeleted, Some "search index requested retry too many times"), w)
                    else
                      searchDMLoop fuel' c channelID totalDeleted indexWaitCount maxID
                                   skippedMessageIDs (sleep 3000 w)
                  else
                    let indexWaitCount := 0%Z in
                    if (TotalResults result =? 0)%Z || (length (Messages result) =? 0)%nat then
                      Some ((totalDeleted, None), w)
                    else
                      let '(ps, w) :=
                        dmPage c channelID (Messages result)
                               (mkPage totalDeleted 0 "" ∅ skippedMessageIDs) w in
                      if psOldestHitID ps =? "" then Some ((psTotalDeleted ps, None), w)
                      else
                        let nextMaxID := previousSnowflakeID (psOldestHitID ps) in
                        if nextMaxID =? maxID then Some ((psTotalDeleted ps, None), w)
                        else
                          searchDMLoop fuel' c channelID (psTotalDeleted ps) indexWaitCount
                                       nextMaxID (psSkippedMessageIDs ps) (sleep searchDelay w)
              end
      end
  end.

Definition SearchDMMessages `{Runtime} (fuel : nat) (c : DiscordClient)
    (channelID : string) (w : World) : option ((Z * error) * World) :=
  searchDMLoop fuel c channelID 0 0 "" ∅ w.

(** How the [for] loop of [SearchGuildMessages] is left: by [break], after
    which the deep-scan test runs, or by [return]. *)
Inductive LoopExit :=
| Broke (totalDeleted : Z)
| Returned (totalDeleted : Z) (err : error).

Fixpoint searchGuildLoop `{Runtime} (fuel : nat) (c : DiscordClient) (guildID : string)
    (totalDeleted indexWaitCount : Z) (maxID : string)
    (skippedMessageIDs : gmap string bool) (w : World)
    : option (LoopExit * World) :=
  match fuel with
  | O => None
  | S fuel' =>
      let '(r, w) := request c "GET" (guildSearchPath c guildID maxID) w in
      match replyErr r with
      | Some e => Some (Returned totalDeleted (Some ("search request: " ++ e)), w)
      | None =>
          let status := replyStatus r in
          if (status =? 202)%Z then
            let indexWaitCount := addInt indexWaitCount 1 in
            if (maxSearchIndexWaits <=? indexWaitCount)%Z then
              Some (Returned totalDeleted (Some "search index not ready after 40 retries"), w)
            else
              searchGuildLoop fuel' c guildID totalDeleted indexWaitCount maxID
                              skippedMessageIDs (sleep 3000 w)
          else
            let indexWaitCount := 0%Z in
            if (status =? 403)%Z then Some (Returned totalDeleted None, w)
            else if negb (status =? 200)%Z then
              Some (Returned totalDeleted
                      (Some ("search returned HTTP " ++ itoa status ++ ": " ++ replyBody r)), w)
            else
              match unmarshalSearchResult (replyBody r) with
              | None => Some (Returned totalDeleted (Some "parsing search results"), w)
              | Some result =>
                  if Retry result then
                    let indexWaitCount := addInt indexWaitCount 1 in
                    if (maxSearchIndexWaits <=? indexWaitCount)%Z then
                      Some (Returned totalDeleted
                              (Some "search index requested retry too many times"), w)
                    else
                      searchGuildLoop fuel' c guildID totalDeleted indexWaitCount maxID
                                      skippedMessageIDs (sleep 3000 w)
                  else
                    let indexWaitCount := 0%Z in
                    if (TotalResults result =? 0)%Z || (length (Messages result) =? 0)%nat then
                      Some (Broke totalDeleted, w)
                    else
                      let '(ps, w) :=
                        guildPage c (Messages result)
                                  (mkPage totalDeleted 0 "" ∅ skippedMessageIDs) w in
                      if psOldestHitID ps =? "" then Some (Broke (psTotalDeleted ps), w)
                      else
                        let nextMaxID := previousSnowflakeID (psOldestHitID ps) in
                        if nextMaxID =? maxID then Some (Broke (psTotalDeleted ps), w)
                        else
                          searchGuildLoop fuel' c guildID (psTotalDeleted ps) indexWaitCount
                                          nextMaxID (psSkippedMessageIDs ps) (sleep searchDelay w)
              end
      end
  end.

(** ** Authentication and discovery (main.go:322-639) *)

Definition lastGuildID (guilds : list Guild) : string :=
  match List.last (map Some guilds) None with
  | Some g => guildId g
  | None => ""
  end.

Fixpoint getAllGuildsLoop `{Runtime} (fuel : nat) (c : DiscordClient)
    (allGuilds : list Guild) (afterID : string) (w : World)
    : option ((list Guild * error) * World) :=
  match fuel with
  | O => None
  | S fuel' =>
      let path := "/users/@me/guilds?limit=200" in
      let path := if negb (afterID =? "") then path ++ "&after=" ++ afterID else path in
      let '(r, w) := request c "GET" path w in
      match replyErr r with
      | Some e => Some ((allGuilds, Some ("fetching guilds: " ++ e)), w)
      | None =>
          let status := replyStatus r in
          if negb (status =? 200)%Z then
            Some ((allGuilds, Some ("fetching guilds: HTTP " ++ itoa status)), w)
          else
            match unmarshalGuilds (replyBody r) with
            | None => Some ((allGuilds, Some "parsing guilds"), w)
            | Some guilds =>
                if (length guilds =? 0)%nat then Some ((allGuilds, None), w)
                else
                  let allGuilds := (allGuilds ++ guilds)%list in
                  let afterID := lastGuildID guilds in
                  if (length guilds <? 200)%nat then Some ((allGuilds, None), w)
                  else getAllGuildsLoop fuel' c allGuilds afterID (sleep batchDelay w)
            end
      end
  end.

Definition GetAllGuilds `{Runtime} (fuel : nat) (c : DiscordClient) (w : World)
    : option ((list Guild * error) * World) :=
  getAllGuildsLoop fuel c [] "" w.

Definition GetDMChannels `{Runtime} (c : DiscordClient) (w : World)
    : (list Channel * error) * World :=
  let '(r, w) := request c "GET" "/users/@me/channels" w in
  match replyErr r with
  | Some e => (([], Some ("fetching DM channels: " ++ e)), w)
  | None =>
      if negb (replyStatus r =? 200)%Z then
        (([], Some ("fetching DM channels: HTTP " ++ itoa (replyStatus r))), w)
      else
        match unmarshalChannels (replyBody r) with
        | None => (([], Some "parsing DM channels"), w)
        | Some channels => ((channels, None), w)
        end
  end.

Definition GetRelationships `{Runtime} (c : DiscordClient) (w : World)
    : (list Relationship * error) * World :=
  let '(r, w) := request c "GET" "/users/@me/relationships" w in
  match replyErr r with
  | Some e => (([], Some ("fetching relationships: " ++ e)), w)
  | None =>
      if negb (replyStatus r =? 200)%Z then
        (([], Some ("fetching relationships: HTTP " ++ itoa (replyStatus r))), w)
      else
        match unmarshalRelationships (replyBody r) with
        | None => (([], Some "parsing relationships"), w)
        | Some rels => ((rels, None), w)
        end
  end.

Definition dquote : string := String (ascii_of_nat 34) EmptyString.

(** [OpenDMChannel] returns a channel pointer and an error with exactly one
    of the two set: [inl] is the channel, [inr] the error. The body is the
    JSON object with the one field [recipient_id]. *)
Definition OpenDMChannel `{Runtime} (c : DiscordClient) (recipientID : string) (w : World)
    : (Channel + string) * World :=
  let jsonBody := "{" ++ dquote ++ "recipient_id" ++ dquote ++ ":"
                  ++ dquote ++ recipientID ++ dquote ++ "}" in
  let '(r, w) := requestWithBody c "POST" "/users/@me/channels" jsonBody w in
  match replyErr r with
  | Some e => (inr ("opening DM channel: " ++ e), w)
  | None =>
      if negb (replyStatus r =? 200)%Z then
        (inr ("opening DM channel: HTTP " ++ itoa (replyStatus r)), w)
      else
        match unmarshalChannel (replyBody r) with
        | None => (inr "parsing DM channel", w)
        | Some ch => (inl ch, w)
        end
  end.

Definition GetGuildChannels `{Runtime} (c : DiscordClient) (guildID : string) (w : World)
    : (list Channel * error) * World :=
  let '(r, w) := request c "GET" ("/guilds/" ++ guildID ++ "/channels") w in
  match replyErr r with
  | Some e => (([], Some ("fetching guild channels: " ++ e)), w)
  | None =>
      if (replyStatus r =? 403)%Z then (([], None), w)
      else if negb (replyStatus r =? 200)%Z then
        (([], Some ("fetching guild channels: HTTP " ++ itoa (replyStatus r))), w)
      else
        match unmarshalChannels (replyBody r) with
        | None => (([], Some "parsing guild channels"), w)
        | Some channels => ((channels, None), w)
        end
  end.

Definition GetActiveGuildThreads `{Runtime} (c : DiscordClient) (guildID : string) (w : World)
    : (list Channel * error) * World :=
  let '(r, w) := request c "GET" ("/guilds/" ++ guildID ++ "/threads/active") w in
  match replyErr r with
  | Some e => (([], Some ("fetching active threads: " ++ e)), w)
  | None =>
      if (replyStatus r =? 403)%Z then (([], None), w)
      else if negb (replyStatus r =? 200)%Z then
        (([], Some ("fetching active threads: HTTP " ++ itoa (replyStatus r))), w)
      else
        match unmarshalThreadList (replyBody r) with
        | None => (([], Some "parsing active threads"), w)
        | Some result => ((Threads result, None), w)
        end
  end.

Definition lastThread (threads : list Channel) : option Channel :=
  List.last (map Some threads) None.

Fixpoint getArchivedThreadsLoop `{Runtime} (fuel : nat) (c : DiscordClient)
    (channelID kind : string) (allThreads : list Channel) (before : string) (w : World)
    : option ((list Channel * error) * World) :=
  match fuel with
  | O => None
  | S fuel' =>
      let path := "/channels/" ++ channelID ++ "/threads/archived/" ++ kind ++ "?limit=100" in
      let path := if negb (before =? "") then path ++ "&before=" ++ before else path in
      let '(r, w) := request c "GET" path w in
      match replyErr r with
      | Some e => Some ((allThreads, Some ("fetching archived " ++ kind ++ " threads: " ++ e)), w)
      | None =>
          let status := replyStatus r in
          if ((status =? 403) || (status =? 400))%Z then Some ((allThreads, None), w)
          else if negb (status =? 200)%Z then
            Some ((allThreads,
                   Some ("fetching archived " ++ kind ++ " threads: HTTP " ++ itoa status)), w)
          else
            match unmarshalThreadList (replyBody r) with
            | None => Some ((allThreads, Some "parsing archived threads"), w)
            | Some result =>
                let allThreads := (allThreads ++ Threads result)%list in
                if negb (HasMore result) || (length (Threads result) =? 0)%nat then
                  Some ((allThreads, None), w)
                else
                  match lastThread (Threads result) with
                  | Some {| ThreadMetadata := Some meta |} =>
                      getArchivedThreadsLoop fuel' c channelID kind allThreads
                                             (ArchiveTimestamp meta) (sleep batchDelay w)
                  | _ => Some ((allThreads, None), w)
                  end
            end
      end
  end.

Definition getArchivedThreads `{Runtime} (fuel : nat) (c : DiscordClient)
    (channelID kind : string) (w : World) : option ((list Channel * error) * World) :=
  getArchivedThreadsLoop fuel c channelID kind [] "" w.

Definition GetArchivedPublicThreads `{Runtime} (fuel : nat) (c : DiscordClient)
    (channelID : string) (w : World) : option ((list Channel * error) * World) :=
  getArchivedThreads fuel c channelID "public" w.

Definition GetArchivedPrivateThreads `{Runtime} (fuel : nat) (c : DiscordClient)
    (channelID : string) (w : World) : option ((list Channel * error) * World) :=
  getArchivedThreads fuel c channelID "private" w.

Fixpoint getJoinedArchivedPrivateLoop `{Runtime} (fuel : nat) (c : DiscordClient)
    (channelID : string) (allThreads : list Channel) (before : string) (w : World)
    : option ((list Channel * error) * World) :=
  match fuel with
  | O => None
  | S fuel' =>
      let path := "/channels/" ++ channelID ++ "/users/@me/threads/archived/private?limit=100" in
      let path := if negb (before =? "") then path ++ "&before=" ++ before else path in
      let '(r, w) := request c "GET" path w in
      match replyErr r with
      | Some e =>
          Some ((allThreads, Some ("fetching joined archived private threads: " ++ e)), w)
      | None =>
          let status := replyStatus r in
          if ((status =? 403) || (status =? 400) || (status =? 404))%Z then
            Some ((allThreads, None), w)
          else if negb (status =? 200)%Z then
            Some ((allThreads,
                   Some ("fetching joined archived private threads: HTTP " ++ itoa status)), w)
          else
            match unmarshalThreadList (replyBody r) with
            | None => Some ((allThreads, Some "parsing joined archived private threads"), w)
            | Some result =>
                let allThreads := (allThreads ++ Threads result)%list in
                if negb (HasMore result) || (length (Threads result) =? 0)%nat then
                  Some ((allThreads, None), w)
                else
                  match lastThread (Threads result) with
                  | Some {| ThreadMetadata := Some meta |} =>
                      if negb (ArchiveTimestamp meta =? "") then
                        getJoinedArchivedPrivateLoop fuel' c channelID allThreads
                                                     (ArchiveTimestamp meta) (sleep batchDelay w)
                      else Some ((allThreads, None), w)
                  | _ => Some ((allThreads, None), w)
                  end
            end
      end
  end.

Definition GetJoinedArchivedPrivateThreads `{Runtime} (fuel : nat) (c : DiscordClient)
    (channelID : string) (w : World) : option ((list Channel * error) * World) :=
  getJoinedArchivedPrivateLoop fuel c channelID [] "" w.

(** The closure [addChannel] of [discoverAllGuildChannelsAndThreads] and
    the two variables it captures, [seen] and [channelIDs]. *)
Definition addChannel (id : string) (st : gmap string bool * list string)
    : gmap string bool * list string :=
  if negb (mget (fst st) id) then (<[id := true]> (fst st), (snd st ++ [id])%list) else st.

Definition addThreads (res : list Channel * error) (st : gmap string bool * list string)
    : gmap string bool * list string :=
  match snd res with
  | None => fold_left (fun st t => addChannel (chanId t) st) (fst res) st
  | Some _ => st
  end.

(** The [switch ch.Type] of the first loop: the state is the pair of
    [addChannel]'s variables and [parentChannelIDs]. *)
Definition classifyChannel (ch : Channel)
    (st : (gmap string bool * list string) * list string)
    : (gmap string bool * list string) * list string :=
  let t := chanType ch in
  if ((t =? ChannelTypeGuildText) || (t =? ChannelTypeGuildNews))%Z then
    (addChannel (chanId ch) (fst st), (snd st ++ [chanId ch])%list)
  else if ((t =? ChannelTypeGuildVoice) || (t =? ChannelTypeGuildStageVoice))%Z then
    (addChannel (chanId ch) (fst st), snd st)
  else if ((t =? ChannelTypeGuildNewsThread) || (t =? ChannelTypeGuildPublicThread)
           || (t =? ChannelTypeGuildPrivateThread))%Z then
    (addChannel (chanId ch) (fst st), snd st)
  else if ((t =? ChannelTypeGuildForum) || (t =? ChannelTypeGuildMedia))%Z then
    (fst st, (snd st ++ [chanId ch])%list)
  else st.

(** The loop over [parentChannelIDs] (main.go:611-636). *)
Fixpoint discoverArchived `{Runtime} (fuel : nat) (c : DiscordClient)
    (parentChannelIDs : list string) (st : gmap string bool * list string) (w : World)
    : option ((gmap string bool * list string) * World) :=
  match parentChannelIDs with
  | [] => Some (st, w)
  | parentID :: rest =>
      match GetArchivedPublicThreads fuel c parentID w with
      | None => None
      | Some (pubThreads, w) =>
          let st := addThreads pubThreads st in
          let w := sleep threadArchiveDelay w in
          match GetArchivedPrivateThreads fuel c parentID w with
          | None => None
          | Some (privThreads, w) =>
              let st := addThreads privThreads st in
              let w := sleep threadArchiveDelay w in
              match GetJoinedArchivedPrivateThreads fuel c parentID w with
              | None => None
              | Some (joinedPrivThreads, w) =>
                  let st := addThreads joinedPrivThreads st in
                  discoverArchived fuel c rest st (sleep threadDiscoveryDelay w)
              end
          end
      end
  end.

Definition discoverAllGuildChannelsAndThreads `{Runtime} (fuel : nat) (c : DiscordClient)
    (guildID : string) (w : World) : option (list string * World) :=
  let '((channels, err), w) := GetGuildChannels c guildID w in
  match err with
  | Some _ => Some ([], w)
  | None =>
      let '(st, parentChannelIDs) := fold_left (fun st ch => classifyChannel ch st) channels ((∅, []), []) in
      let '(activeThreads, w) := GetActiveGuildThreads c guildID w in
      let st := addThreads activeThreads st in
      match discoverArchived fuel c parentChannelIDs st w with
      | None => None
      | Some (st, w) => Some (snd st, w)
      end
  end.

(** ** Deep scan and the guild walker (main.go:687-853) *)

(** The loop of [deepScanGuildMessages] over the discovered channels; a
    channel whose scan ends in an error is passed over ([continue]). *)
Fixpoint deepScanLoop `{Runtime} (fuel : nat) (c : DiscordClient)
    (channelIDs : list string) (totalDeleted : Z) (w : World) : option (Z * World) :=
  match channelIDs with
  | [] => Some (totalDeleted, w)
  | chID :: rest =>
      match iterateAndDeleteChannel fuel c chID w with
      | None => None
      | Some ((count, Some _), w) => deepScanLoop fuel c rest totalDeleted w
      | Some ((count, None), w) =>
          deepScanLoop fuel c rest (addInt totalDeleted count) (sleep batchDelay w)
      end
  end.

Definition deepScanGuildMessages `{Runtime} (fuel : nat) (c : DiscordClient)
    (guildID : string) (w : World) : option (Z * World) :=
  match discoverAllGuildChannelsAndThreads fuel c guildID w with
  | None => None
  | Some (channelIDs, w) =>
      if (length channelIDs =? 0)%nat then Some (0%Z, w)
      else deepScanLoop fuel c channelIDs 0 w
  end.

Definition SearchGuildMessages `{Runtime} (fuel : nat) (c : DiscordClient)
    (guildID : string) (w : World) : option ((Z * error) * World) :=
  match searchGuildLoop fuel c guildID 0 0 "" ∅ w with
  | None => None
  | Some (Returned totalDeleted err, w) => Some ((totalDeleted, err), w)
  | Some (Broke totalDeleted, w) =>
      if (totalDeleted =? 0)%Z then
        match deepScanGuildMessages fuel c guildID w with
        | None => None
        | Some (n, w) => Some ((addInt totalDeleted n, None), w)
        end
      else Some ((totalDeleted, None), w)
  end.

(** ** Reaction removal methods (main.go:1053-1138) *)

Definition formatEmojiForURL (emoji : EmojiInfo) : string :=
  match emojiID emoji with
  | Some id =>
      if negb (id =? "") then emojiName emoji ++ ":" ++ id
      else Url.PathEscape (emojiName emoji)
  | None => Url.PathEscape (emojiName emoji)
  end.

Definition removeReaction `{Runtime} (c : DiscordClient) (channelID messageID : string)
    (emoji : EmojiInfo) (w : World) : error * World :=
  let emojiPath := formatEmojiForURL emoji in
  let path := "/channels/" ++ channelID ++ "/messages/" ++ messageID
              ++ "/reactions/" ++ emojiPath ++ "/@me" in
  let '(r, w) := request c "DELETE" path w in
  match replyErr r with
  | Some e => (Some e, w)
  | None =>
      let status := replyStatus r in
      if ((status =? 204) || (status =? 200) || (status =? 404))%Z then (None, w)
      else (Some ("HTTP " ++ itoa status), w)
  end.

(** Body of the loop over [msg.Reactions] (main.go:1117-1125). *)
Definition reactionStep `{Runtime} (c : DiscordClient) (channelID messageID : string)
    (reaction : Reaction) (totalRemoved : Z) (w : World) : Z * World :=
  if Me reaction then
    let '(err, w) := removeReaction c channelID messageID (Emoji reaction) w in
    let totalRemoved :=
      match err with
      | None => addInt totalRemoved 1
      | Some _ => totalRemoved
      end in
    (totalRemoved, sleep reactionDelay w)
  else (totalRemoved, w).

Fixpoint removeReactionsLoop `{Runtime} (fuel : nat) (c : DiscordClient)
    (channelID : string) (totalRemoved : Z) (beforeID : string) (w : World)
    : option (Z * World) :=
  match fuel with
  | O => None
  | S fuel' =>
      let '(r, w) := request c "GET" (messagesPath channelID beforeID) w in
      match replyErr r with
      | Some _ => Some (totalRemoved, w)
      | None =>
          let status := replyStatus r in
          if ((status =? 403) || (status =? 404))%Z then Some (totalRemoved, w)
          else if negb (status =? 200)%Z then Some (totalRemoved, w)
          else
            match unmarshalMessages (replyBody r) with
            | None => Some (totalRemoved, w)
            | Some messages =>
                if (length messages =? 0)%nat then Some (totalRemoved, w)
                else
                  let '(totalRemoved, w) :=
                    forEach (fun msg => forEach (reactionStep c channelID (msgID msg))
                                                (Reactions msg))
                            messages totalRemoved w in
                  let beforeID := lastMessageID messages in
                  if (length messages <? 100)%nat then Some (totalRemoved, w)
                  else removeReactionsLoop fuel' c channelID totalRemoved beforeID
                                           (sleep batchDelay w)
            end
      end
  end.

Definition removeReactionsFromChannel `{Runtime} (fuel : nat) (c : DiscordClient)
    (channelID : string) (w : World) : option (Z * World) :=
  removeReactionsLoop fuel c channelID 0 "" w.

(** ** Main purge orchestration (main.go:1145-1524) *)

Record ServerStat := mkServerStat {
  statGuildID : string;
  statGuildName : string;
  statMessages : Z;
  statReactions : Z }.

(** [TimeElapsed] is wall-clock time and is left out. *)
Record PurgeStats := mkPurgeStats {
  TotalMessagesDeleted : Z;
  TotalReactionsRemoved : Z;
  TotalDMMessagesDeleted : Z;
  ServerStats : list ServerStat;
  DMChannelsProcessed : Z }.

(** The two maps may be [nil] ([None]). *)
Record PurgeOptions := mkPurgeOptions {
  ExcludedGuildIDs : option (gmap string bool);
  ExcludedDMChannelIDs : option (gmap string bool) }.

(** [len(m)] on a possibly-nil map. *)
Definition mapLen (m : option (gmap string bool)) : nat :=
  match m with
  | Some m => size m
  | None => 0
  end.

Definition isGuildExcluded (o : PurgeOptions) (guildID : string) : bool :=
  match ExcludedGuildIDs o with
  | Some m => mget m guildID
  | None => false
  end.

Definition isDMExcluded (o : PurgeOptions) (channelID : string) : bool :=
  match ExcludedDMChannelIDs o with
  | Some m => mget m channelID
  | None => false
  end.

(** The methods of [*DiscordClient] that [PurgeAll] calls, as an interface
    over an arbitrary world [W]. A method yields [None] when it does not
    return. [httpClientMethods] below instantiates it with the functions
    modelled above. *)
Record ClientMethods (W : Type) := mkMethods {
  doGetAllGuilds : W -> option ((list Guild * error) * W);
  doGetDMChannels : W -> option ((list Channel * error) * W);
  doGetRelationships : W -> option ((list Relationship * error) * W);
  doOpenDMChannel : string -> W -> option ((Channel + string) * W);
  doLoadDataPackageChannelIDs : string -> W -> option ((list string * error) * W);
  doSearchGuildMessages : string -> W -> option ((Z * error) * W);
  doSearchDMMessages : string -> W -> option ((Z * error) * W);
  doIterateAndDeleteChannel : string -> W -> option ((Z * error) * W);
  doDiscoverAllGuildChannelsAndThreads : string -> W -> option (list string * W);
  doRemoveReactionsFromChannel : string -> W -> option (Z * W);
  doSleep : Z -> W -> option (unit * W) }.

Arguments doGetAllGuilds {W}.
Arguments doGetDMChannels {W}.
Arguments doGetRelationships {W}.
Arguments doOpenDMChannel {W}.
Arguments doLoadDataPackageChannelIDs {W}.
Arguments doSearchGuildMessages {W}.
Arguments doSearchDMMessages {W}.
Arguments doIterateAndDeleteChannel {W}.
Arguments doDiscoverAllGuildChannelsAndThreads {W}.
Arguments doRemoveReactionsFromChannel {W}.
Arguments doSleep {W}.

Definition httpClientMethods `{Runtime} (fuel : nat) (c : DiscordClient)
    : ClientMethods World :=
  {| doGetAllGuilds := GetAllGuilds fuel c;
     doGetDMChannels := fun w => Some (GetDMChannels c w);
     doGetRelationships := fun w => Some (GetRelationships c w);
     doOpenDMChannel := fun recipientID w => Some (OpenDMChannel c recipientID w);
     doLoadDataPackageChannelIDs := fun path w => Some (LoadDataPackageChannelIDs path, w);
     doSearchGuildMessages := SearchGuildMessages fuel c;
     doSearchDMMessages := SearchDMMessages fuel c;
     doIterateAndDeleteChannel := iterateAndDeleteChannel fuel c;
     doDiscoverAllGuildChannelsAndThreads := discoverAllGuildChannelsAndThreads fuel c;
     doRemoveReactionsFromChannel := removeReactionsFromChannel fuel c;
     doSleep := fun ms w => Some (tt, sleep ms w) |}.

(** The phases of [PurgeAll], as its banner comments name them. *)
Inductive Phase := Phase1 | Phase2a | Phase2b | Phase2c | Phase3a | Phase3b.

Inductive Call :=
| CallGetAllGuilds
| CallGetDMChannels
| CallGetRelationships
| CallOpenDMChannel (recipientID : string)
| CallLoadDataPackageChannelIDs (path : string)
| CallSearchGuildMessages (guildID : string)
| CallSearchDMMessages (channelID : string)
| CallIterateAndDeleteChannel (channelID : string)
| CallDiscoverAllGuildChannelsAndThreads (guildID : string)
| CallRemoveReactionsFromChannel (channelID : string)
| CallSleep (ms : Z).

Inductive Result :=
| ResGuilds (r : list Guild * error)
| ResChannels (r : list Channel * error)
| ResRelationships (r : list Relationship * error)
| ResChannel (r : Channel + string)
| ResIDs (r : list string * error)
| ResCount (r : Z * error)
| ResList (r : list string)
| ResNumber (r : Z)
| ResUnit (r : unit).

(** One method call made by [PurgeAll]: the phase it is made in, the call,
    and what it returned ([None] when it never returned). *)
Record Invocation := mkInvocation {
  invPhase : Phase;
  invCall : Call;
  invResult : option Result }.

(** The orchestrator threads the world and the list of the calls made so
    far (newest first). A computation yields [None] when a method it
    called did not return; the calls made up to there are kept. *)
Definition Orch (W A : Type) : Type :=
  W * list Invocation -> option A * (W * list Invocation).

Definition oret {W A : Type} (a : A) : Orch W A := fun s => (Some a, s).

Definition obind {W A B : Type} (m : Orch W A) (k : A -> Orch W B) : Orch W B :=
  fun s =>
    match m s with
    | (Some a, s') => k a s'
    | (None, s') => (None, s')
    end.

Notation "'let*' x ':=' m 'in' k" := (obind m (fun x => k))
  (at level 10, x name, m at level 100, k at level 200, only parsing).
Notation "'let*' ' pat ':=' m 'in' k" := (obind m (fun x => match x with pat => k end))
  (at level 10, pat pattern, m at level 100, k at level 200, only parsing).

Definition call {W A : Type} (p : Phase) (c : Call) (inj : A -> Result)
    (method : W -> option (A * W)) : Orch W A :=
  fun s =>
    match method (fst s) with
    | Some (a, w') => (Some a, (w', mkInvocation p c (Some (inj a)) :: snd s))
    | None => (None, (fst s, mkInvocation p c None :: snd s))
    end.

(** A [for _, x := range l] loop in the orchestrator. *)
Fixpoint forM {W A S : Type} (body : A -> S -> Orch W S) (l : list A) (s : S) : Orch W S :=
  match l with
  | [] => oret s
  | x :: rest => let* s1 := body x s in forM body rest s1
  end.

(** The order in which [for chID := range processedDMs] visits the keys:
    Go leaves it unspecified, each key is visited once. *)
Record RangeOrder := mkRangeOrder {
  rangeKeys : gmap string bool -> list string;
  rangeKeys_perm : forall m, rangeKeys m ≡ₚ (map_to_list m).*1 }.

Definition canonicalRange : RangeOrder :=
  {| rangeKeys := fun m => (map_to_list m).*1;
     rangeKeys_perm := fun m => reflexivity _ |}.

(** The variables of [PurgeAll] that the DM phases update. *)
Record DMState := mkDMState {
  processedDMs : gmap string bool;
  totalDMMessages : Z;
  totalDeleted : Z }.

Definition markProcessed (id : string) (st : DMState) : DMState :=
  mkDMState (<[id := true]> (processedDMs st)) (totalDMMessages st) (totalDeleted st).

Definition addCount (count : Z) (st : DMState) : DMState :=
  mkDMState (processedDMs st) (addInt (totalDMMessages st) count)
            (addInt (totalDeleted st) count).

Definition displayName (guild : Guild) : string :=
  if guildName guild =? "" then guildId guild else guildName guild.

(** Phase 1: server messages via the search API (main.go:1194-1247). The
    result is [guilds], [totalDeleted] and [serverStats]. *)
Definition phase1 {W : Type} (api : ClientMethods W) (options : PurgeOptions)
    : Orch W (list Guild * (Z * list ServerStat)) :=
  let* '(guilds, err) := call Phase1 CallGetAllGuilds ResGuilds (doGetAllGuilds api) in
  match err with
  | Some _ => oret ([], (0%Z, []))
  | None =>
      let guilds :=
        if (0 <? mapLen (ExcludedGuildIDs options))%nat then
          List.filter (fun guild => negb (isGuildExcluded options (guildId guild))) guilds
        else guilds in
      let* acc := forM (fun guild (acc : Z * list ServerStat) =>
                     let name := displayName guild in
                     let* '(count, err) :=
                       call Phase1 (CallSearchGuildMessages (guildId guild))
                            ResCount (doSearchGuildMessages api (guildId guild)) in
                     oret (addInt (fst acc) count,
                           (snd acc ++ [mkServerStat (guildId guild) name count 0])%list))
                  guilds (0%Z, []) in
      oret (guilds, acc)
  end.

(** Phase 2a: visible/open DM channels (main.go:1255-1298). *)
Definition phase2a {W : Type} (api : ClientMethods W) (options : PurgeOptions)
    (st : DMState) : Orch W DMState :=
  let* '(channels, err) := call Phase2a CallGetDMChannels ResChannels (doGetDMChannels api) in
  match err with
  | Some _ => oret st
  | None =>
      let channelsToProcess :=
        if (0 <? mapLen (ExcludedDMChannelIDs options))%nat then
          List.filter (fun ch => negb (isDMExcluded options (chanId ch))) channels
        else channels in
      forM (fun ch st =>
              let st := markProcessed (chanId ch) st in
              let* '(count, err) := call Phase2a (CallSearchDMMessages (chanId ch))
                                    ResCount (doSearchDMMessages api (chanId ch)) in
              oret (addCount count st))
           channelsToProcess st
  end.

(** Phase 2b: hidden DMs via relationships (main.go:1307-1366). *)
Definition phase2b {W : Type} (api : ClientMethods W) (options : PurgeOptions)
    (st : DMState) : Orch W DMState :=
  let* '(rels, err) := call Phase2b CallGetRelationships ResRelationships (doGetRelationships api) in
  match err with
  | Some _ => oret st
  | None =>
      forM (fun rel st =>
              let* opened := call Phase2b (CallOpenDMChannel (userId (relUser rel)))
                             ResChannel (doOpenDMChannel api (userId (relUser rel))) in
              match opened with
              | inr _ => oret st
              | inl ch =>
                  if mget (processedDMs st) (chanId ch) then oret st
                  else if isDMExcluded options (chanId ch) then oret st
                  else
                    let st := markProcessed (chanId ch) st in
                    let* '(count, err) := call Phase2b (CallSearchDMMessages (chanId ch))
                                          ResCount (doSearchDMMessages api (chanId ch)) in
                    let* _ := call Phase2b (CallSleep 500) ResUnit (doSleep api 500) in
                    oret (addCount count st)
              end)
           rels st
  end.

(** Phase 2c: DMs from the data package, when a path was given
    (main.go:1371-1420). *)
Definition phase2c {W : Type} (api : ClientMethods W) (dataPackagePath : string)
    (options : PurgeOptions) (st : DMState) : Orch W DMState :=
  if negb (dataPackagePath =? "") then
    let* '(packageChannelIDs, err) :=
        call Phase2c (CallLoadDataPackageChannelIDs dataPackagePath)
             ResIDs (doLoadDataPackageChannelIDs api dataPackagePath) in
    match err with
    | Some _ => oret st
    | None =>
        forM (fun chID st =>
                if isDMExcluded options chID then oret st
                else if mget (processedDMs st) chID then oret st
                else
                  let st := markProcessed chID st in
                  let* '(count, err) := call Phase2c (CallSearchDMMessages chID)
                                        ResCount (doSearchDMMessages api chID) in
                  let* count := match err with
                           | Some _ =>
                               let* '(count, _) :=
                                 call Phase2c (CallIterateAndDeleteChannel chID)
                                      ResCount (doIterateAndDeleteChannel api chID) in
                               oret count
                           | None => oret count
                           end in
                  oret (addCount count st))
             packageChannelIDs st
    end
  else oret st.

(** The loop that writes the reaction count into the first entry of
    [serverStats] for the guild (main.go:1451-1456). *)
Fixpoint setReactions (guildID : string) (guildReactions : Z) (serverStats : list ServerStat)
    : list ServerStat :=
  match serverStats with
  | [] => []
  | stat :: rest =>
      if statGuildID stat =? guildID then
        mkServerStat (statGuildID stat) (statGuildName stat) (statMessages stat) guildReactions
        :: rest
      else stat :: setReactions guildID guildReactions rest
  end.

(** Phase 3a: server reactions (main.go:1430-1465). The state is
    [serverStats] and [totalReactionsRemoved]. *)
Definition phase3a {W : Type} (api : ClientMethods W) (guilds : list Guild)
    (serverStats : list ServerStat) : Orch W (list ServerStat * Z) :=
  forM (fun guild (acc : list ServerStat * Z) =>
          let* channelIDs := call Phase3a (CallDiscoverAllGuildChannelsAndThreads (guildId guild))
                             ResList (doDiscoverAllGuildChannelsAndThreads api (guildId guild)) in
          let* guildReactions :=
            forM (fun chID guildReactions =>
                    let* removed := call Phase3a (CallRemoveReactionsFromChannel chID)
                                         ResNumber (doRemoveReactionsFromChannel api chID) in
                    oret (addInt guildReactions removed))
                 channelIDs 0%Z in
          oret (setReactions (guildId guild) guildReactions (fst acc),
                addInt (snd acc) guildReactions))
       guilds (serverStats, 0%Z).

(** Phase 3b: DM reactions (main.go:1469-1477). *)
Definition phase3b {W : Type} (api : ClientMethods W) (order : RangeOrder)
    (processed : gmap string bool) : Orch W Z :=
  forM (fun chID dmReactionCount =>
          let* removed := call Phase3b (CallRemoveReactionsFromChannel chID)
                          ResNumber (doRemoveReactionsFromChannel api chID) in
          oret (addInt dmReactionCount removed))
       (rangeKeys order processed) 0%Z.

(** The body of [PurgeAll]; besides the statistics it hands back the final
    value of the local [processedDMs]. *)
Definition purgeAllBody {W : Type} (api : ClientMethods W) (order : RangeOrder)
    (dataPackagePath : string) (options : PurgeOptions)
    : Orch W (gmap string bool * PurgeStats) :=
  let* '(guilds, (guildDeleted, serverStats)) := phase1 api options in
  let* st := phase2a api options (mkDMState ∅ 0 guildDeleted) in
  let* st := phase2b api options st in
  let* st := phase2c api dataPackagePath options st in
  let* '(serverStats, totalReactionsRemoved) := phase3a api guilds serverStats in
  let* dmReactionCount := phase3b api order (processedDMs st) in
  let totalReactionsRemoved := addInt totalReactionsRemoved dmReactionCount in
  oret (processedDMs st,
        mkPurgeStats (totalDeleted st) totalReactionsRemoved (totalDMMessages st)
                     serverStats (Z.of_nat (size (processedDMs st)))).

Definition PurgeAll {W : Type} (api : ClientMethods W) (order : RangeOrder)
    (dataPackagePath : string) (options : PurgeOptions) : Orch W PurgeStats :=
  let* res := purgeAllBody api order dataPackagePath options in
  oret (snd res).

(** ** Vocabulary of the specification

    The notions the properties below are stated with, and a small
    concrete runtime and server to evaluate the model on. *)

(** A cursor that is not empty and that [ParseUint] rejects. *)
Definition malformed (s : string) : Prop := s <> "" /\ ParseUint s = None.

(** Every byte written as a percent escape. *)
Fixpoint percentEncoded (s : string) : string :=
  match s with
  | EmptyString => EmptyString
  | String c rest => Url.percentByte c (percentEncoded rest)
  end.

(** All bytes are outside ASCII, as in the UTF-8 encoding of a character
    above U+007F. *)
Fixpoint nonASCII (s : string) : bool :=
  match s with
  | EmptyString => true
  | String c rest => (128 <=? N_of_ascii c)%N && nonASCII rest
  end.

(** U+1F44D, thumbs up, in UTF-8: F0 9F 91 8D. *)
Definition thumbsUp : string :=
  String "240" (String "159" (String "145" (String "141" EmptyString))).

(** The numeric value of a response header: [None] when the header is
    absent or not a number. *)
Definition headerNumber `{Runtime} (resp : Response) (key : string)
    : option Float64.float64 :=
  if Header resp key =? "" then None else ParseFloat (Header resp key).

(** The [retry_after] field of the response body, when the body decodes
    and the field is positive. *)
Definition bodyRetryAfter `{Runtime} (resp : Response) : option Float64.float64 :=
  match unmarshalRateLimit (Body resp) with
  | Some rl =>
      if Float64.ltb (Float64.ofInt 0) (RetryAfter rl) then Some (RetryAfter rl) else None
  | None => None
  end.

(** "Replaced by [candidate] if that is larger". *)
Definition replacedIfLarger (current : Float64.float64) (candidate : option Float64.float64)
    : Float64.float64 :=
  match candidate with
  | Some v => if Float64.ltb current v then v else current
  | None => current
  end.

(** "Floored at [floor]": a value below [floor] becomes [floor]. The NaN
    is below nothing and stays. *)
Definition flooredAt (floor value : Float64.float64) : Float64.float64 :=
  if Float64.ltb value floor then floor else value.

(** The route the executor treats as stricter: the listing of the archived
    private threads the user has joined
    ([/channels/{id}/users/@me/threads/archived/private]). *)
Definition strictRoute (method path : string) : bool :=
  (method =? "GET") && Strings.Contains path "/users/@me/threads/archived/private".

(** The wait on a 429 as the specification words it. *)
Definition specifiedWait `{Runtime} (method path : string) (resp : Response)
    : Float64.float64 :=
  let wait :=
    match headerNumber resp "Retry-After" with
    | Some v => v
    | None => Float64.ofInt 5
    end in
  let wait := replacedIfLarger wait (headerNumber resp "X-RateLimit-Reset-After") in
  let wait := replacedIfLarger wait (bodyRetryAfter resp) in
  let wait := flooredAt (Float64.ofInt 2) (Float64.add wait (Float64.ofInt 1)) in
  if strictRoute method path then flooredAt (Float64.ofInt 6) wait else wait.

(** The [n]-th exchange of the run answers [req] with HTTP 429. *)
Definition rateLimited (c : DiscordClient) (n : nat) (req : Request) : Prop :=
  exists resp, httpClient c n req = inr resp /\ StatusCode resp = 429%Z.

(** Go [int] values. *)
Definition inIntRange (z : Z) : Prop :=
  (- 9223372036854775808 <= z <= 9223372036854775807)%Z.

(** The [float64] values nearest to 0.5 (exact) and to 1.002. *)
Definition half : Float64.float64 := S754_finite false 4503599627370496 (-53).
Definition onePointZeroZeroTwo : Float64.float64 :=
  S754_finite false 4512606826625237 (-52).

(** A runtime for examples: every request can be built, the headers
    ["3"], ["0.5"], ["1.002"], ["10000000000"] and ["NaN"] are the numbers
    [strconv.ParseFloat] reads them as, the body ["page"] is a history
    page of three messages, two of them written by user ["me"]. *)
Definition me : User := mkUser "me" "me" "0".
Definition other : User := mkUser "you" "you" "0".

Definition exampleRuntime : Runtime :=
  {| newRequestOK := fun _ _ => true;
     ParseFloat := fun s =>
       if s =? "3" then Some (Float64.ofInt 3)
       else if s =? "0.5" then Some half
       else if s =? "1.002" then Some onePointZeroZeroTwo
       else if s =? "10000000000" then Some (Float64.ofInt 10000000000)
       else if s =? "NaN" then Some Float64.NaN
       else None;
     unmarshalRateLimit := fun _ => None;
     unmarshalGuilds := fun _ => None;
     unmarshalChannels := fun _ => None;
     unmarshalChannel := fun _ => None;
     unmarshalRelationships := fun _ => None;
     unmarshalThreadList := fun _ => None;
     unmarshalSearchResult := fun _ => None;
     unmarshalMessages := fun body =>
       if body =? "page" then
         Some [mkMessage "30" me "7" false []; mkMessage "20" other "7" false [];
               mkMessage "10" me "7" false []]
       else None;
     LoadDataPackageChannelIDs := fun _ => ([], Some "cannot access path") |}.

Definition plainResponse (status : Z) (body : string) : Response :=
  mkResponse status (fun _ => "") body.

(** A server that answers 429 to the first [k] exchanges and 200 from
    then on. *)
Definition throttlingClient (k : nat) : DiscordClient :=
  mkClient "token"
           (fun n _ => if (n <? k)%nat then inr (plainResponse 429 "")
                       else inr (plainResponse 200 "ok"))
           "me" "me".

(** A server that refuses the search (403) and serves the history: the
    first exchange is the search, the second the history page, the
    others are the deletions (204). *)
Definition searchForbiddenClient : DiscordClient :=
  mkClient "token"
           (fun n _ => match n with
                       | O => inr (plainResponse 403 "")
                       | S O => inr (plainResponse 200 "page")
                       | _ => inr (plainResponse 204 "")
                       end)
           "me" "me".

(** *** Calls made by the orchestrator *)

Definition countIf (f : Invocation -> bool) (tr : list Invocation) : nat :=
  length (List.filter f tr).

Definition isDMPhase (p : Phase) : bool :=
  match p with
  | Phase2a | Phase2b | Phase2c => true
  | _ => false
  end.

(** The search walker is started on conversation [ch] in a DM phase. *)
Definition walksDM (ch : string) (i : Invocation) : bool :=
  match invCall i with
  | CallSearchDMMessages c => isDMPhase (invPhase i) && (c =? ch)
  | _ => false
  end.

(** A call that deletes messages of conversation [ch]: the search walker
    or the history scan started on it, in any phase. *)
Definition deletesInDM (ch : string) (i : Invocation) : bool :=
  match invCall i with
  | CallSearchDMMessages c => c =? ch
  | CallIterateAndDeleteChannel c => c =? ch
  | _ => false
  end.

(** The guild walker is started on guild [g]. A walker started on one of
    the channels of [g] deletes messages of [g] too and is not counted
    here. *)
Definition deletesInGuild (g : string) (i : Invocation) : bool :=
  match invCall i with
  | CallSearchGuildMessages g' => g' =? g
  | _ => false
  end.

(** Phase 3b sweeps the reactions of conversation [ch]. *)
Definition sweepsDM (ch : string) (i : Invocation) : bool :=
  match invPhase i, invCall i with
  | Phase3b, CallRemoveReactionsFromChannel c => c =? ch
  | _, _ => false
  end.

(** A discovery source hands conversation [ch] to the orchestrator: the
    open-DM listing of phase 2a, a channel opened for a relationship in
    phase 2b, or the identifiers of the data package in phase 2c. *)
Definition yieldsDM (ch : string) (i : Invocation) : bool :=
  match invPhase i, invCall i, invResult i with
  | Phase2a, CallGetDMChannels, Some (ResChannels (channels, None)) =>
      existsb (fun c => chanId c =? ch) channels
  | Phase2b, CallOpenDMChannel _, Some (ResChannel (inl c)) => chanId c =? ch
  | Phase2c, CallLoadDataPackageChannelIDs _, Some (ResIDs (ids, None)) =>
      existsb (fun id => id =? ch) ids
  | _, _, _ => false
  end.

Definition discovered (ch : string) (tr : list Invocation) : Prop :=
  existsb (yieldsDM ch) tr = true.

(** No open-DM listing of the run names a conversation twice. *)
Definition openListingDistinct (tr : list Invocation) : Prop :=
  forall i channels err,
    In i tr -> invCall i = CallGetDMChannels ->
    invResult i = Some (ResChannels (channels, err)) ->
    NoDup (map chanId channels).

(** Methods for examples, over a world that holds nothing: one guild
    ["g1"], the open conversations [open], no relationships, the data
    package [package]; every walker deletes one message and every sweep
    removes one reaction. *)
Definition dmChannel (id : string) : Channel := mkChannel id ChannelTypeDM "" "" [] None.

Definition exampleMethods (open : list string) (package : list string) : ClientMethods unit :=
  {| doGetAllGuilds := fun w => Some (([mkGuild "g1" "one"], None), w);
     doGetDMChannels := fun w => Some ((map dmChannel open, None), w);
     doGetRelationships := fun w => Some (([mkRelationship "r1" 1 other], None), w);
     doOpenDMChannel := fun _ w => Some (inl (dmChannel "77"), w);
     doLoadDataPackageChannelIDs := fun _ w => Some ((package, None), w);
     doSearchGuildMessages := fun _ w => Some ((1%Z, None), w);
     doSearchDMMessages := fun _ w => Some ((1%Z, None), w);
     doIterateAndDeleteChannel := fun _ w => Some ((1%Z, None), w);
     doDiscoverAllGuildChannelsAndThreads := fun _ w => Some (["c1"], w);
     doRemoveReactionsFromChannel := fun _ w => Some (1%Z, w);
     doSleep := fun _ w => Some (tt, w) |}.

Definition excluding (ids : list string) : option (gmap string bool) :=
  Some (list_to_map (map (fun id => (id, true)) ids)).

(** How [SearchDMMessages] reports the error of the history scan it fell
    back to: as it is after a 403, 400 or 404 from the search, wrapped
    after any other status. *)
Definition fallbackError (status : Z) (fallbackErr : error) : error :=
  if ((status =? 403) || (status =? 400) || (status =? 404))%Z then fallbackErr
  else
    match fallbackErr with
    | Some e => Some ("search returned HTTP " ++ itoa status ++ " and fallback failed: " ++ e)
    | None => None
    end.

(** A 429 whose only rate-limit header is [Retry-After]. *)
Definition retryAfterResponse (value : string) : Response :=
  mkResponse 429 (fun key => if key =? "Retry-After" then value else "") "".

(** A 429 carrying [Retry-After: 0.5] and [X-RateLimit-Reset-After: 3]. *)
Definition throttledResponse : Response :=
  mkResponse 429
             (fun key => if key =? "Retry-After" then "0.5"
                         else if key =? "X-RateLimit-Reset-After" then "3" else "")
             "".

Definition throttledOnceClient : DiscordClient :=
  mkClient "token"
           (fun n _ => match n with
                       | O => inr throttledResponse
                       | _ => inr (plainResponse 200 "ok")
                       end)
           "me" "me".

Definition joinedPrivateArchivePath : string :=
  "/channels/9/users/@me/threads/archived/private?limit=100".

Definition privateArchivePath : string :=
  "/channels/9/threads/archived/private?limit=100".

(** Hits for examples: one without identifier and channel, and the same
    message reported twice, the second time without its channel. *)
Definition blankHit : Message := mkMessage "" me "" true [].
Definition hit5 : Message := mkMessage "5" me "c1" true [].
Definition hit5NoChannel : Message := mkMessage "5" me "" true [].
Definition emptyPage : PageState := mkPage 0 0 "" ∅ ∅.

(** *** Reasoning about the orchestrator

    [ensures m tr Q J]: started with the calls [tr] behind it, in any
    world, the computation [m] ends with a result and a list of calls
    satisfying [Q], or is stuck in a method that does not return, with a
    list of calls satisfying [J]. *)
Definition ensures {W A : Type} (m : Orch W A) (tr : list Invocation)
    (Q : A -> list Invocation -> Prop) (J : list Invocation -> Prop) : Prop :=
  forall w,
    match m (w, tr) with
    | (Some a, (_, tr')) => Q a tr'
    | (None, (_, tr')) => J tr'
    end.

Definition occurrences (ch : string) (l : list string) : nat :=
  length (List.filter (fun id => id =? ch) l).

(** What holds of the calls made at any point of a run, finished or not. *)
Record Safe (options : PurgeOptions) (tr : list Invocation) : Prop := mkSafe {
  safe_dm : forall ch, isDMExcluded options ch = true -> countIf (deletesInDM ch) tr = 0%nat;
  safe_guild : forall g, isGuildExcluded options g = true -> countIf (deletesInGuild g) tr = 0%nat;
  safe_walk_once : openListingDistinct tr -> forall ch, (countIf (walksDM ch) tr <= 1)%nat;
  safe_sweep_once : forall ch, (countIf (sweepsDM ch) tr <= 1)%nat;
  safe_sweep_excluded :
    forall ch, isDMExcluded options ch = true -> countIf (sweepsDM ch) tr = 0%nat }.

(** The invariant of the discovery phases: how the local [processedDMs]
    relates to the calls made. [pending] lists the identifiers a listing
    has yielded and the running loop has yet to visit. *)
Record Core (options : PurgeOptions) (processed : gmap string bool)
    (pending : list string) (tr : list Invocation) : Prop := mkCore {
  core_dm : forall ch, isDMExcluded options ch = true -> countIf (deletesInDM ch) tr = 0%nat;
  core_guild :
    forall g, isGuildExcluded options g = true -> countIf (deletesInGuild g) tr = 0%nat;
  core_walk_once : openListingDistinct tr -> forall ch, (countIf (walksDM ch) tr <= 1)%nat;
  core_true : forall ch b, processed !! ch = Some b -> b = true;
  core_walked : forall ch, mget processed ch = true <-> (1 <= countIf (walksDM ch) tr)%nat;
  core_found :
    forall ch, discovered ch tr -> isDMExcluded options ch = false ->
               mget processed ch = true \/ In ch pending }.

Definition unswept (tr : list Invocation) : Prop :=
  forall ch, countIf (sweepsDM ch) tr = 0%nat.

(** Up to the end of phase 3a: the invariant, and no sweep of phase 3b
    made yet. *)
Definition Inv (options : PurgeOptions) (processed : gmap string bool)
    (pending : list string) (tr : list Invocation) : Prop :=
  Core options processed pending tr /\ unswept tr.

(** A call that none of the counted kinds matches. *)
Definition neutral (i : Invocation) : Prop :=
  invCall i <> CallGetDMChannels /\
  forall ch, walksDM ch i = false /\ deletesInDM ch i = false /\
             deletesInGuild ch i = false /\ yieldsDM ch i = false.

(** What holds of a finished run. *)
Record Finished (options : PurgeOptions) (processed : gmap string bool)
    (tr : list Invocation) : Prop := mkFinished {
  fin_swept : forall ch, mget processed ch = true <-> countIf (sweepsDM ch) tr = 1%nat;
  fin_walked : forall ch, mget processed ch = true <-> (1 <= countIf (walksDM ch) tr)%nat;
  fin_excluded : forall ch, isDMExcluded options ch = true -> mget processed ch = false;
  fin_found :
    forall ch, discovered ch tr -> isDMExcluded options ch = false ->
               mget processed ch = true }.

(** The statuses a server gives to the first [n] exchanges of a run when
    asked [req] each time (0 for a transport error). *)
Definition statuses (c : DiscordClient) (req : Request) (n : nat) : list Z :=
  map (fun i => match httpClient c i req with
                | inr resp => StatusCode resp
                | inl _ => 0%Z
                end) (seq 0 n).

Definition exampleRequest : Request := mkRequest "GET" (apiBase ++ "/users/@me") "token" "".

(** Runs for examples. In [exclusionRun] guild ["g1"] and conversation
    ["42"] are excluded; ["42"] is in the open list and in the package,
    ["43"] in both too, ["99"] in the package only, ["77"] is the channel
    of the one relationship. *)
Definition exclusionOptions : PurgeOptions :=
  mkPurgeOptions (excluding ["g1"]) (excluding ["42"]).

Definition exclusionRun : option PurgeStats * (unit * list Invocation) :=
  PurgeAll (exampleMethods ["42"; "43"] ["43"; "99"; "42"]) canonicalRange "package"
           exclusionOptions (tt, []).

Definition exclusionBodyRun
    : option (gmap string bool * PurgeStats) * (unit * list Invocation) :=
  purgeAllBody (exampleMethods ["42"; "43"] ["43"; "99"; "42"]) canonicalRange "package"
               exclusionOptions (tt, []).

(** The open list names ["42"] twice and nothing is excluded. *)
Definition repeatedListingRun : option PurgeStats * (unit * list Invocation) :=
  PurgeAll (exampleMethods ["42"; "42"] []) canonicalRange ""
           (mkPurgeOptions None None) (tt, []).

Definition traceOf {A : Type} (run : option A * (unit * list Invocation)) : list Invocation :=
  snd (snd run).

(** *** A data package that names a channel of an excluded guild

    The index of a data package lists every channel the account wrote
    in, the channels of guilds among them. Here guild ["g1"] is excluded,
    its text channel ["c9"] is in the index, and the history of ["c9"]
    holds the messages ["30"] and ["10"] of the user. The server refuses
    the conversation search on a guild channel (400), serves the history
    and answers 204 to every DELETE. *)
Definition packageChannel : Channel :=
  mkChannel "c9" ChannelTypeGuildText "general" "g1" [] None.

Definition packageRuntime : Runtime :=
  {| newRequestOK := fun _ _ => true;
     ParseFloat := fun _ => None;
     unmarshalRateLimit := fun _ => None;
     unmarshalGuilds := fun body => if body =? "guilds" then Some [mkGuild "g1" "one"] else None;
     unmarshalChannels := fun body =>
       if body =? "channels" then Some [packageChannel]
       else if body =? "none" then Some [] else None;
     unmarshalChannel := fun _ => None;
     unmarshalRelationships := fun body => if body =? "none" then Some [] else None;
     unmarshalThreadList := fun _ => None;
     unmarshalSearchResult := fun _ => None;
     unmarshalMessages := fun body =>
       if body =? "page" then
         Some [mkMessage "30" me "c9" false []; mkMessage "20" other "c9" false [];
               mkMessage "10" me "c9" false []]
       else None;
     LoadDataPackageChannelIDs := fun _ => (["c9"], None) |}.

Definition packageClient : DiscordClient :=
  mkClient "token"
           (fun _ req =>
              if reqMethod req =? "DELETE" then inr (plainResponse 204 "")
              else if Strings.Contains (reqURL req) "/messages/search" then
                inr (plainResponse 400 "")
              else if Strings.Contains (reqURL req) "/messages" then
                inr (plainResponse 200 "page")
              else if Strings.Contains (reqURL req) "/guilds/" then
                inr (plainResponse 200 "channels")
              else if Strings.Contains (reqURL req) "/users/@me/guilds" then
                inr (plainResponse 200 "guilds")
              else inr (plainResponse 200 "none"))
           "me" "me".

Definition packageOptions : PurgeOptions :=
  mkPurgeOptions (excluding ["g1"]) (excluding []).

Definition packageRun : option PurgeStats * (World * list Invocation) :=
  PurgeAll (@httpClientMethods packageRuntime 3 packageClient) canonicalRange "package"
           packageOptions ([], []).

Definition sameRequest (a b : Request) : bool :=
  (reqMethod a =? reqMethod b) && (reqURL a =? reqURL b)
  && (reqAuthorization a =? reqAuthorization b) && (reqBody a =? reqBody b).

(** The exchange [req] was started. *)
Definition requested (req : Request) (w : World) : bool :=
  existsb (fun e => match e with EvDo r => sameRequest r req | EvSleep _ => false end) w.

Definition deleteRequest (c : DiscordClient) (channelID messageID : string) : Request :=
  mkRequest "DELETE" (apiBase ++ messagePath channelID messageID) (token c) "".

(** ** Friend removal and server leaving (main.go:1530-1602) *)

Definition RelationshipFriend : Z := 1.

Definition RemoveFriend `{Runtime} (c : DiscordClient) (id : string) (w : World)
    : error * World :=
  let '(r, w) := request c "DELETE" ("/users/@me/relationships/" ++ id) w in
  match replyErr r with
  | Some e => (Some e, w)
  | None =>
      let status := replyStatus r in
      if ((status =? 204) || (status =? 200))%Z then (None, w)
      else (Some ("HTTP " ++ itoa status), w)
  end.

Definition LeaveGuild `{Runtime} (c : DiscordClient) (guildID : string) (w : World)
    : error * World :=
  let '(r, w) := request c "DELETE" ("/users/@me/guilds/" ++ guildID) w in
  match replyErr r with
  | Some e => (Some e, w)
  | None =>
      let status := replyStatus r in
      if ((status =? 204) || (status =? 200))%Z then (None, w)
      else (Some ("HTTP " ++ itoa status), w)
  end.

(** Body of the loop of [RemoveAllFriends] (main.go:1563-1574). *)
Definition removeFriendStep `{Runtime} (c : DiscordClient) (rel : Relationship)
    (removedCount : Z) (w : World) : Z * World :=
  if (relType rel =? RelationshipFriend)%Z then
    let '(err, w) := RemoveFriend c (userId (relUser rel)) w in
    let removedCount :=
      match err with
      | None => addInt removedCount 1
      | Some _ => removedCount
      end in
    (removedCount, sleep 500 w)
  else (removedCount, w).

Definition RemoveAllFriends `{Runtime} (c : DiscordClient) (w : World)
    : (Z * error) * World :=
  let '((rels, err), w) := GetRelationships c w in
  match err with
  | Some e => ((0%Z, Some ("fetching relationships: " ++ e)), w)
  | None =>
      let '(removedCount, w) := forEach (removeFriendStep c) rels 0%Z w in
      ((removedCount, None), w)
  end.

(** Body of the loop of [LeaveAllGuilds] (main.go:1587-1599). *)
Definition leaveGuildStep `{Runtime} (c : DiscordClient) (guild : Guild)
    (leftCount : Z) (w : World) : Z * World :=
  let '(err, w) := LeaveGuild c (guildId guild) w in
  let leftCount :=
    match err with
    | None => addInt leftCount 1
    | Some _ => leftCount
    end in
  (leftCount, sleep 500 w).

Definition LeaveAllGuilds `{Runtime} (fuel : nat) (c : DiscordClient) (w : World)
    : option ((Z * error) * World) :=
  match GetAllGuilds fuel c w with
  | None => None
  | Some ((guilds, Some e), w) => Some ((0%Z, Some ("fetching guilds: " ++ e)), w)
  | Some ((guilds, None), w) =>
      let '(leftCount, w) := forEach (leaveGuildStep c) guilds 0%Z w in
      Some ((leftCount, None), w)
  end.

(** ** Selection of exclusions (main.go:1628-1785) *)

(** [strconv.Atoi] on a 64-bit platform: an optional sign and decimal
    digits, the value within the range of [int]; [None] is an error. *)
Definition Atoi (s : string) : option Z :=
  match s with
  | EmptyString => None
  | String ch rest =>
      if (ch =? "+")%char then
        match ParseUint rest with
        | Some n => if (n <? 9223372036854775808)%N then Some (Z.of_N n) else None
        | None => None
        end
      else if (ch =? "-")%char then
        match ParseUint rest with
        | Some n => if (n <=? 9223372036854775808)%N then Some (- Z.of_N n)%Z else None
        | None => None
        end
      else
        match ParseUint s with
        | Some n => if (n <? 9223372036854775808)%N then Some (Z.of_N n) else None
        | None => None
        end
  end.

(** [strings.FieldsFunc] for a separator test on bytes: the maximal runs
    of bytes that are not separators; [field] is the run being read. *)
Fixpoint fieldsFrom (f : ascii -> bool) (s : string) (field : string) : list string :=
  match s with
  | EmptyString => if field =? "" then [] else [field]
  | String ch rest =>
      if f ch then
        if field =? "" then fieldsFrom f rest "" else field :: fieldsFrom f rest ""
      else fieldsFrom f rest (field ++ String ch "")
  end.

Definition FieldsFunc (s : string) (f : ascii -> bool) : list string := fieldsFrom f s "".

(** [strings.Split] for a separator of one byte. *)
Fixpoint splitFrom (sep : ascii) (s : string) (part : string) : list string :=
  match s with
  | EmptyString => [part]
  | String ch rest =>
      if (ch =? sep)%char then part :: splitFrom sep rest ""
      else splitFrom sep rest (part ++ String ch "")
  end.

Definition Split (s : string) (sep : ascii) : list string := splitFrom sep s "".

(** [strings.ToLower] and [strings.TrimSpace], which follow the Unicode
    tables, are taken as given. *)
Class Text := {
  ToLower : string -> string;
  TrimSpace : string -> string }.

Definition maxInt : Z := 9223372036854775807.

Definition mgetInt (m : gmap Z bool) (k : Z) : bool := default false (m !! k).

(** [for i := lo; i <= hi; i++ { selected[i] = true }]; the loop has no
    end when [hi] is the largest [int] ([None]). *)
Definition selectRange (lo hi : Z) (selected : gmap Z bool) : option (gmap Z bool) :=
  if (hi <? lo)%Z then Some selected
  else if (hi =? maxInt)%Z then None
  else Some (fold_left (fun m i => <[i := true]> m) (seqZ lo (hi - lo + 1)) selected).

Definition isSeparator (r : ascii) : bool :=
  ((r =? ",") || (r =? ";") || (r =? " ") || (r =? "009"))%char.

(** One pass of the loop over [parts] (main.go:1650-1687): [inr] is the
    error the function returns with. *)
Definition selectPart (part : string) (max : Z) (selected : gmap Z bool)
    : option (gmap Z bool + string) :=
  if Strings.Contains part "-" then
    match Split part "-" with
    | [first; second] =>
        if (first =? "") || (second =? "") then Some (inr ("invalid range '" ++ part ++ "'"))
        else
          match Atoi first with
          | None => Some (inr ("invalid number '" ++ first ++ "'"))
          | Some start =>
              match Atoi second with
              | None => Some (inr ("invalid number '" ++ second ++ "'"))
              | Some end_ =>
                  let '(start, end_) :=
                    if (end_ <? start)%Z then (end_, start) else (start, end_) in
                  if ((start <? 1) || (max <? end_))%Z then
                    Some (inr ("range " ++ itoa start ++ "-" ++ itoa end_
                               ++ " is out of bounds (1-" ++ itoa max ++ ")"))
                  else option_map inl (selectRange start end_ selected)
              end
          end
    | _ => Some (inr ("invalid range '" ++ part ++ "'"))
    end
  else
    match Atoi part with
    | None => Some (inr ("invalid selection '" ++ part ++ "'"))
    | Some idx =>
        if ((idx <? 1) || (max <? idx))%Z then
          Some (inr ("selection " ++ itoa idx ++ " is out of bounds (1-" ++ itoa max ++ ")"))
        else Some (inl (<[idx := true]> selected))
    end.

Fixpoint selectParts (parts : list string) (max : Z) (selected : gmap Z bool)
    : option (gmap Z bool + string) :=
  match parts with
  | [] => Some (inl selected)
  | part :: rest =>
      if part =? "" then selectParts rest max selected
      else
        match selectPart part max selected with
        | Some (inl selected) => selectParts rest max selected
        | other => other
        end
  end.

(** [parseSelectionInput] from the point where [normalized] is set. *)
Definition parseSelection (normalized : string) (max : Z) : option (gmap Z bool + string) :=
  if (normalized =? "") || (normalized =? "none") || (normalized =? "n") || (normalized =? "0")
  then Some (inl ∅)
  else if (normalized =? "all") || (normalized =? "*") then
    option_map inl (selectRange 1 max ∅)
  else
    let parts := FieldsFunc normalized isSeparator in
    if (length parts =? 0)%nat then Some (inl ∅)
    else selectParts parts max ∅.

Definition parseSelectionInput `{Text} (input : string) (max : Z)
    : option (gmap Z bool + string) :=
  parseSelection (TrimSpace (ToLower input)) max.

(** [promptSelection] reading from [lines], what [reader.ReadString]
    yields call after call (the empty string once the input is at its
    end); the result is the selection and the lines left. A rejected line
    is asked again. *)
Fixpoint promptSelectionLoop `{Text} (lines : list string) (max : Z)
    : option (gmap Z bool * list string) :=
  match lines with
  | [] =>
      match parseSelectionInput "" max with
      | Some (inl selected) => Some (selected, [])
      | _ => None
      end
  | input :: rest =>
      match parseSelectionInput input max with
      | None => None
      | Some (inr _) => promptSelectionLoop rest max
      | Some (inl selected) => Some (selected, rest)
      end
  end.

Definition promptSelection `{Text} (lines : list string) (max : Z)
    : option (gmap Z bool * list string) :=
  if (max <=? 0)%Z then Some (∅, lines) else promptSelectionLoop lines max.

(** [for i, x := range items { if selected[i+1] { excluded[x.ID] = true } }],
    [i] being the index of the head of [ids]. *)
Fixpoint excludeSelected (i : Z) (ids : list string) (selected : gmap Z bool)
    (excluded : gmap string bool) : gmap string bool :=
  match ids with
  | [] => excluded
  | id :: rest =>
      excludeSelected (i + 1) rest selected
        (if mgetInt selected (i + 1) then <[id := true]> excluded else excluded)
  end.

Definition promptPurgeOptions `{Text} (lines : list string) (guilds : list Guild)
    (dmChannels : list Channel) : option (PurgeOptions * list string) :=
  match
    (if (0 <? length guilds)%nat then
       match promptSelection lines (Z.of_nat (length guilds)) with
       | Some (selectedGuilds, lines) =>
           Some (excludeSelected 0 (map guildId guilds) selectedGuilds ∅, lines)
       | None => None
       end
     else Some (∅, lines))
  with
  | None => None
  | Some (excludedGuilds, lines) =>
      match
        (if (0 <? length dmChannels)%nat then
           match promptSelection lines (Z.of_nat (length dmChannels)) with
           | Some (selectedDMs, lines) =>
               Some (excludeSelected 0 (map chanId dmChannels) selectedDMs ∅, lines)
           | None => None
           end
         else Some (∅, lines))
      with
      | None => None
      | Some (excludedDMs, lines) =>
          Some (mkPurgeOptions (Some excludedGuilds) (Some excludedDMs), lines)
      end
  end.

(** ** Vocabulary of the further properties *)

Definition requestEvent (c : DiscordClient) (method path jsonBody : string) (e : Event) : Prop :=
  match e with
  | EvDo req => req = mkRequest method (apiBase ++ path) (token c) jsonBody
  | EvSleep _ => True
  end.

(** [w'] is [w] with further events on top, and every exchange among them
    satisfies [P]. *)
Definition addsOnly (P : Request -> Prop) (w w' : World) : Prop :=
  exists evs, w' = (evs ++ w)%list /\ forall req, In (EvDo req) evs -> P req.



(** [req] asks to delete a hit of the page that user [c] wrote, that has
    an identifier and a channel and that [skipped] does not hold. *)
Definition deletesOwnHit (c : DiscordClient) (skipped : gmap string bool)
    (groups : list (list Message)) (req : Request) : Prop :=
  exists msgGroup msg,
    In msgGroup groups /\ In msg msgGroup
    /\ userId (Author msg) = userID c /\ Hit msg = true
    /\ msgID msg <> "" /\ ChannelID msg <> ""
    /\ mget skipped (msgID msg) = false
    /\ req = deleteRequest c (ChannelID msg) (msgID msg).


(** [later] holds every identifier that [earlier] holds. *)
Definition keepsSkipped (earlier later : gmap string bool) : Prop :=
  forall id, mget earlier id = true -> mget later id = true.




Definition errorIs (text : string) (e : error) : bool :=
  match e with
  | Some s => s =? text
  | None => false
  end.

(** The error a search loop ended with, if it ended with one. *)
Definition guildLoopError (res : option (LoopExit * World)) : error :=
  match res with
  | Some (Returned _ err, _) => err
  | _ => None
  end.

Definition walkerError (res : option ((Z * error) * World)) : error :=
  match res with
  | Some ((_, err), _) => err
  | None => None
  end.

Definition retryLimitText : string := "search index requested retry too many times".
Definition indexLimitText : string := "search index not ready after 40 retries".

(** Every exchange is answered with HTTP 202. *)
Definition alwaysIndexing (c : DiscordClient) : Prop :=
  forall n req, exists resp, httpClient c n req = inr resp /\ StatusCode resp = 202%Z.

Definition indexingClient : DiscordClient :=
  mkClient "token" (fun _ _ => inr (plainResponse 202 "")) "me" "me".

(** How [seen] and [channelIDs] of the discovery relate: the list has no
    repetition and [seen] holds exactly its members. *)
Definition tracked (st : gmap string bool * list string) : Prop :=
  NoDup (snd st) /\ forall id, mget (fst st) id = true <-> In id (snd st).

(** The channel types whose identifier the first loop of the discovery
    adds: text, news, voice, stage and the three thread types. *)
Definition holdsMessages (t : Z) : bool :=
  ((t =? ChannelTypeGuildText) || (t =? ChannelTypeGuildNews)
   || (t =? ChannelTypeGuildVoice) || (t =? ChannelTypeGuildStageVoice)
   || (t =? ChannelTypeGuildNewsThread) || (t =? ChannelTypeGuildPublicThread)
   || (t =? ChannelTypeGuildPrivateThread))%Z.

Definition removalOfFriend (c : DiscordClient) (id : string) : Request :=
  mkRequest "DELETE" (apiBase ++ "/users/@me/relationships/" ++ id) (token c) "".

Definition departureFrom (c : DiscordClient) (guildID : string) : Request :=
  mkRequest "DELETE" (apiBase ++ "/users/@me/guilds/" ++ guildID) (token c) "".

Definition isFriend (rel : Relationship) : bool := (relType rel =? RelationshipFriend)%Z.

(** [req] asks to remove a relationship of [rels] that is a friendship. *)
Definition removesFriend (c : DiscordClient) (rels : list Relationship) (req : Request) : Prop :=
  exists rel, In rel rels /\ isFriend rel = true
              /\ req = removalOfFriend c (userId (relUser rel)).

Definition leavesOneOf (c : DiscordClient) (guilds : list Guild) (req : Request) : Prop :=
  exists guild, In guild guilds /\ req = departureFrom c (guildId guild).

(** Every key of the selection is an index of the menu, held with
    [true]. *)
Definition withinMenu (max : Z) (selected : gmap Z bool) : Prop :=
  forall i b, selected !! i = Some b -> (1 <= i <= max)%Z /\ b = true.

Definition isDigit (ch : ascii) : bool :=
  ((48 <=? N_of_ascii ch) && (N_of_ascii ch <=? 57))%N.

Fixpoint allDigits (s : string) : bool :=
  match s with
  | EmptyString => true
  | String ch rest => isDigit ch && allDigits rest
  end.

(** A [Text] for examples, fit for input that is already in lower case
    and free of surrounding white space. *)
Definition plainText : Text := {| ToLower := fun s => s; TrimSpace := fun s => s |}.

Definition threeGuilds : list Guild :=
  [mkGuild "g1" "one"; mkGuild "g2" ""; mkGuild "g3" "three"].

(** The calls [PurgeAll] makes, phase by phase: a walker is only started
    on a guild or conversation that is not excluded, phase 2c only calls
    when a path was given, and the discovery of phase 3a is only run on a
    guild that is not excluded. *)
Definition permitted (options : PurgeOptions) (dataPackagePath : string) (i : Invocation)
    : bool :=
  match invPhase i, invCall i with
  | Phase1, CallGetAllGuilds => true
  | Phase1, CallSearchGuildMessages g => negb (isGuildExcluded options g)
  | Phase2a, CallGetDMChannels => true
  | Phase2a, CallSearchDMMessages ch => negb (isDMExcluded options ch)
  | Phase2b, CallGetRelationships => true
  | Phase2b, CallOpenDMChannel _ => true
  | Phase2b, CallSearchDMMessages ch => negb (isDMExcluded options ch)
  | Phase2b, CallSleep ms => (ms =? 500)%Z
  | Phase2c, CallLoadDataPackageChannelIDs p =>
      (p =? dataPackagePath) && negb (dataPackagePath =? "")
  | Phase2c, CallSearchDMMessages ch =>
      negb (isDMExcluded options ch) && negb (dataPackagePath =? "")
  | Phase2c, CallIterateAndDeleteChannel ch =>
      negb (isDMExcluded options ch) && negb (dataPackagePath =? "")
  | Phase3a, CallDiscoverAllGuildChannelsAndThreads g => negb (isGuildExcluded options g)
  | Phase3a, CallRemoveReactionsFromChannel _ => true
  | Phase3b, CallRemoveReactionsFromChannel _ => true
  | _, _ => false
  end.

Definition allPermitted (options : PurgeOptions) (dataPackagePath : string)
    (tr : list Invocation) : Prop :=
  List.Forall (fun i => permitted options dataPackagePath i = true) tr.

(** The guilds phase 1 walks, given what the listing returned. *)
Definition keptGuilds (options : PurgeOptions) (listing : list Guild * error) : list Guild :=
  match snd listing with
  | Some _ => []
  | None => List.filter (fun guild => negb (isGuildExcluded options (guildId guild)))
                        (fst listing)
  end.

Definition sumMessages (serverStats : list ServerStat) : Z :=
  fold_right (fun stat acc => (statMessages stat + acc)%Z) 0%Z serverStats.

(** The discovery of phase 3a is run on guild [g]. *)
Definition discoversGuild (g : string) (i : Invocation) : bool :=
  match invCall i with
  | CallDiscoverAllGuildChannelsAndThreads g' => g' =? g
  | _ => false
  end.

(** A call of phase 2c. *)
Definition inPackagePhase (i : Invocation) : bool :=
  match invPhase i with
  | Phase2c => true
  | _ => false
  end.

(** [totalDeleted] is the guild total [g] plus the DM total, as [int]s
    add. *)
Definition balanced (g : Z) (st : DMState) : Prop :=
  totalDeleted st = wrapInt (g + totalDMMessages st).

(** What phase 1 hands on: the guilds it walked, which are the kept ones
    of the listing, and one row per guild. *)
Definition phase1Result (options : PurgeOptions) (res : list Guild * (Z * list ServerStat))
    (tr : list Invocation) : Prop :=
  List.Forall (fun g => isGuildExcluded options (guildId g) = false) (fst res)
  /\ map statGuildID (snd (snd res)) = map guildId (fst res)
  /\ fst (snd res) = wrapInt (sumMessages (snd (snd res)))
  /\ exists listing,
       In (mkInvocation Phase1 CallGetAllGuilds (Some (ResGuilds listing))) tr
       /\ fst res = keptGuilds options listing.

(** [allPermitted] together with a property [keep] of the calls made. *)
Definition allowedWith (options : PurgeOptions) (dataPackagePath : string)
    (keep : list Invocation -> Prop) (tr : list Invocation) : Prop :=
  allPermitted options dataPackagePath tr /\ keep tr.






(** The identifiers of the hits of a page that user [c] wrote, in the
    order the page loop visits them. *)
Definition ownHitIDs (c : DiscordClient) (groups : list (list Message)) : list string :=
  map msgID (List.filter (fun msg => (userId (Author msg) =? userID c) && Hit msg)
                         (concat groups)).

(** [a] and [b] parse and the value of [a] is at most that of [b]. *)
Definition snowflakeLe (a b : string) : Prop :=
  exists x y, ParseUint a = Some x /\ ParseUint b = Some y /\ (x <= y)%N.

(** *** A second runtime and server for examples

    The bodies ["guilds"], ["channels"], ["threads"], ["relationships"],
    ["hits"], ["nothing"] and ["page"] decode to the lists below. The
    server answers 204 to every DELETE and serves each listing by its
    route; the first exchange of a run, if a search, yields ["hits"], a
    later search ["nothing"]. *)
Definition sampleChannels : list Channel :=
  [mkChannel "c1" ChannelTypeGuildText "general" "g1" [] None;
   mkChannel "c2" ChannelTypeGuildCategory "rooms" "g1" [] None;
   mkChannel "c3" ChannelTypeGuildVoice "voice" "g1" [] None;
   mkChannel "c4" ChannelTypeGuildForum "forum" "g1" [] None].

Definition sampleThreads : list Channel :=
  [mkChannel "t1" ChannelTypeGuildPublicThread "thread" "g1" [] None;
   mkChannel "c1" ChannelTypeGuildText "general" "g1" [] None].

Definition sampleRelationships : list Relationship :=
  [mkRelationship "r1" 1 other; mkRelationship "r2" 2 (mkUser "them" "them" "0")].

Definition sampleHits : list (list Message) :=
  [[mkMessage "1200" me "c1" true []; mkMessage "1100" other "c1" false []];
   [mkMessage "987" me "c3" true []]].

Definition samplePage : list Message :=
  [mkMessage "30" me "7" false
             [mkReaction 2 true (mkEmoji None thumbsUp);
              mkReaction 1 false (mkEmoji (Some "9") "wave")];
   mkMessage "20" other "7" false [mkReaction 1 true (mkEmoji (Some "9") "wave")]].

Definition sampleRuntime : Runtime :=
  {| newRequestOK := fun _ _ => true;
     ParseFloat := fun _ => None;
     unmarshalRateLimit := fun _ => None;
     unmarshalGuilds := fun body => if body =? "guilds" then Some threeGuilds else None;
     unmarshalChannels := fun body => if body =? "channels" then Some sampleChannels else None;
     unmarshalChannel := fun _ => None;
     unmarshalRelationships := fun body =>
       if body =? "relationships" then Some sampleRelationships else None;
     unmarshalThreadList := fun body =>
       if body =? "threads" then Some (mkThreadList sampleThreads false) else None;
     unmarshalSearchResult := fun body =>
       if body =? "hits" then Some (mkSearchResult 3 sampleHits false)
       else if body =? "nothing" then Some (mkSearchResult 0 [] false) else None;
     unmarshalMessages := fun body => if body =? "page" then Some samplePage else None;
     LoadDataPackageChannelIDs := fun _ => ([], Some "cannot access path") |}.

Definition sampleClient : DiscordClient :=
  mkClient "token"
           (fun n req =>
              if reqMethod req =? "DELETE" then inr (plainResponse 204 "")
              else if Strings.Contains (reqURL req) "/messages/search" then
                inr (plainResponse 200 (if (n =? 0)%nat then "hits" else "nothing"))
              else if Strings.Contains (reqURL req) "/messages" then
                inr (plainResponse 200 "page")
              else if Strings.Contains (reqURL req) "/threads/" then
                inr (plainResponse 200 "threads")
              else if Strings.Contains (reqURL req) "/relationships" then
                inr (plainResponse 200 "relationships")
              else if Strings.Contains (reqURL req) "/guilds/" then
                inr (plainResponse 200 "channels")
              else inr (plainResponse 200 "guilds"))
           "me" "me".

(** Projections of the outcome of a run, for examples. *)
Definition walkerResult (run : option ((Z * error) * World)) : Z * error :=
  match run with
  | Some (res, _) => res
  | None => (0%Z, None)
  end.

Definition walkerWorld (run : option ((Z * error) * World)) : World :=
  match run with
  | Some (_, w) => w
  | None => []
  end.

Definition selectionOf (res : option (gmap Z bool + string)) : gmap Z bool :=
  match res with
  | Some (inl selected) => selected
  | _ => ∅
  end.

Definition optionsOf (res : option (PurgeOptions * list string)) : PurgeOptions :=
  match res with
  | Some (options, _) => options
  | None => mkPurgeOptions None None
  end.

Definition finalStats (run : option PurgeStats * (unit * list Invocation)) : PurgeStats :=
  match fst run with
  | Some stats => stats
  | None => mkPurgeStats 0 0 0 [] 0
  end.





Definition discoveryRun : option (list string * World) :=
  @discoverAllGuildChannelsAndThreads sampleRuntime 2 sampleClient "g1" [].


Definition discoveredIDs (run : option (list string * World)) : list string :=
  match run with
  | Some (ids, _) => ids
  | None => []
  end.

Definition discoveryWorld (run : option (list string * World)) : World :=
  match run with
  | Some (_, w) => w
  | None => []
  end.

Definition indexingRun : option ((Z * error) * World) :=
  @SearchGuildMessages exampleRuntime 40 indexingClient "g1" [].


(** * Properties

    The second part proves, on the definitions above, the properties the
    specification claims of the program. *)

(** ** Snowflake cursors *)

Lemma N_of_digitChar d : (d < 10)%N -> N_of_ascii (digitChar d) = (48 + d)%N.
Proof.
  intros Hd. unfold digitChar. apply N_ascii_embedding. lia.
Qed.

Lemma parseUintLoop_digit d rest n :
  (d < 10)%N -> (n * 10 + d <= maxUint64)%N ->
  parseUintLoop (String (digitChar d) rest) n = parseUintLoop rest (n * 10 + d).
Proof.
  intros Hd Hle. cbn [parseUintLoop]. rewrite N_of_digitChar by exact Hd.
  unfold cutoff, wrapUint64. unfold maxUint64 in *.
  replace (48 + d - 48)%N with d by lia.
  assert (H1: ((48 <=? 48 + d) && (48 + d <=? 57))%N = true).
  { apply andb_true_intro; split; apply N.leb_le; lia. }
  rewrite H1.
  change (18446744073709551615 / 10 + 1)%N with 1844674407370955162%N.
  assert (H2: (1844674407370955162 <=? n)%N = false).
  { apply N.leb_gt. lia. }
  rewrite H2.
  rewrite (N.mod_small (n * 10)) by lia.
  rewrite (N.mod_small (n * 10 + d)) by lia.
  assert (H3: ((n * 10 + d <? n * 10) || (18446744073709551615 <? n * 10 + d))%N = false).
  { apply orb_false_intro; apply N.ltb_ge; lia. }
  now rewrite H3.
Qed.

Lemma parse_formatDigits r : forall n acc,
  (n < 10 ^ N.of_nat r)%N -> (n <= maxUint64)%N ->
  parseUintLoop (formatDigits r n acc) 0 = parseUintLoop acc n.
Proof.
  induction r as [|r IH]; intros n acc Hlt Hmax.
  - cbn in Hlt. assert (n = 0%N) by lia. subst. reflexivity.
  - cbn [formatDigits].
    assert (Hd : (n mod 10 < 10)%N) by (apply N.mod_lt; lia).
    pose proof (N.div_mod n 10 ltac:(lia)) as Hdm.
    destruct (N.eqb_spec (n / 10) 0) as [Hz|Hnz].
    + rewrite parseUintLoop_digit; [|exact Hd|unfold maxUint64 in *; lia].
      f_equal. clear - Hdm Hz. lia.
    + rewrite IH.
      * rewrite parseUintLoop_digit; [|exact Hd|unfold maxUint64 in *; lia].
        f_equal. clear - Hdm. lia.
      * apply N.Div0.div_lt_upper_bound.
        rewrite Nat2N.inj_succ, N.pow_succ_r' in Hlt. lia.
      * unfold maxUint64 in *. apply N.Div0.div_le_upper_bound. lia.
Qed.

Lemma formatDigits_nonempty r : forall n c acc, formatDigits r n (String c acc) <> "".
Proof.
  induction r as [|r IH]; intros n c acc; cbn [formatDigits].
  - discriminate.
  - destruct (n / 10 =? 0)%N; [discriminate | apply IH].
Qed.

Lemma formatDigits_S_nonempty r n acc : formatDigits (S r) n acc <> "".
Proof.
  cbn [formatDigits].
  destruct (n / 10 =? 0)%N; [discriminate | apply formatDigits_nonempty].
Qed.

Lemma FormatUint_nonempty n : FormatUint n <> "".
Proof. apply (formatDigits_S_nonempty 19). Qed.

Lemma ParseUint_nonempty s : s <> "" -> ParseUint s = parseUintLoop s 0.
Proof. destruct s; [congruence | reflexivity]. Qed.

Lemma ParseUint_FormatUint n : (n <= maxUint64)%N -> ParseUint (FormatUint n) = Some n.
Proof.
  intros Hn. rewrite ParseUint_nonempty by apply FormatUint_nonempty.
  unfold FormatUint. rewrite parse_formatDigits; [reflexivity| |exact Hn].
  unfold maxUint64 in Hn. change (10 ^ N.of_nat 20)%N with 100000000000000000000%N. lia.
Qed.

Lemma parseUintLoop_bound s : forall n m,
  parseUintLoop s n = Some m -> (n <= maxUint64)%N -> (m <= maxUint64)%N.
Proof.
  induction s as [|c s IH]; intros n m H Hn; cbn [parseUintLoop] in H.
  - congruence.
  - destruct ((48 <=? N_of_ascii c) && (N_of_ascii c <=? 57))%N; [|discriminate].
    destruct (cutoff <=? n)%N; [discriminate|].
    destruct ((_ <? _) || (maxUint64 <? _))%N eqn:E; [discriminate|].
    apply orb_false_elim in E as [_ E]. apply N.ltb_ge in E.
    eapply IH; eauto.
Qed.

Lemma ParseUint_bound s m : ParseUint s = Some m -> (m <= maxUint64)%N.
Proof.
  destruct s; [discriminate|]. intros H. eapply parseUintLoop_bound; [exact H|].
  unfold maxUint64. lia.
Qed.

Lemma ParseUint_Some_nonempty s n : ParseUint s = Some n -> (s =? "") = false.
Proof. destruct s; [discriminate | reflexivity]. Qed.

Lemma eqb_empty_false s : s <> "" -> (s =? "") = false.
Proof. intros H. now apply String.eqb_neq. Qed.

Lemma older_fallback_lenLex a b :
  (if (String.length b <? String.length a)%nat then b
   else if (String.length a <? String.length b)%nat then a
   else if String.ltb b a then b else a) = lenLexOlder a b.
Proof.
  unfold lenLexOlder, lenLexLt.
  destruct (Nat.ltb_spec (String.length b) (String.length a)) as [H|H]; [reflexivity|].
  destruct (Nat.ltb_spec (String.length a) (String.length b)) as [H'|H'].
  - replace (String.length b =? String.length a)%nat with false
      by (symmetry; apply Nat.eqb_neq; lia).
    reflexivity.
  - replace (String.length b =? String.length a)%nat with true
      by (symmetry; apply Nat.eqb_eq; lia).
    reflexivity.
Qed.

(** Claim C3. For two cursors that both parse as unsigned integers,
    [olderSnowflakeID] returns one of them, and it is one whose value is
    the smaller of the two. The predecessor of a cursor that parses as a
    positive integer [n] is the decimal string of [n - 1], which parses
    back to [n - 1]. The predecessor of ["0"] is ["0"]. *)
Theorem snowflake_numeric_order_and_predecessor :
  (forall a b na nb, ParseUint a = Some na -> ParseUint b = Some nb ->
     (olderSnowflakeID a b = a \/ olderSnowflakeID a b = b) /\
     ParseUint (olderSnowflakeID a b) = Some (N.min na nb)) /\
  (forall x n, ParseUint x = Some n -> (0 < n)%N ->
     previousSnowflakeID x = FormatUint (n - 1) /\
     ParseUint (previousSnowflakeID x) = Some (n - 1)%N) /\
  previousSnowflakeID "0" = "0".
Proof.
  split; [|split].
  - intros a b na nb Ha Hb. unfold olderSnowflakeID.
    rewrite (ParseUint_Some_nonempty _ _ Ha), (ParseUint_Some_nonempty _ _ Hb), Ha, Hb.
    destruct (N.ltb_spec nb na) as [Hlt|Hge].
    + split; [now right|]. rewrite Hb. f_equal. lia.
    + split; [now left|]. rewrite Ha. f_equal. lia.
  - intros x n Hx Hpos. unfold previousSnowflakeID. rewrite Hx.
    pose proof (ParseUint_bound _ _ Hx) as Hb. unfold maxUint64 in Hb.
    replace (n =? 0)%N with false by (symmetry; apply N.eqb_neq; lia).
    unfold wrapUint64. rewrite N.mod_small by lia.
    split; [reflexivity|]. apply ParseUint_FormatUint. unfold maxUint64. lia.
  - reflexivity.
Qed.

Lemma snowflake_numeric_order_and_predecessor_witness :
  (ParseUint "1200" = Some 1200%N /\ ParseUint "987" = Some 987%N) /\
  ParseUint (olderSnowflakeID "1200" "987") = Some (N.min 1200 987) /\
  previousSnowflakeID "1200" = FormatUint (1200 - 1).
Proof.
  split; [split; reflexivity|]. split.
  - apply (proj1 snowflake_numeric_order_and_predecessor "1200" "987" 1200%N 987%N);
      reflexivity.
  - apply (proj1 (proj2 snowflake_numeric_order_and_predecessor) "1200" 1200%N);
      [reflexivity | lia].
Defined.

Example older_of_examples :
  olderSnowflakeID "1200" "987" = "987" /\ olderSnowflakeID "007" "5" = "5"
  /\ previousSnowflakeID "1200" = "1199" /\ previousSnowflakeID "18446744073709551615"
     = "18446744073709551614".
Proof. repeat split. Qed.

(** The current bound ["abc"] is not empty and does not parse, yet with an
    empty candidate [olderSnowflakeID] returns it, while the empty string
    is the older of the two in the length-then-lexicographic order. *)
Lemma older_empty_candidate_not_lenLex :
  malformed "abc" /\ olderSnowflakeID "abc" "" = "abc" /\ lenLexOlder "abc" "" = "".
Proof.
  split; [split; [discriminate | reflexivity] | split; reflexivity].
Qed.

(** Claim C4, amended. Both functions return on every input:
    [olderSnowflakeID] returns one of its arguments, [previousSnowflakeID]
    returns a cursor it cannot parse unchanged. An empty argument yields
    the other argument. When both arguments are non-empty and at least one
    of them does not parse, the result is the older of the two in the
    length-then-lexicographic order. *)
Theorem snowflake_total_and_fallback :
  (forall a b, olderSnowflakeID a b = a \/ olderSnowflakeID a b = b) /\
  (forall x, ParseUint x = None -> previousSnowflakeID x = x) /\
  (forall a, olderSnowflakeID a "" = a) /\
  (forall b, olderSnowflakeID "" b = b) /\
  (forall a b, a <> "" -> b <> "" -> ParseUint a = None \/ ParseUint b = None ->
     olderSnowflakeID a b = lenLexOlder a b).
Proof.
  split; [|split; [|split; [|split]]].
  - intros a b. unfold olderSnowflakeID.
    destruct (b =? ""); [now left|]. destruct (a =? ""); [now right|].
    destruct (ParseUint a), (ParseUint b);
      repeat match goal with |- context [if ?c then _ else _] => destruct c end; auto.
  - intros x Hx. unfold previousSnowflakeID. now rewrite Hx.
  - intros a. reflexivity.
  - intros b. unfold olderSnowflakeID. destruct (String.eqb_spec b ""); [subst|]; reflexivity.
  - intros a b Ha Hb Hbad. unfold olderSnowflakeID.
    rewrite (eqb_empty_false _ Ha), (eqb_empty_false _ Hb).
    destruct (ParseUint a) eqn:Ea, (ParseUint b) eqn:Eb;
      try apply older_fallback_lenLex.
    destruct Hbad; discriminate.
Qed.

Lemma snowflake_total_and_fallback_witness :
  ("12x" <> "" /\ "9z" <> "" /\ ParseUint "12x" = None) /\
  olderSnowflakeID "12x" "9z" = lenLexOlder "12x" "9z" /\
  lenLexOlder "12x" "9z" = "9z".
Proof.
  split; [repeat split; discriminate|]. split; [|reflexivity].
  apply (proj2 (proj2 (proj2 (proj2 snowflake_total_and_fallback))) "12x" "9z");
    [discriminate | discriminate | now left].
Defined.

(** ** Emoji formatting *)

Lemma shouldEscape_nonASCII c : (128 <=? N_of_ascii c)%N = true -> Url.shouldEscape c = true.
Proof.
  destruct c as [b0 b1 b2 b3 b4 b5 b6 b7].
  destruct b7; [| destruct b0, b1, b2, b3, b4, b5, b6; discriminate].
  intros _. destruct b0, b1, b2, b3, b4, b5, b6; reflexivity.
Qed.

Lemma PathEscape_nonASCII name :
  nonASCII name = true -> Url.PathEscape name = percentEncoded name.
Proof.
  unfold Url.PathEscape.
  induction name as [|c rest IH]; intros H; [reflexivity|].
  cbn [nonASCII] in H. apply andb_prop in H as [Hc Hrest].
  cbn [Url.escape percentEncoded]. rewrite (shouldEscape_nonASCII _ Hc), IH by exact Hrest.
  reflexivity.
Qed.

(** Claim C9. A custom emoji, whose id is neither nil nor empty, is
    formatted as its name, a colon and its id, with no escaping
    ([pepe:555]). An emoji with a nil id is formatted as the path-escaped
    name; when the name is made of non-ASCII bytes only, as the UTF-8
    encoding of an emoji character is, every byte comes out as a percent
    escape (thumbs up is [%F0%9F%91%8D]). *)
Theorem emoji_url_formatting :
  (forall name id, id <> "" ->
     formatEmojiForURL (mkEmoji (Some id) name) = name ++ ":" ++ id) /\
  formatEmojiForURL (mkEmoji (Some "555") "pepe") = "pepe:555" /\
  (forall name, formatEmojiForURL (mkEmoji None name) = Url.PathEscape name) /\
  (forall name, nonASCII name = true ->
     formatEmojiForURL (mkEmoji None name) = percentEncoded name) /\
  formatEmojiForURL (mkEmoji None thumbsUp) = "%F0%9F%91%8D".
Proof.
  split; [|split; [|split; [|split]]].
  - intros name id Hid. unfold formatEmojiForURL. cbn [emojiID emojiName].
    now rewrite (eqb_empty_false _ Hid).
  - reflexivity.
  - reflexivity.
  - intros name Hn. unfold formatEmojiForURL. cbn [emojiID emojiName].
    now apply PathEscape_nonASCII.
  - reflexivity.
Qed.

Lemma emoji_url_formatting_witness :
  ("1234" <> "" /\ nonASCII thumbsUp = true) /\
  formatEmojiForURL (mkEmoji (Some "1234") "party_parrot") = "party_parrot" ++ ":" ++ "1234" /\
  formatEmojiForURL (mkEmoji None thumbsUp) = percentEncoded thumbsUp.
Proof.
  split; [split; [discriminate | reflexivity]|]. split.
  - apply (proj1 emoji_url_formatting). discriminate.
  - apply (proj1 (proj2 (proj2 (proj2 emoji_url_formatting)))). reflexivity.
Defined.

(** ** The request executor *)

Section Executor.
Context `{Runtime}.
Variable c : DiscordClient.

Lemma rateLimitWait_specified method path resp :
  rateLimitWait method path resp = specifiedWait method path resp.
Proof.
  unfold rateLimitWait, specifiedWait, headerNumber, bodyRetryAfter, strictRoute,
    replacedIfLarger, flooredAt.
  destruct (Header resp "Retry-After" =? ""), (Header resp "X-RateLimit-Reset-After" =? "");
    cbn [negb];
    repeat match goal with
           | |- context [ParseFloat ?h] => destruct (ParseFloat h)
           end;
    destruct (unmarshalRateLimit (Body resp)) as [rl|];
    try destruct (Float64.ltb (Float64.ofInt 0) (RetryAfter rl));
    rewrite <- ?andb_assoc;
    destruct (method =? "GET"); cbn [andb];
    try destruct (Strings.Contains path "/users/@me/threads/archived/private");
    reflexivity.
Qed.

Lemma calls_do req w : calls (EvDo req :: w) = S (calls w).
Proof. reflexivity. Qed.

Lemma calls_sleepFor d w : calls (sleepFor d w) = calls w.
Proof. reflexivity. Qed.

Lemma calls_sleep ms w : calls (sleep ms w) = calls w.
Proof. reflexivity. Qed.

(** Comparing the other way round gives the opposite answer. *)
Lemma SFcompare_antisym (x y : Float64.float64) :
  SFcompare y x = option_map CompOpp (SFcompare x y).
Proof.
  destruct x as [sx|sx| |sx mx ex], y as [sy|sy| |sy my ey]; cbn;
    try reflexivity; try (destruct sx; reflexivity); try (destruct sy; reflexivity);
    try (destruct sx, sy; reflexivity).
  destruct sx, sy; try reflexivity; f_equal.
  - rewrite (Z.compare_antisym ey ex). destruct (ey ?= ex)%Z; cbn; try reflexivity.
    rewrite (Pos.compare_cont_antisym mx my Eq). reflexivity.
  - rewrite (Z.compare_antisym ey ex). destruct (ey ?= ex)%Z; cbn; try reflexivity.
    rewrite (Pos.compare_cont_antisym mx my Eq). reflexivity.
Qed.

(** A number that is not below another one is at least that one. *)
Lemma not_below_at_least (x y : Float64.float64) :
  Float64.ltb x y = false -> x <> Float64.NaN -> y <> Float64.NaN ->
  Float64.leb y x = true.
Proof.
  unfold Float64.ltb, Float64.leb, SFltb, SFleb. intros Hlt Hx Hy.
  rewrite (SFcompare_antisym x y).
  destruct (SFcompare x y) as [[| |]|] eqn:E; cbn; try reflexivity; try discriminate.
  exfalso. destruct x as [sx|sx| |sx mx ex], y as [sy|sy| |sy my ey];
    try discriminate E; try (now apply Hx); now apply Hy.
Qed.

Lemma flooredAt_not_below floor value :
  Float64.ltb floor floor = false -> Float64.ltb (flooredAt floor value) floor = false.
Proof.
  intros Hfloor. unfold flooredAt. destruct (Float64.ltb value floor) eqn:E; assumption.
Qed.

Lemma specifiedWait_floor method path resp :
  Float64.ltb (specifiedWait method path resp) (Float64.ofInt 2) = false /\
  (strictRoute method path = true ->
   Float64.ltb (specifiedWait method path resp) (Float64.ofInt 6) = false).
Proof.
  unfold specifiedWait. destruct (strictRoute method path); split.
  - unfold flooredAt at 1.
    match goal with |- context [Float64.ltb ?v (Float64.ofInt 6)] =>
      destruct (Float64.ltb v (Float64.ofInt 6)) end;
      [reflexivity | now apply flooredAt_not_below].
  - intros _. now apply flooredAt_not_below.
  - now apply flooredAt_not_below.
  - discriminate.
Qed.

Lemma requestLoop_on_429 method path jsonBody resp remaining w :
  newRequestOK method (apiBase ++ path) = true ->
  httpClient c (calls w) (mkRequest method (apiBase ++ path) (token c) jsonBody) = inr resp ->
  StatusCode resp = 429%Z ->
  requestLoop c (S remaining) method path jsonBody w =
  requestLoop c remaining method path jsonBody
    (sleepFor (waitDuration (rateLimitWait method path resp))
           (EvDo (mkRequest method (apiBase ++ path) (token c) jsonBody) :: w)).
Proof.
  intros Hok Hdo Hsc. cbn [requestLoop]. rewrite Hok, Hdo, Hsc. reflexivity.
Qed.

Lemma requestLoop_on_other method path jsonBody resp remaining w :
  newRequestOK method (apiBase ++ path) = true ->
  httpClient c (calls w) (mkRequest method (apiBase ++ path) (token c) jsonBody) = inr resp ->
  StatusCode resp <> 429%Z ->
  requestLoop c (S remaining) method path jsonBody w =
  (mkReply (Body resp) (StatusCode resp) None,
   EvDo (mkRequest method (apiBase ++ path) (token c) jsonBody) :: w).
Proof.
  intros Hok Hdo Hsc. cbn [requestLoop]. rewrite Hok, Hdo. cbn [negb].
  destruct ((200 <=? StatusCode resp) && (StatusCode resp <? 300))%Z; [reflexivity|].
  destruct (Z.eqb_spec (StatusCode resp) 429); [contradiction | reflexivity].
Qed.

Lemma requestLoop_throttled method path jsonBody resp :
  newRequestOK method (apiBase ++ path) = true ->
  forall k remaining w,
    (k < remaining)%nat ->
    (forall i, (i < k)%nat ->
       rateLimited c (calls w + i) (mkRequest method (apiBase ++ path) (token c) jsonBody)) ->
    httpClient c (calls w + k) (mkRequest method (apiBase ++ path) (token c) jsonBody)
      = inr resp ->
    StatusCode resp <> 429%Z ->
    exists w', requestLoop c remaining method path jsonBody w
               = (mkReply (Body resp) (StatusCode resp) None, w')
               /\ calls w' = (calls w + k + 1)%nat.
Proof.
  intros Hok. induction k as [|k IH]; intros remaining w Hlt Hlim Hdo Hsc.
  - destruct remaining as [|remaining]; [lia|].
    rewrite Nat.add_0_r in Hdo.
    eexists. split; [apply requestLoop_on_other; eassumption|].
    rewrite calls_do. lia.
  - destruct remaining as [|remaining]; [lia|].
    destruct (Hlim 0%nat ltac:(lia)) as (resp0 & Hdo0 & Hsc0).
    rewrite Nat.add_0_r in Hdo0.
    rewrite (requestLoop_on_429 _ _ _ _ _ _ Hok Hdo0 Hsc0).
    destruct (IH remaining
                 (sleepFor (waitDuration (rateLimitWait method path resp0))
                        (EvDo (mkRequest method (apiBase ++ path) (token c) jsonBody) :: w)))
      as (w' & Hrun & Hcalls).
    + lia.
    + intros i Hi. rewrite calls_sleepFor, calls_do.
      replace (S (calls w) + i)%nat with (calls w + S i)%nat by lia. apply Hlim. lia.
    + rewrite calls_sleepFor, calls_do.
      replace (S (calls w) + k)%nat with (calls w + S k)%nat by lia. exact Hdo.
    + exact Hsc.
    + exists w'. split; [exact Hrun|]. rewrite Hcalls, calls_sleepFor, calls_do. lia.
Qed.

Lemma requestLoop_exhausted method path jsonBody :
  newRequestOK method (apiBase ++ path) = true ->
  forall remaining w,
    (forall i, (i < remaining)%nat ->
       rateLimited c (calls w + i) (mkRequest method (apiBase ++ path) (token c) jsonBody)) ->
    exists w', requestLoop c remaining method path jsonBody w
               = (mkReply "" 429 (Some "still rate limited after 5 retries"), w')
               /\ calls w' = (calls w + remaining)%nat.
Proof.
  intros Hok. induction remaining as [|remaining IH]; intros w Hlim.
  - exists w. split; [reflexivity | lia].
  - destruct (Hlim 0%nat ltac:(lia)) as (resp0 & Hdo0 & Hsc0).
    rewrite Nat.add_0_r in Hdo0.
    rewrite (requestLoop_on_429 _ _ _ _ _ _ Hok Hdo0 Hsc0).
    destruct (IH (sleepFor (waitDuration (rateLimitWait method path resp0))
                        (EvDo (mkRequest method (apiBase ++ path) (token c) jsonBody) :: w)))
      as (w' & Hrun & Hcalls).
    + intros i Hi. rewrite calls_sleepFor, calls_do.
      replace (S (calls w) + i)%nat with (calls w + S i)%nat by lia. apply Hlim. lia.
    + exists w'. split; [exact Hrun|]. rewrite Hcalls, calls_sleepFor, calls_do. lia.
Qed.

(** A reply with status 429 is only ever produced by the exhausted loop. *)
Lemma requestLoop_429_exhausted method path jsonBody :
  forall remaining w r w',
    requestLoop c remaining method path jsonBody w = (r, w') ->
    replyStatus r = 429%Z ->
    replyErr r = Some "still rate limited after 5 retries"
    /\ calls w' = (calls w + remaining)%nat
    /\ forall i, (i < remaining)%nat ->
         rateLimited c (calls w + i) (mkRequest method (apiBase ++ path) (token c) jsonBody).
Proof.
  induction remaining as [|remaining IH]; intros w r w' Hrun Hst.
  - cbn in Hrun. injection Hrun as <- <-. repeat split; [lia | intros i Hi; lia].
  - cbn [requestLoop] in Hrun.
    destruct (newRequestOK method (apiBase ++ path)); cbn [negb] in Hrun;
      [|injection Hrun as <- <-; discriminate].
    destruct (httpClient c (calls w) _) as [e|resp] eqn:Hdo;
      [injection Hrun as <- <-; discriminate|].
    destruct ((200 <=? StatusCode resp) && (StatusCode resp <? 300))%Z eqn:E2.
    { injection Hrun as <- <-. cbn in Hst. rewrite Hst in E2. discriminate. }
    destruct (Z.eqb_spec (StatusCode resp) 429) as [Hsc|Hsc];
      [|injection Hrun as <- <-; contradiction].
    destruct (IH _ _ _ Hrun Hst) as (He & Hc & Hall).
    rewrite calls_sleepFor, calls_do in Hc.
    split; [exact He|]. split; [lia|].
    intros i Hi. destruct i as [|i].
    + rewrite Nat.add_0_r. exists resp. split; [exact Hdo | exact Hsc].
    + specialize (Hall i ltac:(lia)). rewrite calls_sleepFor, calls_do in Hall.
      replace (calls w + S i)%nat with (S (calls w) + i)%nat by lia. exact Hall.
Qed.

End Executor.

(** The listing of the archived private threads of a channel
    ([/channels/{id}/threads/archived/private]) is not a route the
    executor treats as stricter: a GET on it that is answered 429 with
    [Retry-After: 0.5] and [X-RateLimit-Reset-After: 3] waits 4, below 6. *)
Lemma private_archive_listing_not_floored :
  Strings.Contains privateArchivePath "/threads/archived/private" = true /\
  @rateLimitWait exampleRuntime "GET" privateArchivePath throttledResponse = Float64.ofInt 4 /\
  Float64.ltb (Float64.ofInt 4) (Float64.ofInt 6) = true.
Proof. repeat split. Qed.

(** The wait and the pause are computed as the source computes them, in
    [float64] and [int64]: after [Retry-After: 1.002] the pause is 2001
    milliseconds, since 2.002 * 1000 falls just short of 2002; after
    [Retry-After: 10000000000] the duration wraps around to a negative
    one, which is no pause; after [Retry-After: NaN], which
    [strconv.ParseFloat] accepts, the wait is the NaN, no floor applies
    and the duration is 0. *)
Example wait_follows_float64 :
  waitDuration (@rateLimitWait exampleRuntime "GET" "/users/@me" (retryAfterResponse "1.002"))
  = (2001 * Millisecond)%Z /\
  (waitDuration (@rateLimitWait exampleRuntime "GET" "/users/@me"
                   (retryAfterResponse "10000000000")) <? 0)%Z = true /\
  @rateLimitWait exampleRuntime "GET" "/users/@me" (retryAfterResponse "NaN") = Float64.NaN /\
  waitDuration Float64.NaN = 0%Z.
Proof. repeat split. Qed.

(** Claim C5, amended. On a 429 the wait the executor computes is the
    [Retry-After] value when the header is a number (else 5), replaced by
    the [X-RateLimit-Reset-After] value if larger, replaced by the
    [retry_after] field of the body if that is positive and larger still;
    then 1 is added and the result is floored at 2; for a GET whose path
    contains [/users/@me/threads/archived/private] (the listing of the
    joined archived private threads) it is floored at 6. All of it is
    [float64] arithmetic: the wait is never below the floor and, unless
    it is the NaN, it is at least the floor. The executor then calls
    [time.Sleep] with the duration the source derives from this wait and
    makes the next attempt. *)
Theorem rate_limit_wait_as_specified `{Runtime} (c : DiscordClient)
    (method path jsonBody : string) (resp : Response) (remaining : nat) (w : World) :
  newRequestOK method (apiBase ++ path) = true ->
  httpClient c (calls w) (mkRequest method (apiBase ++ path) (token c) jsonBody) = inr resp ->
  StatusCode resp = 429%Z ->
  rateLimitWait method path resp = specifiedWait method path resp /\
  (Float64.ltb (rateLimitWait method path resp) (Float64.ofInt 2) = false /\
   (rateLimitWait method path resp <> Float64.NaN ->
    Float64.leb (Float64.ofInt 2) (rateLimitWait method path resp) = true)) /\
  (strictRoute method path = true ->
   Float64.ltb (rateLimitWait method path resp) (Float64.ofInt 6) = false /\
   (rateLimitWait method path resp <> Float64.NaN ->
    Float64.leb (Float64.ofInt 6) (rateLimitWait method path resp) = true)) /\
  requestLoop c (S remaining) method path jsonBody w =
  requestLoop c remaining method path jsonBody
    (sleepFor (waitDuration (specifiedWait method path resp))
              (EvDo (mkRequest method (apiBase ++ path) (token c) jsonBody) :: w)).
Proof.
  intros Hok Hdo Hsc. rewrite rateLimitWait_specified.
  destruct (specifiedWait_floor method path resp) as [H2 H6].
  split; [reflexivity|]. split; [|split].
  - split; [exact H2|]. intros Hnan. apply not_below_at_least; [exact H2 | exact Hnan|].
    discriminate.
  - intros Hstrict. specialize (H6 Hstrict). split; [exact H6|].
    intros Hnan. apply not_below_at_least; [exact H6 | exact Hnan|]. discriminate.
  - rewrite <- rateLimitWait_specified. now apply requestLoop_on_429.
Qed.

Lemma rate_limit_wait_as_specified_witness :
  (StatusCode throttledResponse = 429%Z /\
   strictRoute "GET" joinedPrivateArchivePath = true) /\
  @rateLimitWait exampleRuntime "GET" joinedPrivateArchivePath throttledResponse
  = Float64.ofInt 6 /\
  Float64.leb (Float64.ofInt 6)
    (@rateLimitWait exampleRuntime "GET" joinedPrivateArchivePath throttledResponse) = true.
Proof.
  split; [split; reflexivity|].
  destruct (@rate_limit_wait_as_specified exampleRuntime throttledOnceClient
              "GET" joinedPrivateArchivePath "" throttledResponse 4 [] eq_refl eq_refl eq_refl)
    as (Heq & _ & Hfloor & _).
  split; [rewrite Heq; reflexivity|].
  apply (proj2 (Hfloor eq_refl)). discriminate.
Defined.

(** Five consecutive 429 responses followed by a 200: the executor gives
    up after the fifth, with five exchanges made; the 200 is never asked
    for. *)
Lemma five_429_then_200_is_a_failure :
  statuses (throttlingClient 5) exampleRequest 6 = [429; 429; 429; 429; 429; 200]%Z /\
  fst (@requestWithBody exampleRuntime (throttlingClient 5) "GET" "/users/@me" "" [])
  = mkReply "" 429 (Some "still rate limited after 5 retries") /\
  calls (snd (@requestWithBody exampleRuntime (throttlingClient 5) "GET" "/users/@me" "" []))
  = 5%nat.
Proof. repeat split. Qed.

(** Claim C2, amended. The budget is five attempts in all. When fewer than
    five consecutive 429 responses are followed by another response, that
    response is returned and one exchange more than the number of 429s
    was made: four 429s and a 200 give the 200 after exactly five
    exchanges. Five consecutive 429s give the hard failure after exactly
    five exchanges, whatever the server would answer next. Conversely the
    executor reports a 429 only with that failure, after exactly five
    exchanges that were all answered 429. *)
Theorem request_retry_budget `{Runtime} (c : DiscordClient)
    (method path jsonBody : string) (w : World) :
  newRequestOK method (apiBase ++ path) = true ->
  (forall k resp,
     (k < 5)%nat ->
     (forall i, (i < k)%nat ->
        rateLimited c (calls w + i) (mkRequest method (apiBase ++ path) (token c) jsonBody)) ->
     httpClient c (calls w + k) (mkRequest method (apiBase ++ path) (token c) jsonBody)
       = inr resp ->
     StatusCode resp <> 429%Z ->
     exists w', requestWithBody c method path jsonBody w
                = (mkReply (Body resp) (StatusCode resp) None, w')
                /\ calls w' = (calls w + k + 1)%nat) /\
  ((forall i, (i < 5)%nat ->
      rateLimited c (calls w + i) (mkRequest method (apiBase ++ path) (token c) jsonBody)) ->
   exists w', requestWithBody c method path jsonBody w
              = (mkReply "" 429 (Some "still rate limited after 5 retries"), w')
              /\ calls w' = (calls w + 5)%nat) /\
  (forall r w', requestWithBody c method path jsonBody w = (r, w') ->
     replyStatus r = 429%Z ->
     replyErr r = Some "still rate limited after 5 retries"
     /\ calls w' = (calls w + 5)%nat
     /\ forall i, (i < 5)%nat ->
          rateLimited c (calls w + i) (mkRequest method (apiBase ++ path) (token c) jsonBody)).
Proof.
  intros Hok. unfold requestWithBody. split; [|split].
  - intros k resp Hk Hlim Hdo Hsc. now apply requestLoop_throttled.
  - intros Hlim. now apply requestLoop_exhausted.
  - intros r w' Hrun Hst. eapply requestLoop_429_exhausted; eassumption.
Qed.

Lemma request_retry_budget_witness :
  statuses (throttlingClient 4) exampleRequest 5 = [429; 429; 429; 429; 200]%Z /\
  fst (@requestWithBody exampleRuntime (throttlingClient 4) "GET" "/users/@me" "" [])
  = mkReply "ok" 200 None /\
  calls (snd (@requestWithBody exampleRuntime (throttlingClient 4) "GET" "/users/@me" "" []))
  = 5%nat.
Proof.
  split; [reflexivity|].
  destruct (proj1 (@request_retry_budget exampleRuntime (throttlingClient 4)
                     "GET" "/users/@me" "" [] eq_refl) 4%nat (plainResponse 200 "ok"))
    as (w' & Hrun & Hcalls).
  - lia.
  - intros i Hi. exists (plainResponse 429 ""). split; [|reflexivity].
    cbn. destruct i as [|[|[|[|i]]]]; try reflexivity. lia.
  - reflexivity.
  - discriminate.
  - rewrite Hrun. split; [reflexivity | exact Hcalls].
Defined.

(** ** The deletion walkers *)

Lemma wrapInt_range z : inIntRange (wrapInt z).
Proof.
  unfold inIntRange, wrapInt.
  pose proof (Z.mod_pos_bound (z + 9223372036854775808) 18446744073709551616 ltac:(lia)).
  lia.
Qed.

Lemma wrapInt_id z : inIntRange z -> wrapInt z = z.
Proof.
  unfold inIntRange, wrapInt. intros Hz. rewrite Z.mod_small by lia. lia.
Qed.

Lemma addInt_0_l z : inIntRange z -> addInt 0 z = z.
Proof. intros Hz. unfold addInt. now rewrite Z.add_0_l, wrapInt_id. Qed.

Lemma forEach_preserves {A S : Type} (P : S -> Prop) (body : A -> S -> World -> S * World) :
  (forall x s w, P s -> P (fst (body x s w))) ->
  forall l s w, P s -> P (fst (forEach body l s w)).
Proof.
  intros Hbody. induction l as [|x l IH]; intros s w Hs; cbn [forEach]; [exact Hs|].
  specialize (Hbody x s w Hs). destruct (body x s w) as [s1 w1]. now apply IH.
Qed.

Section Walkers.
Context `{Runtime}.
Variable c : DiscordClient.

Lemma historyHit_range channelID msg totalDeleted w :
  inIntRange totalDeleted -> inIntRange (fst (historyHit c channelID msg totalDeleted w)).
Proof.
  intros Hr. unfold historyHit.
  destruct (userId (Author msg) =? userID c); [|exact Hr].
  destruct (request c "DELETE" _ w) as [r w1]. cbn [fst].
  destruct (replyErr r); [exact Hr|].
  destruct (_ || _ || _)%Z; [apply wrapInt_range | exact Hr].
Qed.

Lemma iterateAndDeleteLoop_range channelID :
  forall fuel totalDeleted beforeID w n e w',
    inIntRange totalDeleted ->
    iterateAndDeleteLoop fuel c channelID totalDeleted beforeID w = Some ((n, e), w') ->
    inIntRange n.
Proof.
  induction fuel as [|fuel IH]; intros totalDeleted beforeID w n e w' Hr Hrun;
    [discriminate|].
  cbn [iterateAndDeleteLoop] in Hrun.
  destruct (request c "GET" _ w) as [r w1].
  destruct (replyErr r); [injection Hrun as <- <- <-; exact Hr|].
  destruct (replyStatus r =? 403)%Z; [injection Hrun as <- <- <-; exact Hr|].
  destruct (negb (replyStatus r =? 200)%Z); [injection Hrun as <- <- <-; exact Hr|].
  destruct (unmarshalMessages (replyBody r)) as [messages|];
    [|injection Hrun as <- <- <-; exact Hr].
  destruct (length messages =? 0)%nat; [injection Hrun as <- <- <-; exact Hr|].
  pose proof (forEach_preserves inIntRange (historyHit c channelID)
                (fun x s w => historyHit_range channelID x s w) messages totalDeleted w1 Hr) as Hf.
  destruct (forEach (historyHit c channelID) messages totalDeleted w1) as [td w2].
  cbn [fst] in Hf.
  destruct (length messages <? 100)%nat; [injection Hrun as <- <- <-; exact Hf|].
  eapply IH; eassumption.
Qed.

Lemma iterateAndDeleteLoop_more_fuel channelID :
  forall fuel totalDeleted beforeID w res,
    iterateAndDeleteLoop fuel c channelID totalDeleted beforeID w = Some res ->
    forall fuel', (fuel <= fuel')%nat ->
    iterateAndDeleteLoop fuel' c channelID totalDeleted beforeID w = Some res.
Proof.
  induction fuel as [|fuel IH]; intros totalDeleted beforeID w res Hrun fuel' Hle;
    [discriminate|].
  destruct fuel' as [|fuel']; [lia|].
  cbn [iterateAndDeleteLoop] in *.
  destruct (request c "GET" _ w) as [r w1].
  destruct (replyErr r); [exact Hrun|].
  destruct (replyStatus r =? 403)%Z; [exact Hrun|].
  destruct (negb (replyStatus r =? 200)%Z); [exact Hrun|].
  destruct (unmarshalMessages (replyBody r)) as [messages|]; [|exact Hrun].
  destruct (length messages =? 0)%nat; [exact Hrun|].
  destruct (forEach (historyHit c channelID) messages totalDeleted w1) as [td w2].
  destruct (length messages <? 100)%nat; [exact Hrun|].
  apply IH with (fuel' := fuel') in Hrun; [exact Hrun | lia].
Qed.

Lemma searchDMLoop_fallback channelID fuel totalDeleted indexWaitCount maxID skipped w r w1 :
  request c "GET" (dmSearchPath c channelID maxID) w = (r, w1) ->
  replyErr r = None ->
  replyStatus r <> 200%Z ->
  replyStatus r <> 202%Z ->
  searchDMLoop (S fuel) c channelID totalDeleted indexWaitCount maxID skipped w =
  match iterateAndDeleteChannel fuel c channelID w1 with
  | None => None
  | Some ((fallbackCount, fallbackErr), w2) =>
      Some ((addInt totalDeleted fallbackCount,
             fallbackError (replyStatus r) fallbackErr), w2)
  end.
Proof.
  intros Hreq Herr H200 H202. cbn [searchDMLoop]. rewrite Hreq, Herr.
  destruct (Z.eqb_spec (replyStatus r) 202) as [|_]; [contradiction|].
  unfold fallbackError.
  destruct ((replyStatus r =? 403) || (replyStatus r =? 400) || (replyStatus r =? 404))%Z.
  - destruct (iterateAndDeleteChannel fuel c channelID w1) as [[[n e] w2]|]; reflexivity.
  - destruct (Z.eqb_spec (replyStatus r) 200) as [|_]; [contradiction|]. cbn [negb].
    destruct (iterateAndDeleteChannel fuel c channelID w1) as [[[n [e|]] w2]|]; reflexivity.
Qed.

End Walkers.

(** Claim C8. In the conversation walker, whenever the search request comes
    back with a status other than 200 and 202 (403, 400, 404 or any
    other), the walker runs the history scan on the same channel and
    returns what it has deleted so far plus the count of the scan, with the
    error of the scan (as it is after 403, 400 and 404, wrapped otherwise).
    When the very first search response is a 403 the walker returns
    exactly the result of the history scan, and it does so with any fuel
    above the one the scan needs. *)
Theorem dm_search_failure_falls_back `{Runtime} (c : DiscordClient) (channelID : string) :
  (forall fuel totalDeleted indexWaitCount maxID skipped w r w1,
     request c "GET" (dmSearchPath c channelID maxID) w = (r, w1) ->
     replyErr r = None ->
     replyStatus r <> 200%Z ->
     replyStatus r <> 202%Z ->
     searchDMLoop (S fuel) c channelID totalDeleted indexWaitCount maxID skipped w =
     match iterateAndDeleteChannel fuel c channelID w1 with
     | None => None
     | Some ((fallbackCount, fallbackErr), w2) =>
         Some ((addInt totalDeleted fallbackCount,
                fallbackError (replyStatus r) fallbackErr), w2)
     end) /\
  (forall fuel w r w1 n e w2,
     request c "GET" (dmSearchPath c channelID "") w = (r, w1) ->
     replyErr r = None ->
     replyStatus r = 403%Z ->
     iterateAndDeleteChannel fuel c channelID w1 = Some ((n, e), w2) ->
     forall fuel', (fuel <= fuel')%nat ->
       SearchDMMessages (S fuel') c channelID w = Some ((n, e), w2)).
Proof.
  split.
  - intros. now apply searchDMLoop_fallback.
  - intros fuel w r w1 n e w2 Hreq Herr H403 Hscan fuel' Hle.
    unfold SearchDMMessages.
    rewrite (searchDMLoop_fallback c channelID fuel' 0 0 "" ∅ w r w1 Hreq Herr)
      by (rewrite H403; discriminate).
    unfold iterateAndDeleteChannel in *.
    rewrite (iterateAndDeleteLoop_more_fuel c channelID _ _ _ _ _ Hscan fuel' Hle).
    rewrite addInt_0_l
      by (eapply iterateAndDeleteLoop_range; [|exact Hscan]; unfold inIntRange; lia).
    rewrite H403. reflexivity.
Qed.

Lemma dm_search_failure_falls_back_witness :
  replyStatus (fst (@request exampleRuntime searchForbiddenClient "GET"
                             (dmSearchPath searchForbiddenClient "7" "") [])) = 403%Z /\
  option_map fst (@SearchDMMessages exampleRuntime 5 searchForbiddenClient "7" [])
  = Some (2%Z, None).
Proof.
  split; [reflexivity|].
  destruct (@iterateAndDeleteChannel exampleRuntime 4 searchForbiddenClient "7"
              (snd (@request exampleRuntime searchForbiddenClient "GET"
                             (dmSearchPath searchForbiddenClient "7" "") [])))
    as [[[n e] w2]|] eqn:Hscan; [|vm_compute in Hscan; discriminate Hscan].
  rewrite (proj2 (@dm_search_failure_falls_back exampleRuntime searchForbiddenClient "7")
             4%nat [] _ _ n e w2 eq_refl eq_refl eq_refl Hscan 4%nat (le_n 4)).
  vm_compute in Hscan. injection Hscan as <- <- _. reflexivity.
Defined.

(** A hit of the caller with neither identifier nor channel: it is dropped
    by the first test and the skippable set is left as it was. *)
Lemma blank_hit_not_marked_skippable :
  userId (Author blankHit) = userID (throttlingClient 0) /\
  Hit blankHit = true /\
  ChannelID blankHit = "" /\
  mget (psSkippedMessageIDs
          (fst (@guildHit exampleRuntime (throttlingClient 0) blankHit emptyPage [])))
       (msgID blankHit) = false.
Proof. repeat split. Qed.

(** The same message twice on a page, the second time without its
    channel: the first is deleted (one exchange), the second is dropped as
    already seen, and the identifier is not in the skippable set. *)
Example repeated_hit_not_marked_skippable :
  mget (psSkippedMessageIDs
          (fst (@guildPage exampleRuntime (throttlingClient 0) [[hit5; hit5NoChannel]]
                           emptyPage []))) "5" = false /\
  calls (snd (@guildPage exampleRuntime (throttlingClient 0) [[hit5; hit5NoChannel]]
                         emptyPage [])) = 1%nat.
Proof. split; reflexivity. Qed.

(** Claim C10, amended. For a hit of the caller in the guild walker: if its
    identifier is empty, or was already seen on this page, or is marked
    skippable, nothing is requested and only the oldest-seen cursor is
    updated. If its channel identifier is empty, nothing is requested
    either and its identifier still goes into the oldest-seen cursor; it
    is in the skippable set afterwards provided its identifier is not
    empty and it was not already seen on this page (or was already
    skippable). *)
Theorem guild_hit_without_delete `{Runtime} (c : DiscordClient) (msg : Message)
    (ps : PageState) (w : World) :
  userId (Author msg) = userID c ->
  Hit msg = true ->
  (msgID msg = "" \/ mget (psSeenInThisPage ps) (msgID msg) = true
   \/ mget (psSkippedMessageIDs ps) (msgID msg) = true ->
   guildHit c msg ps w
   = (setOldest (olderSnowflakeID (psOldestHitID ps) (msgID msg)) ps, w)) /\
  (ChannelID msg = "" ->
   snd (guildHit c msg ps w) = w /\
   psOldestHitID (fst (guildHit c msg ps w))
   = olderSnowflakeID (psOldestHitID ps) (msgID msg) /\
   (msgID msg <> "" ->
    mget (psSeenInThisPage ps) (msgID msg) = false
    \/ mget (psSkippedMessageIDs ps) (msgID msg) = true ->
    mget (psSkippedMessageIDs (fst (guildHit c msg ps w))) (msgID msg) = true)).
Proof.
  intros Hauthor Hhit. unfold guildHit.
  rewrite Hauthor, String.eqb_refl, Hhit.
  cbn [andb setOldest psSeenInThisPage psSkippedMessageIDs].
  split.
  - intros Hskip.
    assert (E : (msgID msg =? "") || mget (psSeenInThisPage ps) (msgID msg)
                || mget (psSkippedMessageIDs ps) (msgID msg) = true).
    { destruct Hskip as [H0|[H1|H2]].
      - rewrite H0. reflexivity.
      - rewrite H1. apply orb_true_iff. left. apply orb_true_r.
      - rewrite H2. apply orb_true_r. }
    now rewrite E.
  - intros Hch. rewrite Hch. cbn [String.eqb].
    destruct ((msgID msg =? "") || mget (psSeenInThisPage ps) (msgID msg)
              || mget (psSkippedMessageIDs ps) (msgID msg)) eqn:E.
    + cbn [fst snd psOldestHitID psSkippedMessageIDs]. repeat split.
      intros Hid [Hseen|Hskipped]; [|exact Hskipped].
      apply String.eqb_neq in Hid. rewrite Hid, Hseen in E. exact E.
    + cbn [fst snd markSkipped markSeen psOldestHitID psSkippedMessageIDs]. repeat split.
      intros _ _. unfold mget. now rewrite lookup_insert_eq.
Qed.

Lemma guild_hit_without_delete_witness :
  (userId (Author hit5NoChannel) = userID (throttlingClient 0) /\
   Hit hit5NoChannel = true /\ ChannelID hit5NoChannel = "") /\
  snd (@guildHit exampleRuntime (throttlingClient 0) hit5NoChannel emptyPage []) = [] /\
  mget (psSkippedMessageIDs
          (fst (@guildHit exampleRuntime (throttlingClient 0) hit5NoChannel emptyPage [])))
       "5" = true.
Proof.
  split; [repeat split|].
  destruct (proj2 (@guild_hit_without_delete exampleRuntime (throttlingClient 0)
                     hit5NoChannel emptyPage [] eq_refl eq_refl) eq_refl)
    as (Hw & _ & Hs).
  split; [exact Hw|]. apply Hs; [discriminate | now left].
Defined.

(** ** The orchestrator *)

(** *** The program logic of the orchestrator *)

Section Ensures.
Context {W : Type}.

Lemma ensures_ret {A} (a : A) tr (Q : A -> list Invocation -> Prop) J :
  Q a tr -> ensures (W := W) (oret a) tr Q J.
Proof. intros HQ w. exact HQ. Qed.

Lemma ensures_bind {A B} (m : Orch W A) (k : A -> Orch W B) tr
    (Q : B -> list Invocation -> Prop) J :
  ensures m tr (fun a tr' => ensures (k a) tr' Q J) J ->
  ensures (obind m k) tr Q J.
Proof.
  intros Hm w. unfold obind. specialize (Hm w).
  destruct (m (w, tr)) as [[a|] [w' tr']]; [apply Hm | exact Hm].
Qed.

Lemma ensures_call {A} p c (inj : A -> Result) (method : W -> option (A * W)) tr
    (Q : A -> list Invocation -> Prop) J :
  (forall a, Q a (mkInvocation p c (Some (inj a)) :: tr)) ->
  J (mkInvocation p c None :: tr) ->
  ensures (call p c inj method) tr Q J.
Proof.
  intros HQ HJ w. unfold call. cbn [fst snd].
  destruct (method w) as [[a w']|]; [apply HQ | exact HJ].
Qed.

Lemma ensures_mono {A} (m : Orch W A) tr (Q Q' : A -> list Invocation -> Prop) J :
  ensures m tr Q J -> (forall a tr', Q a tr' -> Q' a tr') -> ensures m tr Q' J.
Proof.
  intros Hm HQ w. specialize (Hm w).
  destruct (m (w, tr)) as [[a|] [w' tr']]; [now apply HQ | exact Hm].
Qed.

Lemma ensures_forM {A S} (body : A -> S -> Orch W S)
    (I : list A -> S -> list Invocation -> Prop) J :
  (forall x rest s tr, I (x :: rest) s tr ->
     ensures (body x s) tr (fun s' tr' => I rest s' tr') J) ->
  forall l s tr, I l s tr -> ensures (forM body l s) tr (fun s' tr' => I [] s' tr') J.
Proof.
  intros Hbody. induction l as [|x l IH]; intros s tr HI; cbn [forM].
  - now apply ensures_ret.
  - apply ensures_bind. eapply ensures_mono; [apply Hbody; exact HI|].
    intros s' tr' HI'. now apply IH.
Qed.

End Ensures.

(** *** Counting calls *)

Lemma countIf_cons f i tr :
  countIf f (i :: tr) = ((if f i then 1 else 0) + countIf f tr)%nat.
Proof. unfold countIf. cbn [List.filter]. destruct (f i); reflexivity. Qed.

Lemma countIf_le f g tr :
  (forall i, f i = true -> g i = true) -> (countIf f tr <= countIf g tr)%nat.
Proof.
  intros Hfg. induction tr as [|i tr IH]; [reflexivity|].
  rewrite !countIf_cons. specialize (Hfg i).
  destruct (f i), (g i); try lia; discriminate (Hfg eq_refl).
Qed.

Lemma walksDM_deletes ch i : walksDM ch i = true -> deletesInDM ch i = true.
Proof.
  unfold walksDM, deletesInDM. destruct (invCall i); try discriminate.
  intros H. now apply andb_prop in H.
Qed.

Lemma sweepsDM_phase ch i : invPhase i <> Phase3b -> sweepsDM ch i = false.
Proof. unfold sweepsDM. destruct (invPhase i); try reflexivity. congruence. Qed.

Lemma openListingDistinct_tail i tr : openListingDistinct (i :: tr) -> openListingDistinct tr.
Proof. intros H j channels err Hin. apply H. now right. Qed.

Lemma openListingDistinct_cons i tr :
  invCall i <> CallGetDMChannels -> openListingDistinct tr -> openListingDistinct (i :: tr).
Proof. intros Hi H j channels err [<-|Hin] Hc; [contradiction | now apply H]. Qed.

Lemma discovered_cons ch i tr :
  discovered ch (i :: tr) <-> yieldsDM ch i = true \/ discovered ch tr.
Proof. unfold discovered. cbn [existsb]. apply orb_true_iff. Qed.

Lemma mget_insert_eq (m : gmap string bool) k : mget (<[k := true]> m) k = true.
Proof. unfold mget. now rewrite lookup_insert_eq. Qed.

Lemma mget_insert_ne (m : gmap string bool) k k' :
  k <> k' -> mget (<[k := true]> m) k' = mget m k'.
Proof. intros Hne. unfold mget. now rewrite lookup_insert_ne. Qed.

Lemma mget_empty k : mget ∅ k = false.
Proof. reflexivity. Qed.

Lemma mapLen_zero_not_excluded (m : option (gmap string bool)) ch :
  (0 <? mapLen m)%nat = false ->
  match m with Some m => mget m ch | None => false end = false.
Proof.
  destruct m as [m|]; [|reflexivity]. cbn [mapLen]. intros Hlen.
  apply Nat.ltb_ge in Hlen. assert (Hsz : size m = 0%nat) by lia.
  apply map_size_empty_iff in Hsz. subst m. reflexivity.
Qed.

(** *** The invariant is kept by every call of the orchestrator *)

Section Invariant.
Variable options : PurgeOptions.

Lemma Core_excluded processed pending tr ch :
  Core options processed pending tr ->
  isDMExcluded options ch = true -> mget processed ch = false.
Proof.
  intros HC Hex. destruct (mget processed ch) eqn:E; [|reflexivity].
  apply (core_walked _ _ _ _ HC) in E.
  pose proof (core_dm _ _ _ _ HC ch Hex) as Hd.
  pose proof (countIf_le (walksDM ch) (deletesInDM ch) tr (walksDM_deletes ch)). lia.
Qed.

Lemma Core_neutral processed pending tr i :
  neutral i -> Core options processed pending tr -> Core options processed pending (i :: tr).
Proof.
  intros [Hcall Hn] HC. constructor.
  - intros ch Hex. rewrite countIf_cons. destruct (Hn ch) as (_ & -> & _).
    now apply (core_dm _ _ _ _ HC).
  - intros g Hex. rewrite countIf_cons. destruct (Hn g) as (_ & _ & -> & _).
    now apply (core_guild _ _ _ _ HC).
  - intros Hd ch. rewrite countIf_cons. destruct (Hn ch) as (-> & _).
    apply (core_walk_once _ _ _ _ HC). now apply openListingDistinct_tail in Hd.
  - apply (core_true _ _ _ _ HC).
  - intros ch. rewrite countIf_cons. destruct (Hn ch) as (-> & _).
    apply (core_walked _ _ _ _ HC).
  - intros ch Hdisc Hex. apply discovered_cons in Hdisc as [Hy|Hdisc].
    + destruct (Hn ch) as (_ & _ & _ & Hy'). congruence.
    + now apply (core_found _ _ _ _ HC).
Qed.

Lemma Core_guild_search processed pending tr g res :
  isGuildExcluded options g = false ->
  Core options processed pending tr ->
  Core options processed pending (mkInvocation Phase1 (CallSearchGuildMessages g) res :: tr).
Proof.
  intros Hg HC. constructor.
  - intros ch Hex. rewrite countIf_cons. now apply (core_dm _ _ _ _ HC).
  - intros g' Hex. rewrite countIf_cons. cbn [deletesInGuild invCall].
    destruct (String.eqb_spec g g') as [->|_]; [congruence|].
    now apply (core_guild _ _ _ _ HC).
  - intros Hd ch. rewrite countIf_cons.
    apply (core_walk_once _ _ _ _ HC). now apply openListingDistinct_tail in Hd.
  - apply (core_true _ _ _ _ HC).
  - intros ch. rewrite countIf_cons. apply (core_walked _ _ _ _ HC).
  - intros ch Hdisc Hex. apply discovered_cons in Hdisc as [Hy|Hdisc]; [discriminate|].
    now apply (core_found _ _ _ _ HC).
Qed.

(** The walker is started on [ch], which has just been marked processed. *)
Lemma Core_walk processed pending tr p ch res :
  isDMPhase p = true ->
  isDMExcluded options ch = false ->
  (openListingDistinct tr -> mget processed ch = false) ->
  Core options processed pending tr ->
  Core options (<[ch := true]> processed) (List.filter (fun id => negb (id =? ch)) pending)
       (mkInvocation p (CallSearchDMMessages ch) res :: tr).
Proof.
  intros Hp Hch Hfresh HC. constructor.
  - intros ch' Hex. rewrite countIf_cons. cbn [deletesInDM invCall].
    destruct (String.eqb_spec ch ch') as [->|_]; [congruence|].
    now apply (core_dm _ _ _ _ HC).
  - intros g Hex. rewrite countIf_cons. now apply (core_guild _ _ _ _ HC).
  - intros Hd ch'. apply openListingDistinct_tail in Hd.
    rewrite countIf_cons. cbn [walksDM invCall invPhase]. rewrite Hp. cbn [andb].
    pose proof (core_walk_once _ _ _ _ HC Hd ch') as Hle.
    destruct (String.eqb_spec ch ch') as [<-|_]; [|exact Hle].
    specialize (Hfresh Hd).
    destruct (Nat.eq_dec (countIf (walksDM ch) tr) 0) as [->|Hpos]; [lia|].
    assert (Hw : mget processed ch = true) by (apply (core_walked _ _ _ _ HC); lia).
    congruence.
  - intros ch' b Hl. destruct (decide (ch = ch')) as [<-|Hne].
    + rewrite lookup_insert_eq in Hl. congruence.
    + rewrite lookup_insert_ne in Hl by exact Hne. now apply (core_true _ _ _ _ HC ch').
  - intros ch'. rewrite countIf_cons. cbn [walksDM invCall invPhase]. rewrite Hp. cbn [andb].
    destruct (String.eqb_spec ch ch') as [<-|Hne].
    + rewrite mget_insert_eq. split; [lia | reflexivity].
    + rewrite mget_insert_ne by exact Hne. apply (core_walked _ _ _ _ HC).
  - intros ch' Hdisc Hex. apply discovered_cons in Hdisc as [Hy|Hdisc].
    { cbn in Hy. destruct p; discriminate. }
    destruct (decide (ch = ch')) as [<-|Hne]; [left; apply mget_insert_eq|].
    rewrite mget_insert_ne by exact Hne.
    destruct (core_found _ _ _ _ HC ch' Hdisc Hex) as [Hm|Hin]; [now left|right].
    apply filter_In. split; [exact Hin|]. apply negb_true_iff. apply String.eqb_neq. congruence.
Qed.

Lemma Core_pending processed pending pending' tr :
  (forall ch, isDMExcluded options ch = false -> In ch pending ->
              mget processed ch = true \/ In ch pending') ->
  Core options processed pending tr -> Core options processed pending' tr.
Proof.
  intros Hsub HC. destruct HC as [H1 H2 H3 H4 H5 H6]. constructor; try assumption.
  intros ch Hdisc Hex. destruct (H6 ch Hdisc Hex) as [Hm|Hin]; [now left | now apply Hsub].
Qed.

Lemma Core_scan processed pending tr p ch res :
  isDMExcluded options ch = false ->
  Core options processed pending tr ->
  Core options processed pending (mkInvocation p (CallIterateAndDeleteChannel ch) res :: tr).
Proof.
  intros Hch HC. constructor.
  - intros ch' Hex. rewrite countIf_cons. cbn [deletesInDM invCall].
    destruct (String.eqb_spec ch ch') as [->|_]; [congruence|].
    now apply (core_dm _ _ _ _ HC).
  - intros g Hex. rewrite countIf_cons. now apply (core_guild _ _ _ _ HC).
  - intros Hd ch'. rewrite countIf_cons.
    apply (core_walk_once _ _ _ _ HC). now apply openListingDistinct_tail in Hd.
  - apply (core_true _ _ _ _ HC).
  - intros ch'. rewrite countIf_cons. apply (core_walked _ _ _ _ HC).
  - intros ch' Hdisc Hex. apply discovered_cons in Hdisc as [Hy|Hdisc].
    { cbn in Hy. destruct p; discriminate. }
    now apply (core_found _ _ _ _ HC).
Qed.

(** A discovery call returns: the identifiers it yields become pending. *)
Lemma Core_yield processed pending tr i (ids : list string) :
  (forall ch, walksDM ch i = false /\ deletesInDM ch i = false /\ deletesInGuild ch i = false) ->
  (forall ch, yieldsDM ch i = true -> In ch ids) ->
  Core options processed pending tr ->
  Core options processed (ids ++ pending)%list (i :: tr).
Proof.
  intros Hn Hy HC. constructor.
  - intros ch Hex. rewrite countIf_cons. destruct (Hn ch) as (_ & -> & _).
    now apply (core_dm _ _ _ _ HC).
  - intros g Hex. rewrite countIf_cons. destruct (Hn g) as (_ & _ & ->).
    now apply (core_guild _ _ _ _ HC).
  - intros Hd ch. rewrite countIf_cons. destruct (Hn ch) as (-> & _).
    apply (core_walk_once _ _ _ _ HC). now apply openListingDistinct_tail in Hd.
  - apply (core_true _ _ _ _ HC).
  - intros ch. rewrite countIf_cons. destruct (Hn ch) as (-> & _).
    apply (core_walked _ _ _ _ HC).
  - intros ch Hdisc Hex. apply discovered_cons in Hdisc as [Hyc|Hdisc].
    + right. apply in_or_app. left. now apply Hy.
    + destruct (core_found _ _ _ _ HC ch Hdisc Hex) as [Hm|Hin]; [now left|].
      right. apply in_or_app. now right.
Qed.

Lemma unswept_cons i tr : invPhase i <> Phase3b -> unswept tr -> unswept (i :: tr).
Proof.
  intros Hp Hu ch. rewrite countIf_cons, (sweepsDM_phase ch i Hp). apply Hu.
Qed.

Lemma Safe_of_Core processed pending tr :
  Core options processed pending tr -> unswept tr -> Safe options tr.
Proof.
  intros HC Hu. constructor.
  - apply (core_dm _ _ _ _ HC).
  - apply (core_guild _ _ _ _ HC).
  - apply (core_walk_once _ _ _ _ HC).
  - intros ch. rewrite (Hu ch). lia.
  - intros ch _. apply Hu.
Qed.

Lemma neutral_plain p c res :
  (forall ch, walksDM ch (mkInvocation p c res) = false) ->
  (forall ch, deletesInDM ch (mkInvocation p c res) = false) ->
  (forall ch, deletesInGuild ch (mkInvocation p c res) = false) ->
  (forall ch, yieldsDM ch (mkInvocation p c res) = false) ->
  c <> CallGetDMChannels ->
  neutral (mkInvocation p c res).
Proof. intros H1 H2 H3 H4 Hc. split; [exact Hc|]. intros ch. auto. Qed.

Lemma not_excluded_guilds (guilds : list Guild) :
  Forall (fun g => isGuildExcluded options (guildId g) = false)
         (if (0 <? mapLen (ExcludedGuildIDs options))%nat
          then List.filter (fun guild => negb (isGuildExcluded options (guildId guild))) guilds
          else guilds).
Proof.
  destruct (0 <? mapLen (ExcludedGuildIDs options))%nat eqn:E.
  - apply List.Forall_forall. intros g Hg. apply filter_In in Hg as [_ Hg].
    now apply negb_true_iff in Hg.
  - apply List.Forall_forall. intros g _. unfold isGuildExcluded.
    now apply mapLen_zero_not_excluded.
Qed.

Lemma not_excluded_channels (channels : list Channel) :
  Forall (fun ch => isDMExcluded options (chanId ch) = false)
         (if (0 <? mapLen (ExcludedDMChannelIDs options))%nat
          then List.filter (fun ch => negb (isDMExcluded options (chanId ch))) channels
          else channels).
Proof.
  destruct (0 <? mapLen (ExcludedDMChannelIDs options))%nat eqn:E.
  - apply List.Forall_forall. intros g Hg. apply filter_In in Hg as [_ Hg].
    now apply negb_true_iff in Hg.
  - apply List.Forall_forall. intros g _. unfold isDMExcluded.
    now apply mapLen_zero_not_excluded.
Qed.

Lemma kept_channels (channels : list Channel) ch :
  isDMExcluded options (chanId ch) = false -> In ch channels ->
  In ch (if (0 <? mapLen (ExcludedDMChannelIDs options))%nat
         then List.filter (fun ch => negb (isDMExcluded options (chanId ch))) channels
         else channels).
Proof.
  intros Hex Hin. destruct (0 <? mapLen (ExcludedDMChannelIDs options))%nat; [|exact Hin].
  apply filter_In. split; [exact Hin|]. now rewrite Hex.
Qed.

Lemma NoDup_map_filter {A B} (f : A -> B) (p : A -> bool) (l : list A) :
  NoDup (map f l) -> NoDup (map f (List.filter p l)).
Proof.
  induction l as [|x l IH]; intros Hnd; [exact Hnd|].
  cbn [map] in Hnd. apply NoDup_cons in Hnd as [Hx Hnd].
  cbn [List.filter]. destruct (p x); [|now apply IH].
  cbn [map]. apply NoDup_cons. split; [|now apply IH].
  intros Hin. apply Hx. apply list_elem_of_In. apply list_elem_of_In in Hin.
  apply in_map_iff in Hin as (y & Hy & Hin).
  apply in_map_iff. exists y. split; [exact Hy|]. now apply filter_In in Hin.
Qed.

Lemma kept_channels_distinct (channels : list Channel) :
  NoDup (map chanId channels) ->
  NoDup (map chanId
           (if (0 <? mapLen (ExcludedDMChannelIDs options))%nat
            then List.filter (fun ch => negb (isDMExcluded options (chanId ch))) channels
            else channels)).
Proof.
  intros Hnd. destruct (0 <? mapLen (ExcludedDMChannelIDs options))%nat; [|exact Hnd].
  now apply NoDup_map_filter.
Qed.

Section Phases.
Context {W : Type}.
Variable api : ClientMethods W.

Abbreviation PhaseInv := (Inv options).

Ltac stuck :=
  match goal with
  | HC : Core _ _ _ _, Hu : unswept _ |- Safe _ (_ :: _) =>
      eapply Safe_of_Core; [| apply unswept_cons; [discriminate | exact Hu]]
  end.

Ltac quiet := apply neutral_plain; [reflexivity | reflexivity | reflexivity | reflexivity | discriminate].

Lemma phase1_ensures tr :
  PhaseInv ∅ [] tr ->
  ensures (phase1 api options) tr (fun _ tr' => PhaseInv ∅ [] tr') (Safe options).
Proof.
  intros [HC Hu]. unfold phase1.
  apply ensures_bind, ensures_call;
    [| stuck; apply Core_neutral; [quiet | exact HC]].
  intros [guilds err].
  assert (HI : PhaseInv ∅ [] (mkInvocation Phase1 CallGetAllGuilds (Some (ResGuilds (guilds, err))) :: tr)).
  { split; [apply Core_neutral; [quiet | exact HC] | apply unswept_cons; [discriminate | exact Hu]]. }
  clear HC Hu. destruct err as [e|]; [now apply ensures_ret|].
  apply ensures_bind.
  eapply ensures_mono.
  - apply (ensures_forM _
             (fun rest (_ : Z * list ServerStat) tr' =>
                Forall (fun g => isGuildExcluded options (guildId g) = false) rest
                /\ PhaseInv ∅ [] tr')).
    + intros guild rest acc tr1 (Hall & HC & Hu).
      inversion Hall as [|? ? Hg Hall']; subst. clear Hall. rename Hall' into Hall.
      apply ensures_bind, ensures_call;
        [| stuck; apply Core_guild_search; eassumption].
      intros [count err]. apply ensures_ret. split; [exact Hall|].
      split; [apply Core_guild_search; assumption | apply unswept_cons; [discriminate | exact Hu]].
    + split; [apply not_excluded_guilds | exact HI].
  - intros acc tr' (_ & HI'). now apply ensures_ret.
Qed.

Lemma existsb_eqb_In {A} (f : A -> string) (l : list A) ch :
  existsb (fun x => f x =? ch) l = true -> In ch (map f l).
Proof.
  intros H. apply existsb_exists in H as (x & Hin & Hx).
  apply String.eqb_eq in Hx. apply in_map_iff. now exists x.
Qed.

Lemma in_filter_others (ch x : string) (l : list string) :
  In ch (List.filter (fun id => negb (id =? x)) (x :: l)) -> In ch l.
Proof.
  intros Hin. apply filter_In in Hin as [[->|Hin] Hne]; [|exact Hin].
  rewrite String.eqb_refl in Hne. discriminate.
Qed.

Lemma phase2a_ensures st tr :
  processedDMs st = ∅ ->
  PhaseInv ∅ [] tr ->
  ensures (phase2a api options st) tr
          (fun st' tr' => PhaseInv (processedDMs st') [] tr') (Safe options).
Proof.
  intros Hempty [HC Hu]. unfold phase2a.
  apply ensures_bind, ensures_call;
    [| stuck; apply (Core_yield ∅ [] tr _ []);
       [intros; repeat split | intros ch Hy; discriminate | exact HC]].
  intros [channels err].
  set (ev := mkInvocation Phase2a CallGetDMChannels (Some (ResChannels (channels, err)))).
  assert (Hu1 : unswept (ev :: tr)) by (apply unswept_cons; [discriminate | exact Hu]).
  destruct err as [e|].
  { apply ensures_ret. rewrite Hempty. split; [|exact Hu1].
    apply (Core_yield ∅ [] tr ev []);
      [intros; repeat split | intros ch Hy; discriminate | exact HC]. }
  assert (HC1 : Core options ∅ (map chanId channels ++ []) (ev :: tr)).
  { apply Core_yield; [intros; repeat split | | exact HC].
    intros ch Hy. now apply existsb_eqb_In in Hy. }
  eapply ensures_mono.
  - apply (ensures_forM _
             (fun rest st' tr' =>
                PhaseInv (processedDMs st') (map chanId rest) tr'
                /\ Forall (fun ch => isDMExcluded options (chanId ch) = false) rest
                /\ (openListingDistinct tr' ->
                    NoDup (map chanId rest)
                    /\ Forall (fun ch => mget (processedDMs st') (chanId ch) = false) rest))).
    + intros x rest s tr1 ((HC' & Hu') & Hall & Hnd).
      inversion Hall as [|? ? Hx Hall']; subst. clear Hall.
      assert (Hwalk : forall res,
                 Core options (processedDMs (markProcessed (chanId x) s)) (map chanId rest)
                      (mkInvocation Phase2a (CallSearchDMMessages (chanId x)) res :: tr1)).
      { intros res. eapply Core_pending; [|apply Core_walk; [reflexivity | exact Hx | | exact HC']].
        - intros ch _ Hin. right. now apply in_filter_others in Hin.
        - intros Hd. destruct (Hnd Hd) as [_ Hf]. now inversion Hf. }
      apply ensures_bind, ensures_call;
        [| eapply Safe_of_Core; [apply Hwalk | apply unswept_cons; [discriminate | exact Hu']]].
      intros [count err]. apply ensures_ret. split; [|split].
      * split; [apply Hwalk | apply unswept_cons; [discriminate | exact Hu']].
      * exact Hall'.
      * intros Hd. apply openListingDistinct_tail in Hd. destruct (Hnd Hd) as [Hnd1 Hf].
        cbn [map] in Hnd1. apply NoDup_cons in Hnd1 as [Hnotin Hnd1].
        split; [exact Hnd1|]. inversion Hf as [|? ? _ Hf']; subst.
        apply List.Forall_forall. intros ch Hin. cbn [processedDMs addCount markProcessed].
        rewrite mget_insert_ne.
        -- revert ch Hin. now apply List.Forall_forall.
        -- intros Heq. apply Hnotin. apply list_elem_of_In. rewrite Heq. now apply in_map.
    + split; [split; [|exact Hu1] | split].
      * rewrite Hempty. eapply Core_pending; [|exact HC1].
        intros ch Hex Hin. right. rewrite app_nil_r in Hin.
        apply in_map_iff in Hin as (x & <- & Hin). apply in_map. now apply kept_channels.
      * apply not_excluded_channels.
      * intros Hd. split.
        -- apply kept_channels_distinct. apply (Hd ev channels None); [now left | reflexivity | reflexivity].
        -- apply List.Forall_forall. intros ch _. now rewrite Hempty.
  - intros st' tr' (HI & _). exact HI.
Qed.

Lemma phase2b_ensures st tr :
  PhaseInv (processedDMs st) [] tr ->
  ensures (phase2b api options st) tr
          (fun st' tr' => PhaseInv (processedDMs st') [] tr') (Safe options).
Proof.
  intros [HC Hu]. unfold phase2b.
  apply ensures_bind, ensures_call;
    [| stuck; apply Core_neutral; [quiet | exact HC]].
  intros [rels err].
  assert (HI : PhaseInv (processedDMs st) []
                   (mkInvocation Phase2b CallGetRelationships
                                 (Some (ResRelationships (rels, err))) :: tr)).
  { split; [apply Core_neutral; [quiet | exact HC] | apply unswept_cons; [discriminate | exact Hu]]. }
  clear HC Hu. destruct err as [e|]; [now apply ensures_ret|].
  apply (ensures_forM _ (fun (_ : list Relationship) st' tr' => PhaseInv (processedDMs st') [] tr')
           (Safe options)); [|exact HI].
  clear HI st tr. intros rel rest st tr [HC Hu].
  apply ensures_bind, ensures_call;
    [| stuck; apply (Core_yield (processedDMs st) [] tr _ []);
       [intros; repeat split | intros ch Hy; discriminate | exact HC]].
  intros opened.
  set (ev := mkInvocation Phase2b (CallOpenDMChannel (userId (relUser rel)))
                          (Some (ResChannel opened))).
  assert (Hu1 : unswept (ev :: tr)) by (apply unswept_cons; [discriminate | exact Hu]).
  destruct opened as [ch|e].
  2: { apply ensures_ret. split; [|exact Hu1].
       apply (Core_yield (processedDMs st) [] tr ev []);
         [intros; repeat split | intros ch Hy; discriminate | exact HC]. }
  assert (HC1 : Core options (processedDMs st) ([chanId ch] ++ []) (ev :: tr)).
  { apply Core_yield; [intros; repeat split | | exact HC].
    intros ch' Hy. cbn in Hy. apply String.eqb_eq in Hy. now left. }
  destruct (mget (processedDMs st) (chanId ch)) eqn:Hproc.
  { apply ensures_ret. split; [|exact Hu1]. eapply Core_pending; [|exact HC1].
    intros ch' _ [<-|[]]. now left. }
  destruct (isDMExcluded options (chanId ch)) eqn:Hex.
  { apply ensures_ret. split; [|exact Hu1]. eapply Core_pending; [|exact HC1].
    intros ch' Hex' [<-|[]]. congruence. }
  assert (Hwalk : forall res,
             Core options (processedDMs (markProcessed (chanId ch) st)) []
                  (mkInvocation Phase2b (CallSearchDMMessages (chanId ch)) res :: ev :: tr)).
  { intros res. eapply Core_pending;
      [|apply Core_walk; [reflexivity | exact Hex | intros _; exact Hproc | exact HC1]].
    intros ch' _ Hin. right. now apply in_filter_others in Hin. }
  apply ensures_bind, ensures_call;
    [| eapply Safe_of_Core; [apply Hwalk | apply unswept_cons; [discriminate | exact Hu1]]].
  intros [count err].
  assert (Hu2 : unswept (mkInvocation Phase2b (CallSearchDMMessages (chanId ch))
                                      (Some (ResCount (count, err))) :: ev :: tr))
    by (apply unswept_cons; [discriminate | exact Hu1]).
  apply ensures_bind, ensures_call;
    [| eapply Safe_of_Core;
       [apply Core_neutral; [quiet | apply Hwalk]
       | apply unswept_cons; [discriminate | exact Hu2]]].
  intros u. apply ensures_ret.
  split; [apply Core_neutral; [quiet | apply Hwalk] | apply unswept_cons; [discriminate | exact Hu2]].
Qed.

Lemma phase2c_ensures dataPackagePath st tr :
  PhaseInv (processedDMs st) [] tr ->
  ensures (phase2c api dataPackagePath options st) tr
          (fun st' tr' => PhaseInv (processedDMs st') [] tr') (Safe options).
Proof.
  intros [HC Hu]. unfold phase2c.
  destruct (negb (dataPackagePath =? "")); [|now apply ensures_ret].
  apply ensures_bind, ensures_call;
    [| stuck; apply (Core_yield (processedDMs st) [] tr _ []);
       [intros; repeat split | intros ch Hy; discriminate | exact HC]].
  intros [packageChannelIDs err].
  set (ev := mkInvocation Phase2c (CallLoadDataPackageChannelIDs dataPackagePath)
                          (Some (ResIDs (packageChannelIDs, err)))).
  assert (Hu1 : unswept (ev :: tr)) by (apply unswept_cons; [discriminate | exact Hu]).
  destruct err as [e|].
  { apply ensures_ret. split; [|exact Hu1].
    apply (Core_yield (processedDMs st) [] tr ev []);
      [intros; repeat split | intros ch Hy; discriminate | exact HC]. }
  assert (HC1 : Core options (processedDMs st) (packageChannelIDs ++ []) (ev :: tr)).
  { apply Core_yield; [intros; repeat split | | exact HC].
    intros ch Hy. apply (existsb_eqb_In (fun id => id)) in Hy. now rewrite map_id in Hy. }
  rewrite app_nil_r in HC1.
  apply (ensures_forM _ (fun rest st' tr' => PhaseInv (processedDMs st') rest tr') (Safe options));
    [|split; [exact HC1 | exact Hu1]].
  clear HC HC1 Hu Hu1. clear ev st tr packageChannelIDs.
  intros chID rest st tr [HC Hu].
  destruct (isDMExcluded options chID) eqn:Hex.
  { apply ensures_ret. split; [|exact Hu]. eapply Core_pending; [|exact HC].
    intros ch Hex' [<-|Hin]; [congruence | now right]. }
  destruct (mget (processedDMs st) chID) eqn:Hproc.
  { apply ensures_ret. split; [|exact Hu]. eapply Core_pending; [|exact HC].
    intros ch _ [<-|Hin]; [now left | now right]. }
  assert (Hwalk : forall res,
             Core options (processedDMs (markProcessed chID st)) rest
                  (mkInvocation Phase2c (CallSearchDMMessages chID) res :: tr)).
  { intros res. eapply Core_pending;
      [|apply Core_walk; [reflexivity | exact Hex | intros _; exact Hproc | exact HC]].
    intros ch _ Hin. right. now apply in_filter_others in Hin. }
  apply ensures_bind, ensures_call;
    [| eapply Safe_of_Core; [apply Hwalk | apply unswept_cons; [discriminate | exact Hu]]].
  intros [count err].
  assert (Hu2 : unswept (mkInvocation Phase2c (CallSearchDMMessages chID)
                                      (Some (ResCount (count, err))) :: tr))
    by (apply unswept_cons; [discriminate | exact Hu]).
  apply ensures_bind. destruct err as [e|].
  - apply ensures_bind, ensures_call;
      [| eapply Safe_of_Core;
         [apply Core_scan; [exact Hex | apply Hwalk]
         | apply unswept_cons; [discriminate | exact Hu2]]].
    intros [count' err']. apply ensures_ret, ensures_ret.
    split; [apply Core_scan; [exact Hex | apply Hwalk]
           | apply unswept_cons; [discriminate | exact Hu2]].
  - apply ensures_ret, ensures_ret. split; [apply Hwalk | exact Hu2].
Qed.

Lemma phase3a_ensures processed guilds serverStats tr :
  PhaseInv processed [] tr ->
  ensures (phase3a api guilds serverStats) tr (fun _ tr' => PhaseInv processed [] tr') (Safe options).
Proof.
  intros HI. unfold phase3a.
  apply (ensures_forM _ (fun (_ : list Guild) (_ : list ServerStat * Z) tr' => PhaseInv processed [] tr')
           (Safe options)); [|exact HI].
  clear HI tr. intros guild rest acc tr [HC Hu].
  apply ensures_bind, ensures_call;
    [| stuck; apply Core_neutral; [quiet | exact HC]].
  intros channelIDs.
  apply ensures_bind. eapply ensures_mono.
  - apply (ensures_forM _ (fun (_ : list string) (_ : Z) tr' => PhaseInv processed [] tr')
             (Safe options)).
    + clear HC Hu. clear tr. intros chID rest' n tr [HC Hu].
      apply ensures_bind, ensures_call;
        [| stuck; apply Core_neutral; [quiet | exact HC]].
      intros removed. apply ensures_ret.
      split; [apply Core_neutral; [quiet | exact HC] | apply unswept_cons; [discriminate | exact Hu]].
    + split; [apply Core_neutral; [quiet | exact HC] | apply unswept_cons; [discriminate | exact Hu]].
  - intros n tr' HI'. now apply ensures_ret.
Qed.

Lemma occurrences_cons ch x l :
  occurrences ch (x :: l) = ((if (x =? ch)%string then 1 else 0) + occurrences ch l)%nat.
Proof. unfold occurrences. cbn [List.filter]. destruct (x =? ch); reflexivity. Qed.

Lemma occurrences_absent ch l : ~ In ch l -> occurrences ch l = 0%nat.
Proof.
  induction l as [|x l IH]; intros Hnot; [reflexivity|].
  rewrite occurrences_cons. destruct (String.eqb_spec x ch) as [->|_].
  - exfalso. apply Hnot. now left.
  - apply IH. intros Hin. apply Hnot. now right.
Qed.

Lemma occurrences_present ch l : In ch l -> (1 <= occurrences ch l)%nat.
Proof.
  induction l as [|x l IH]; intros Hin; [destruct Hin|].
  rewrite occurrences_cons. destruct Hin as [->|Hin].
  - rewrite String.eqb_refl. lia.
  - specialize (IH Hin). lia.
Qed.

Lemma occurrences_NoDup ch l : NoDup l -> (occurrences ch l <= 1)%nat.
Proof.
  induction l as [|x l IH]; intros Hnd; [cbn; lia|].
  apply NoDup_cons in Hnd as [Hx Hnd]. rewrite occurrences_cons.
  destruct (String.eqb_spec x ch) as [->|_]; [|now apply IH].
  rewrite occurrences_absent; [lia|]. intros Hin. apply Hx. now apply list_elem_of_In.
Qed.

Lemma rangeKeys_NoDup (order : RangeOrder) (m : gmap string bool) : NoDup (rangeKeys order m).
Proof. rewrite (rangeKeys_perm order m). apply NoDup_fst_map_to_list. Qed.

Lemma rangeKeys_In (order : RangeOrder) (m : gmap string bool) ch :
  In ch (rangeKeys order m) <-> is_Some (m !! ch).
Proof.
  rewrite <- list_elem_of_In, (rangeKeys_perm order m), list_elem_of_fmap. split.
  - intros ([k b] & -> & Hin). apply elem_of_map_to_list in Hin. cbn. eauto.
  - intros [b Hb]. exists (ch, b). split; [reflexivity|]. now apply elem_of_map_to_list.
Qed.

Lemma processed_keys (order : RangeOrder) processed pending tr ch :
  Core options processed pending tr ->
  In ch (rangeKeys order processed) <-> mget processed ch = true.
Proof.
  intros HC. rewrite rangeKeys_In. unfold mget. split.
  - intros [b Hb]. rewrite Hb. cbn. now apply (core_true _ _ _ _ HC ch).
  - destruct (processed !! ch) as [b|]; [eauto | discriminate].
Qed.

Lemma Safe_sweeping (order : RangeOrder) processed pending tr :
  Core options processed pending tr ->
  (forall ch, (countIf (sweepsDM ch) tr <= occurrences ch (rangeKeys order processed))%nat) ->
  Safe options tr.
Proof.
  intros HC Hle. constructor.
  - apply (core_dm _ _ _ _ HC).
  - apply (core_guild _ _ _ _ HC).
  - apply (core_walk_once _ _ _ _ HC).
  - intros ch. specialize (Hle ch).
    pose proof (occurrences_NoDup ch _ (rangeKeys_NoDup order processed)). lia.
  - intros ch Hex. specialize (Hle ch).
    rewrite occurrences_absent in Hle; [lia|].
    rewrite (processed_keys order _ _ _ ch HC), (Core_excluded _ _ _ ch HC Hex). discriminate.
Qed.

Lemma Finished_sweeping (order : RangeOrder) processed tr :
  Core options processed [] tr ->
  (forall ch, countIf (sweepsDM ch) tr = occurrences ch (rangeKeys order processed)) ->
  Finished options processed tr.
Proof.
  intros HC Heq. constructor.
  - intros ch. rewrite Heq, <- (processed_keys order _ _ _ ch HC). split.
    + intros Hin. apply occurrences_present in Hin.
      pose proof (occurrences_NoDup ch _ (rangeKeys_NoDup order processed)). lia.
    + intros H1. destruct (in_dec string_dec ch (rangeKeys order processed)) as [Hin|Hnot];
        [exact Hin|]. rewrite occurrences_absent in H1 by exact Hnot. discriminate.
  - apply (core_walked _ _ _ _ HC).
  - intros ch Hex. now apply (Core_excluded _ _ _ ch HC).
  - intros ch Hd Hex. destruct (core_found _ _ _ _ HC ch Hd Hex) as [Hm|[]]. exact Hm.
Qed.

Lemma phase3b_ensures (order : RangeOrder) processed tr :
  PhaseInv processed [] tr ->
  ensures (phase3b api order processed) tr
          (fun _ tr' => Safe options tr' /\ Finished options processed tr') (Safe options).
Proof.
  intros [HC Hu]. unfold phase3b.
  eapply ensures_mono.
  - apply (ensures_forM _
             (fun rest (_ : Z) tr' =>
                Core options processed [] tr'
                /\ forall ch, (countIf (sweepsDM ch) tr' + occurrences ch rest)%nat
                              = occurrences ch (rangeKeys order processed))
             (Safe options)).
    + clear HC Hu tr. intros chID rest n tr [HC Hcount].
      assert (Hstep : forall res,
                 Core options processed []
                      (mkInvocation Phase3b (CallRemoveReactionsFromChannel chID) res :: tr)
                 /\ forall ch,
                     (countIf (sweepsDM ch)
                              (mkInvocation Phase3b (CallRemoveReactionsFromChannel chID) res :: tr)
                      + occurrences ch rest)%nat
                     = occurrences ch (rangeKeys order processed)).
      { intros res. split; [apply Core_neutral; [quiet | exact HC]|].
        intros ch. rewrite countIf_cons. cbn [sweepsDM invPhase invCall].
        rewrite <- (Hcount ch), occurrences_cons. lia. }
      apply ensures_bind, ensures_call.
      * intros removed. apply ensures_ret. apply Hstep.
      * destruct (Hstep None) as [HC' Hcount'].
        apply (Safe_sweeping order processed [] _ HC'). intros ch. specialize (Hcount' ch). lia.
    + split; [exact HC|]. intros ch. now rewrite (Hu ch).
  - intros n tr' [HC' Hcount]. cbn beta in Hcount.
    assert (Heq : forall ch, countIf (sweepsDM ch) tr'
                             = occurrences ch (rangeKeys order processed)).
    { intros ch. rewrite <- (Hcount ch). cbn. lia. }
    split.
    + apply (Safe_sweeping order processed [] _ HC'). intros ch. rewrite Heq. lia.
    + now apply (Finished_sweeping order).
Qed.

Lemma purgeAllBody_ensures (order : RangeOrder) dataPackagePath :
  ensures (purgeAllBody api order dataPackagePath options) []
          (fun res tr => Safe options tr /\ Finished options (fst res) tr) (Safe options).
Proof.
  unfold purgeAllBody.
  assert (H0 : PhaseInv ∅ [] []).
  { split; [constructor|].
    - intros ch _. reflexivity.
    - intros g _. reflexivity.
    - intros _ ch. cbn. lia.
    - intros ch b Hl. rewrite lookup_empty in Hl. discriminate.
    - intros ch. rewrite mget_empty. cbn. split; [discriminate | lia].
    - intros ch Hd. discriminate.
    - intros ch. reflexivity. }
  apply ensures_bind. eapply ensures_mono; [apply phase1_ensures; exact H0|].
  intros [guilds [guildDeleted serverStats]] tr1 HI1.
  apply ensures_bind. eapply ensures_mono; [apply phase2a_ensures; [reflexivity | exact HI1]|].
  intros st2 tr2 HI2.
  apply ensures_bind. eapply ensures_mono; [apply phase2b_ensures; exact HI2|].
  intros st3 tr3 HI3.
  apply ensures_bind. eapply ensures_mono; [apply phase2c_ensures; exact HI3|].
  intros st4 tr4 HI4.
  apply ensures_bind. eapply ensures_mono; [apply (phase3a_ensures (processedDMs st4)); exact HI4|].
  intros [serverStats' totalReactionsRemoved] tr5 HI5.
  apply ensures_bind. eapply ensures_mono; [apply phase3b_ensures; exact HI5|].
  intros dmReactionCount tr6 HF. now apply ensures_ret.
Qed.

End Phases.

End Invariant.


Lemma purgeAllBody_spec {W : Type} (api : ClientMethods W) (order : RangeOrder)
    (dataPackagePath : string) (options : PurgeOptions) w r w' tr :
  purgeAllBody api order dataPackagePath options (w, []) = (r, (w', tr)) ->
  Safe options tr /\
  forall processed stats, r = Some (processed, stats) -> Finished options processed tr.
Proof.
  intros Hrun. pose proof (purgeAllBody_ensures options api order dataPackagePath w) as H.
  rewrite Hrun in H. destruct r as [[processed stats]|].
  - destruct H as [HS HF]. split; [exact HS|]. intros p s [= <- <-]. exact HF.
  - split; [exact H | discriminate].
Qed.

Lemma PurgeAll_body {W : Type} (api : ClientMethods W) (order : RangeOrder)
    (dataPackagePath : string) (options : PurgeOptions) w r w' tr :
  PurgeAll api order dataPackagePath options (w, []) = (r, (w', tr)) ->
  exists r', purgeAllBody api order dataPackagePath options (w, []) = (r', (w', tr))
             /\ (is_Some r -> exists processed stats, r' = Some (processed, stats)).
Proof.
  unfold PurgeAll, obind.
  destruct (purgeAllBody api order dataPackagePath options (w, [])) as [[[p s]|] [w1 tr1]];
    cbn; intros [= <- <- <-].
  - eexists. split; [reflexivity|]. intros _. eauto.
  - eexists. split; [reflexivity|]. intros [x Hx]. discriminate.
Qed.

(** The invariant holds in particular of the orchestrator run on the
    methods modelled in the first part, whatever the server answers and
    whatever fuel the loops are given. *)
Corollary http_run_safe `{Runtime} (fuel : nat) (c : DiscordClient) (order : RangeOrder)
    (dataPackagePath : string) (options : PurgeOptions) w r w' tr :
  PurgeAll (httpClientMethods fuel c) order dataPackagePath options (w, []) = (r, (w', tr)) ->
  Safe options tr.
Proof.
  intros Hrun. apply PurgeAll_body in Hrun as (r' & Hrun & _).
  now apply purgeAllBody_spec in Hrun as [HS _].
Qed.

Lemma run_eta {A : Type} (run : option A * (unit * list Invocation)) :
  run = (fst run, (tt, traceOf run)).
Proof. destruct run as [r [[] tr]]. reflexivity. Qed.

(** What the exclusions do ensure. In a run of [PurgeAll], finished or
    not, no guild walker is started on an excluded guild and neither the
    search walker nor the history scan is started on an excluded
    conversation, in any phase. This does not keep the messages of an
    excluded guild: see [excluded_guild_channel_deleted_via_package]. *)
Lemma excluded_entities_receive_no_delete {W : Type} (api : ClientMethods W)
    (order : RangeOrder) (dataPackagePath : string) (options : PurgeOptions) w r w' tr :
  PurgeAll api order dataPackagePath options (w, []) = (r, (w', tr)) ->
  (forall g, isGuildExcluded options g = true -> countIf (deletesInGuild g) tr = 0%nat) /\
  (forall ch, isDMExcluded options ch = true -> countIf (deletesInDM ch) tr = 0%nat).
Proof.
  intros Hrun. apply PurgeAll_body in Hrun as (r' & Hrun & _).
  apply purgeAllBody_spec in Hrun as [HS _].
  split; [apply (safe_guild _ _ HS) | apply (safe_dm _ _ HS)].
Qed.

Lemma excluded_entities_receive_no_delete_witness :
  (isGuildExcluded exclusionOptions "g1" = true /\ isDMExcluded exclusionOptions "42" = true) /\
  countIf (deletesInGuild "g1") (traceOf exclusionRun) = 0%nat /\
  countIf (deletesInDM "42") (traceOf exclusionRun) = 0%nat.
Proof.
  split; [split; reflexivity|].
  destruct (excluded_entities_receive_no_delete
              (exampleMethods ["42"; "43"] ["43"; "99"; "42"]) canonicalRange "package"
              exclusionOptions tt (fst exclusionRun) tt (traceOf exclusionRun)
              (run_eta exclusionRun)) as [Hg Hd].
  split; [apply Hg; reflexivity | apply Hd; reflexivity].
Defined.

(** Claim C7, a defect of the code. Guild ["g1"] is excluded and its text
    channel ["c9"] is named by the index of the data package. Phase 2c
    tests the conversation exclusions only, takes ["c9"] for a
    conversation and starts the search walker on it; the search is
    refused, the walker falls back to the history scan, and the messages
    ["30"] and ["10"] of the user in ["c9"] are deleted: two
    message-delete calls for an excluded guild, although no guild walker
    was started on it. *)
Theorem excluded_guild_channel_deleted_via_package :
  isGuildExcluded packageOptions "g1" = true /\
  fst (@GetGuildChannels packageRuntime packageClient "g1" []) = ([packageChannel], None) /\
  chanGuildID packageChannel = "g1" /\
  @LoadDataPackageChannelIDs packageRuntime "package" = ([chanId packageChannel], None) /\
  existsb (fun i => match invPhase i, invCall i with
                    | Phase2c, CallSearchDMMessages ch => ch =? "c9"
                    | _, _ => false
                    end) (snd (snd packageRun)) = true /\
  requested (deleteRequest packageClient "c9" "30") (fst (snd packageRun)) = true /\
  requested (deleteRequest packageClient "c9" "10") (fst (snd packageRun)) = true /\
  option_map TotalMessagesDeleted (fst packageRun) = Some 2%Z /\
  countIf (deletesInGuild "g1") (snd (snd packageRun)) = 0%nat.
Proof. vm_compute. repeat split. Qed.

(** Conversation ["42"] is yielded by two discovery sources, the open
    listing and the data package, and is excluded: the run finishes
    without walking it and without sweeping it in phase 3b. *)
Lemma excluded_conversation_in_two_sources_never_swept :
  fst exclusionRun <> None /\
  isDMExcluded exclusionOptions "42" = true /\
  countIf (yieldsDM "42") (traceOf exclusionRun) = 2%nat /\
  countIf (walksDM "42") (traceOf exclusionRun) = 0%nat /\
  countIf (sweepsDM "42") (traceOf exclusionRun) = 0%nat.
Proof. repeat split. discriminate. Qed.

(** An open listing that names a conversation twice has it walked twice:
    phase 2a does not consult [processedDMs]. *)
Example repeated_open_conversation_walked_twice :
  fst repeatedListingRun <> None /\
  countIf (walksDM "42") (traceOf repeatedListingRun) = 2%nat /\
  countIf (sweepsDM "42") (traceOf repeatedListingRun) = 1%nat.
Proof. repeat split. discriminate. Qed.

(** Claim C6, amended. In a run of [PurgeAll], for every conversation
    identifier, in however many discovery sources it appears: phase 3b
    sweeps it at most once; the search walker is started on it at most
    once across phases 2a to 2c provided no open-DM listing names a
    conversation twice; if it is excluded it is neither walked nor swept;
    and in a finished run a discovered conversation that is not excluded
    is swept exactly once and walked (exactly once under the same
    proviso). *)
Theorem conversations_handled_at_most_once {W : Type} (api : ClientMethods W)
    (order : RangeOrder) (dataPackagePath : string) (options : PurgeOptions) w r w' tr :
  PurgeAll api order dataPackagePath options (w, []) = (r, (w', tr)) ->
  forall ch,
    (countIf (sweepsDM ch) tr <= 1)%nat /\
    (openListingDistinct tr -> (countIf (walksDM ch) tr <= 1)%nat) /\
    (isDMExcluded options ch = true ->
     countIf (walksDM ch) tr = 0%nat /\ countIf (sweepsDM ch) tr = 0%nat) /\
    (is_Some r -> discovered ch tr -> isDMExcluded options ch = false ->
     countIf (sweepsDM ch) tr = 1%nat /\ (1 <= countIf (walksDM ch) tr)%nat /\
     (openListingDistinct tr -> countIf (walksDM ch) tr = 1%nat)).
Proof.
  intros Hrun ch. apply PurgeAll_body in Hrun as (r' & Hrun & Hdone).
  apply purgeAllBody_spec in Hrun as [HS HF].
  split; [apply (safe_sweep_once _ _ HS)|].
  split; [intros Hd; now apply (safe_walk_once _ _ HS)|].
  split.
  - intros Hex. split; [|now apply (safe_sweep_excluded _ _ HS)].
    pose proof (safe_dm _ _ HS ch Hex).
    pose proof (countIf_le (walksDM ch) (deletesInDM ch) tr (walksDM_deletes ch)). lia.
  - intros Hsome Hdisc Hex. destruct (Hdone Hsome) as (processed & stats & ->).
    specialize (HF processed stats eq_refl).
    pose proof (fin_found _ _ _ HF ch Hdisc Hex) as Hproc.
    split; [now apply (fin_swept _ _ _ HF)|].
    pose proof (proj1 (fin_walked _ _ _ HF ch) Hproc) as Hw.
    split; [exact Hw|]. intros Hd. pose proof (safe_walk_once _ _ HS Hd ch). lia.
Qed.

Lemma exclusionRun_listing_distinct : openListingDistinct (traceOf exclusionRun).
Proof.
  intros i channels err Hin Hc Hr. vm_compute in Hin.
  repeat (destruct Hin as [<-|Hin]; [try discriminate Hc|]); [|destruct Hin].
  injection Hr as <- <-. apply NoDup_cons. split; [|apply NoDup_singleton].
  intros H. apply list_elem_of_In in H. destruct H as [H|[]]. discriminate.
Defined.

Lemma conversations_handled_at_most_once_witness :
  (is_Some (fst exclusionRun) /\ openListingDistinct (traceOf exclusionRun) /\
   discovered "43" (traceOf exclusionRun) /\ isDMExcluded exclusionOptions "43" = false /\
   countIf (yieldsDM "43") (traceOf exclusionRun) = 2%nat) /\
  countIf (sweepsDM "43") (traceOf exclusionRun) = 1%nat /\
  countIf (walksDM "43") (traceOf exclusionRun) = 1%nat.
Proof.
  assert (Hsome : is_Some (fst exclusionRun)) by (eexists; reflexivity).
  split; [split; [exact Hsome | split; [exact exclusionRun_listing_distinct | repeat split]]|].
  destruct (conversations_handled_at_most_once
              (exampleMethods ["42"; "43"] ["43"; "99"; "42"]) canonicalRange "package"
              exclusionOptions tt (fst exclusionRun) tt (traceOf exclusionRun)
              (run_eta exclusionRun) "43")
    as (_ & _ & _ & H).
  destruct (H Hsome eq_refl eq_refl) as (Hs & _ & Hw).
  split; [exact Hs | exact (Hw exclusionRun_listing_distinct)].
Defined.

(** Conversation ["42"] is in the open listing and is excluded: it is
    discovered in phase 2a, it never enters the processed set, and phase
    3b does not sweep it (it sweeps ["43"]). *)
Lemma excluded_open_conversation_not_swept :
  option_map (fun res => mget (fst res) "42") (fst exclusionBodyRun) = Some false /\
  discovered "42" (traceOf exclusionBodyRun) /\
  isDMExcluded exclusionOptions "42" = true /\
  countIf (sweepsDM "42") (traceOf exclusionBodyRun) = 0%nat /\
  countIf (sweepsDM "43") (traceOf exclusionBodyRun) = 1%nat.
Proof. repeat split. Qed.

(** Claim C1, amended. Phase 3b sweeps exactly the processed set: in a
    finished run a conversation is in [processedDMs] if and only if phase
    3b sweeps it, once. Exclusion is not overridden by discovery: an
    excluded conversation is never in the processed set and, in a run
    finished or not, is never swept by phase 3b; a discovered conversation
    that is not excluded is in the processed set. *)
Theorem reaction_sweep_covers_processed_set {W : Type} (api : ClientMethods W)
    (order : RangeOrder) (dataPackagePath : string) (options : PurgeOptions) w r w' tr :
  purgeAllBody api order dataPackagePath options (w, []) = (r, (w', tr)) ->
  (forall ch, isDMExcluded options ch = true -> countIf (sweepsDM ch) tr = 0%nat) /\
  (forall processed stats, r = Some (processed, stats) ->
     (forall ch, mget processed ch = true <-> countIf (sweepsDM ch) tr = 1%nat) /\
     (forall ch, isDMExcluded options ch = true -> mget processed ch = false) /\
     (forall ch, discovered ch tr -> isDMExcluded options ch = false ->
                 mget processed ch = true)).
Proof.
  intros Hrun. apply purgeAllBody_spec in Hrun as [HS HF].
  split; [apply (safe_sweep_excluded _ _ HS)|].
  intros processed stats Hr. specialize (HF processed stats Hr).
  split; [apply (fin_swept _ _ _ HF)|].
  split; [apply (fin_excluded _ _ _ HF) | apply (fin_found _ _ _ HF)].
Qed.

Lemma reaction_sweep_covers_processed_set_witness :
  isDMExcluded exclusionOptions "42" = true /\
  countIf (sweepsDM "42") (traceOf exclusionBodyRun) = 0%nat /\
  option_map (fun res => mget (fst res) "99") (fst exclusionBodyRun) = Some true /\
  countIf (sweepsDM "99") (traceOf exclusionBodyRun) = 1%nat.
Proof.
  split; [reflexivity|].
  destruct (reaction_sweep_covers_processed_set
              (exampleMethods ["42"; "43"] ["43"; "99"; "42"]) canonicalRange "package"
              exclusionOptions tt (fst exclusionBodyRun) tt (traceOf exclusionBodyRun)
              (run_eta exclusionBodyRun)) as [Hex Hfin].
  split; [apply Hex; reflexivity|]. split; [reflexivity|].
  destruct (fst exclusionBodyRun) as [[processed stats]|] eqn:E; [|discriminate E].
  destruct (Hfin processed stats eq_refl) as (Hsw & _ & _). apply Hsw.
  vm_compute in E. injection E as <- _. reflexivity.
Defined.

(** * Further properties

    Properties of the code beyond the claims: the executor, the walkers,
    the channel discovery, friend removal and server leaving, the
    selection of exclusions and the statistics of a run. *)

Lemma calls_app (evs w : World) : calls (evs ++ w)%list = (calls evs + calls w)%nat.
Proof.
  induction evs as [|e evs IH]; [reflexivity|].
  destruct e as [r|ms]; rewrite <- app_comm_cons.
  - rewrite !calls_do, IH. reflexivity.
  - change (EvSleep ms :: ?l) with (sleepFor ms l). rewrite !calls_sleepFor. exact IH.
Qed.

Section ExecutorTrace.
Context `{Runtime}.
Variable c : DiscordClient.

Lemma requestLoop_trace method path jsonBody :
  forall remaining w,
    exists evs,
      snd (requestLoop c remaining method path jsonBody w) = (evs ++ w)%list
      /\ List.Forall (requestEvent c method path jsonBody) evs
      /\ (calls evs <= remaining)%nat.
Proof.
  induction remaining as [|remaining IH]; intros w.
  - exists []. split; [reflexivity|]. split; [constructor|]. change (calls []) with 0%nat. lia.
  - cbn [requestLoop].
    destruct (newRequestOK method (apiBase ++ path)); cbn [negb].
    2:{ exists []. split; [reflexivity|]. split; [constructor|].
        change (calls []) with 0%nat. lia. }
    set (req := mkRequest method (apiBase ++ path) (token c) jsonBody).
    assert (Hone : exists evs, (EvDo req :: w) = (evs ++ w)%list
                     /\ List.Forall (requestEvent c method path jsonBody) evs
                     /\ (calls evs <= S remaining)%nat).
    { exists [EvDo req]. split; [reflexivity|]. split.
      - constructor; [reflexivity | constructor].
      - rewrite calls_do. change (calls []) with 0%nat. lia. }
    destruct (httpClient c (calls w) req) as [e|resp]; [exact Hone|].
    destruct ((200 <=? StatusCode resp) && (StatusCode resp <? 300))%Z; [exact Hone|].
    destruct (StatusCode resp =? 429)%Z; [|exact Hone].
    destruct (IH (sleepFor (waitDuration (rateLimitWait method path resp)) (EvDo req :: w)))
      as (evs & Hw & Hall & Hn).
    exists (evs ++ [EvSleep (waitDuration (rateLimitWait method path resp)); EvDo req])%list.
    split; [rewrite Hw, <- app_assoc; reflexivity|]. split.
    + apply List.Forall_app. split; [exact Hall|].
      constructor.
      * exact I.
      * constructor; [reflexivity | constructor].
    + rewrite calls_app.
      change (calls [EvSleep (waitDuration (rateLimitWait method path resp)); EvDo req])
        with 1%nat. lia.
Qed.

End ExecutorTrace.

Lemma addsOnly_refl P w : addsOnly P w w.
Proof. exists []. split; [reflexivity | intros req []]. Qed.

Lemma addsOnly_trans P w1 w2 w3 : addsOnly P w1 w2 -> addsOnly P w2 w3 -> addsOnly P w1 w3.
Proof.
  intros (e1 & -> & H1) (e2 & -> & H2). exists (e2 ++ e1)%list.
  split; [now rewrite app_assoc|].
  intros req Hin. apply in_app_or in Hin. destruct Hin; auto.
Qed.

Lemma addsOnly_mono (P Q : Request -> Prop) w w' :
  (forall req, P req -> Q req) -> addsOnly P w w' -> addsOnly Q w w'.
Proof. intros HPQ (evs & -> & Hall). exists evs. split; [reflexivity | auto]. Qed.

Lemma addsOnly_sleep P ms w w' : addsOnly P w w' -> addsOnly P w (sleep ms w').
Proof.
  intros (evs & -> & Hall). exists (EvSleep (ms * Millisecond) :: evs). split; [reflexivity|].
  intros req [Hd|Hin]; [discriminate | auto].
Qed.

Section Pages.
Context `{Runtime}.
Variable c : DiscordClient.

Lemma request_addsOnly method path jsonBody w :
  addsOnly (fun req => req = mkRequest method (apiBase ++ path) (token c) jsonBody)
           w (snd (requestWithBody c method path jsonBody w)).
Proof.
  destruct (requestLoop_trace c method path jsonBody 5 w) as (evs & Hw & Hall & _).
  exists evs. split; [exact Hw|].
  intros req Hin. rewrite List.Forall_forall in Hall. exact (Hall _ Hin).
Qed.




Lemma forEach_addsOnly {A S : Type} (body : A -> S -> World -> S * World)
    (R : A -> Request -> Prop) :
  (forall x s w, addsOnly (R x) w (snd (body x s w))) ->
  forall l s w,
    addsOnly (fun req => exists x, In x l /\ R x req) w (snd (forEach body l s w)).
Proof.
  intros Hbody. induction l as [|x l IH]; intros s w; [apply addsOnly_refl|].
  cbn [forEach]. specialize (Hbody x s w). destruct (body x s w) as [s1 w1]. cbn [snd] in Hbody.
  eapply addsOnly_trans.
  - eapply addsOnly_mono; [|exact Hbody]. intros req HR. exists x. split; [now left | exact HR].
  - eapply addsOnly_mono; [|apply IH]. intros req (y & Hy & HR). exists y. split; [now right | exact HR].
Qed.


End Pages.

Section Pages2.
Context `{Runtime}.
Variable c : DiscordClient.


Lemma keepsSkipped_refl m : keepsSkipped m m.
Proof. intros id Hid. exact Hid. Qed.

Lemma keepsSkipped_trans a b d : keepsSkipped a b -> keepsSkipped b d -> keepsSkipped a d.
Proof. intros Hab Hbd id Hid. auto. Qed.

Lemma keepsSkipped_insert m id : keepsSkipped m (<[id := true]> m).
Proof.
  intros k Hk. destruct (String.eqb_spec k id) as [->|Hne].
  - apply mget_insert_eq.
  - rewrite mget_insert_ne by congruence. exact Hk.
Qed.

Lemma deleteHit_page channelID id ps w :
  keepsSkipped (psSkippedMessageIDs ps)
               (psSkippedMessageIDs (fst (deleteHit c channelID id ps w)))
  /\ addsOnly (fun req => req = deleteRequest c channelID id) w
              (snd (deleteHit c channelID id ps w)).
Proof.
  unfold deleteHit.
  pose proof (request_addsOnly c "DELETE" (messagePath channelID id) "" w) as Hr.
  unfold request. destruct (requestWithBody c "DELETE" _ "" w) as [r w1]. cbn [snd] in Hr.
  destruct (replyErr r).
  { cbn. split; [apply keepsSkipped_refl | do 2 apply addsOnly_sleep; exact Hr]. }
  destruct ((replyStatus r =? 204) || (replyStatus r =? 200))%Z.
  { cbn. split; [apply keepsSkipped_refl | apply addsOnly_sleep; exact Hr]. }
  destruct (replyStatus r =? 404)%Z.
  { cbn. split; [apply keepsSkipped_insert | apply addsOnly_sleep; exact Hr]. }
  destruct (replyStatus r =? 403)%Z.
  { cbn. split; [apply keepsSkipped_insert | apply addsOnly_sleep; exact Hr]. }
  destruct (replyStatus r =? 400)%Z.
  { cbn. split; [apply keepsSkipped_insert | do 2 apply addsOnly_sleep; exact Hr]. }
  cbn. split; [apply keepsSkipped_refl | do 2 apply addsOnly_sleep; exact Hr].
Qed.

Lemma guildHit_page msg ps w :
  keepsSkipped (psSkippedMessageIDs ps) (psSkippedMessageIDs (fst (guildHit c msg ps w)))
  /\ addsOnly (fun req => userId (Author msg) = userID c /\ Hit msg = true
                          /\ msgID msg <> "" /\ ChannelID msg <> ""
                          /\ mget (psSkippedMessageIDs ps) (msgID msg) = false
                          /\ req = deleteRequest c (ChannelID msg) (msgID msg))
              w (snd (guildHit c msg ps w)).
Proof.
  unfold guildHit.
  destruct (String.eqb_spec (userId (Author msg)) (userID c)) as [Hme|Hne]; cbn [andb];
    [|split; [apply keepsSkipped_refl | apply addsOnly_refl]].
  destruct (Hit msg) eqn:Ehit; [|split; [apply keepsSkipped_refl | apply addsOnly_refl]].
  cbn [setOldest psSeenInThisPage psSkippedMessageIDs].
  destruct (String.eqb_spec (msgID msg) "") as [Hid|Hid]; cbn [orb];
    [split; [apply keepsSkipped_refl | apply addsOnly_refl]|].
  destruct (mget (psSeenInThisPage ps) (msgID msg)); cbn [orb];
    [split; [apply keepsSkipped_refl | apply addsOnly_refl]|].
  destruct (mget (psSkippedMessageIDs ps) (msgID msg)) eqn:Esk;
    [split; [apply keepsSkipped_refl | apply addsOnly_refl]|].
  destruct (String.eqb_spec (ChannelID msg) "") as [Hch|Hch].
  { cbn. split; [apply keepsSkipped_insert | apply addsOnly_refl]. }
  match goal with |- context [deleteHit c ?ch ?id ?p w] =>
    destruct (deleteHit_page ch id p w) as [Hk Ha] end.
  split; [exact Hk|].
  eapply addsOnly_mono; [|exact Ha]. intros req ->. repeat split; assumption.
Qed.

Lemma guildHits_page skipped0 groups msgGroup :
  In msgGroup groups ->
  forall msgs ps w,
    (forall msg, In msg msgs -> In msg msgGroup) ->
    keepsSkipped skipped0 (psSkippedMessageIDs ps) ->
    keepsSkipped skipped0 (psSkippedMessageIDs (fst (forEach (guildHit c) msgs ps w)))
    /\ addsOnly (deletesOwnHit c skipped0 groups) w (snd (forEach (guildHit c) msgs ps w)).
Proof.
  intros Hgroup. induction msgs as [|msg msgs IH]; intros ps w Hsub Hkeep.
  - cbn. split; [exact Hkeep | apply addsOnly_refl].
  - cbn [forEach]. destruct (guildHit_page msg ps w) as [Hk Ha].
    destruct (guildHit c msg ps w) as [ps1 w1]. cbn [fst snd] in Hk, Ha.
    destruct (IH ps1 w1) as [Hk2 Ha2].
    + intros m Hm. apply Hsub. now right.
    + eapply keepsSkipped_trans; eassumption.
    + split; [exact Hk2|].
      eapply addsOnly_trans; [|exact Ha2].
      eapply addsOnly_mono; [|exact Ha].
      intros req (Hme & Hhit & Hid & Hch & Hsk & ->).
      exists msgGroup, msg. repeat split; try assumption.
      * apply Hsub. now left.
      * destruct (mget skipped0 (msgID msg)) eqn:E0; [|reflexivity].
        apply Hkeep in E0. congruence.
Qed.

Lemma guildPage_page skipped0 :
  forall groups0 groups ps w,
    (forall g, In g groups -> In g groups0) ->
    keepsSkipped skipped0 (psSkippedMessageIDs ps) ->
    keepsSkipped skipped0 (psSkippedMessageIDs (fst (guildPage c groups ps w)))
    /\ addsOnly (deletesOwnHit c skipped0 groups0) w (snd (guildPage c groups ps w)).
Proof.
  intros groups0. unfold guildPage.
  induction groups as [|g groups IH]; intros ps w Hsub Hkeep.
  - cbn. split; [exact Hkeep | apply addsOnly_refl].
  - cbn [forEach].
    destruct (guildHits_page skipped0 groups0 g (Hsub g (or_introl eq_refl)) g ps w
                (fun m Hm => Hm) Hkeep) as [Hk Ha].
    destruct (forEach (guildHit c) g ps w) as [ps1 w1]. cbn [fst snd] in Hk, Ha.
    destruct (IH ps1 w1) as [Hk2 Ha2].
    + intros g' Hg'. apply Hsub. now right.
    + exact Hk.
    + split; [exact Hk2|]. eapply addsOnly_trans; eassumption.
Qed.

End Pages2.

Section Sweep.
Context `{Runtime}.
Variable c : DiscordClient.




End Sweep.

Section SearchLoops.
Context `{Runtime}.
Variable c : DiscordClient.

Lemma iterateAndDeleteLoop_error channelID text :
  forall fuel totalDeleted beforeID w,
    errorIs text (walkerError (iterateAndDeleteLoop fuel c channelID totalDeleted beforeID w))
      = true ->
    (exists rest, text = "fetching messages: " ++ rest) \/ text = "parsing messages".
Proof.
  induction fuel as [|fuel IH]; intros totalDeleted beforeID w; [discriminate|].
  cbn [iterateAndDeleteLoop].
  destruct (request c "GET" (messagesPath channelID beforeID) w) as [r w1].
  destruct (replyErr r) as [e|].
  { cbn [walkerError errorIs]. intros He. apply String.eqb_eq in He. subst text. left. now exists e. }
  destruct (replyStatus r =? 403)%Z; [discriminate|].
  destruct (negb (replyStatus r =? 200)%Z).
  { cbn [walkerError errorIs]. intros He. apply String.eqb_eq in He. subst text. left.
    now exists ("HTTP " ++ itoa (replyStatus r)). }
  destruct (unmarshalMessages (replyBody r)) as [messages|].
  2:{ cbn [walkerError errorIs]. intros He. apply String.eqb_eq in He. subst text. now right. }
  destruct (length messages =? 0)%nat; [discriminate|].
  destruct (forEach (historyHit c channelID) messages totalDeleted w1) as [n w2].
  destruct (length messages <? 100)%nat; [discriminate|].
  apply IH.
Qed.

End SearchLoops.

Section SearchLoops2.
Context `{Runtime}.
Variable c : DiscordClient.

Lemma history_error_not_retryLimit fuel channelID w :
  errorIs retryLimitText (walkerError (iterateAndDeleteChannel fuel c channelID w)) = false.
Proof.
  destruct (errorIs retryLimitText _) eqn:E; [|reflexivity].
  apply iterateAndDeleteLoop_error in E. destruct E as [(rest & E)|E]; discriminate E.
Qed.

Lemma searchGuildLoop_retryLimit guildID :
  forall fuel totalDeleted indexWaitCount maxID skipped w,
    errorIs retryLimitText
      (guildLoopError (searchGuildLoop fuel c guildID totalDeleted indexWaitCount maxID skipped w))
    = false.
Proof.
  induction fuel as [|fuel IH]; intros totalDeleted indexWaitCount maxID skipped w;
    [reflexivity|].
  cbn [searchGuildLoop].
  destruct (request c "GET" (guildSearchPath c guildID maxID) w) as [r w1].
  destruct (replyErr r); [reflexivity|].
  destruct (replyStatus r =? 202)%Z.
  { destruct (maxSearchIndexWaits <=? addInt indexWaitCount 1)%Z; [reflexivity | apply IH]. }
  destruct (replyStatus r =? 403)%Z; [reflexivity|].
  destruct (negb (replyStatus r =? 200)%Z); [reflexivity|].
  destruct (unmarshalSearchResult (replyBody r)) as [result|]; [|reflexivity].
  destruct (Retry result).
  { change (maxSearchIndexWaits <=? addInt 0 1)%Z with false. apply IH. }
  destruct ((TotalResults result =? 0)%Z || (length (Messages result) =? 0)%nat);
    [reflexivity|].
  destruct (guildPage c (Messages result) _ w1) as [ps w2].
  destruct (psOldestHitID ps =? ""); [reflexivity|].
  destruct (previousSnowflakeID (psOldestHitID ps) =? maxID); [reflexivity | apply IH].
Qed.

Lemma searchDMLoop_retryLimit channelID :
  forall fuel totalDeleted indexWaitCount maxID skipped w,
    errorIs retryLimitText
      (walkerError (searchDMLoop fuel c channelID totalDeleted indexWaitCount maxID skipped w))
    = false.
Proof.
  induction fuel as [|fuel IH]; intros totalDeleted indexWaitCount maxID skipped w;
    [reflexivity|].
  cbn [searchDMLoop].
  destruct (request c "GET" (dmSearchPath c channelID maxID) w) as [r w1].
  destruct (replyErr r); [reflexivity|].
  destruct (replyStatus r =? 202)%Z.
  { destruct (maxSearchIndexWaits <=? addInt indexWaitCount 1)%Z; [reflexivity | apply IH]. }
  destruct ((replyStatus r =? 403) || (replyStatus r =? 400) || (replyStatus r =? 404))%Z.
  { pose proof (history_error_not_retryLimit fuel channelID w1) as Hh.
    destruct (iterateAndDeleteChannel fuel c channelID w1) as [[[n e] w2]|]; [exact Hh | reflexivity]. }
  destruct (negb (replyStatus r =? 200)%Z).
  { destruct (iterateAndDeleteChannel fuel c channelID w1) as [[[n [e|]] w2]|]; reflexivity. }
  destruct (unmarshalSearchResult (replyBody r)) as [result|]; [|reflexivity].
  destruct (Retry result).
  { change (maxSearchIndexWaits <=? addInt 0 1)%Z with false. apply IH. }
  destruct ((TotalResults result =? 0)%Z || (length (Messages result) =? 0)%nat);
    [reflexivity|].
  destruct (dmPage c channelID (Messages result) _ w1) as [ps w2].
  destruct (psOldestHitID ps =? ""); [reflexivity|].
  destruct (previousSnowflakeID (psOldestHitID ps) =? maxID); [reflexivity | apply IH].
Qed.

Lemma request_indexing method path w :
  newRequestOK method (apiBase ++ path) = true ->
  alwaysIndexing c ->
  exists body,
    request c method path w
    = (mkReply body 202 None, EvDo (mkRequest method (apiBase ++ path) (token c) "") :: w).
Proof.
  intros Hok Hall. unfold request, requestWithBody.
  destruct (Hall (calls w) (mkRequest method (apiBase ++ path) (token c) "")) as (resp & Hdo & Hsc).
  exists (Body resp).
  rewrite (requestLoop_on_other c method path "" resp 4 w Hok Hdo) by (rewrite Hsc; discriminate).
  rewrite Hsc. reflexivity.
Qed.

Lemma searchGuildLoop_indexing guildID :
  (forall path, newRequestOK "GET" (apiBase ++ path) = true) ->
  alwaysIndexing c ->
  forall k fuel totalDeleted maxID skipped w,
    (1 <= k <= 40)%nat -> (k <= fuel)%nat ->
    exists w',
      searchGuildLoop fuel c guildID totalDeleted (40 - Z.of_nat k) maxID skipped w
      = Some (Returned totalDeleted (Some indexLimitText), w')
      /\ calls w' = (calls w + k)%nat.
Proof.
  intros Hok Hall. induction k as [|k IH]; intros fuel totalDeleted maxID skipped w Hk Hfuel;
    [lia|].
  destruct fuel as [|fuel]; [lia|]. cbn [searchGuildLoop].
  destruct (request_indexing "GET" (guildSearchPath c guildID maxID) w (Hok _) Hall)
    as (body & ->).
  cbn [replyErr replyStatus]. change (202 =? 202)%Z with true. cbn match.
  assert (Ei : addInt (40 - Z.of_nat (S k)) 1 = (40 - Z.of_nat k)%Z).
  { unfold addInt. rewrite wrapInt_id; [lia | unfold inIntRange; lia]. }
  rewrite Ei. unfold maxSearchIndexWaits.
  destruct (Z.leb_spec 40 (40 - Z.of_nat k)) as [Hle|Hlt].
  - assert (k = 0)%nat by lia. subst k. eexists. split; [reflexivity|].
    rewrite calls_do. lia.
  - destruct (IH fuel totalDeleted maxID skipped
                 (sleep 3000 (EvDo (mkRequest "GET" (apiBase ++ guildSearchPath c guildID maxID)
                                              (token c) "") :: w)))
      as (w' & Hrun & Hcalls); [lia | lia |].
    exists w'. split; [exact Hrun|]. rewrite Hcalls, calls_sleep, calls_do. lia.
Qed.

Lemma searchDMLoop_indexing channelID :
  (forall path, newRequestOK "GET" (apiBase ++ path) = true) ->
  alwaysIndexing c ->
  forall k fuel totalDeleted maxID skipped w,
    (1 <= k <= 40)%nat -> (k <= fuel)%nat ->
    exists w',
      searchDMLoop fuel c channelID totalDeleted (40 - Z.of_nat k) maxID skipped w
      = Some ((totalDeleted, Some indexLimitText), w')
      /\ calls w' = (calls w + k)%nat.
Proof.
  intros Hok Hall. induction k as [|k IH]; intros fuel totalDeleted maxID skipped w Hk Hfuel;
    [lia|].
  destruct fuel as [|fuel]; [lia|]. cbn [searchDMLoop].
  destruct (request_indexing "GET" (dmSearchPath c channelID maxID) w (Hok _) Hall)
    as (body & ->).
  cbn [replyErr replyStatus]. change (202 =? 202)%Z with true. cbn match.
  assert (Ei : addInt (40 - Z.of_nat (S k)) 1 = (40 - Z.of_nat k)%Z).
  { unfold addInt. rewrite wrapInt_id; [lia | unfold inIntRange; lia]. }
  rewrite Ei. unfold maxSearchIndexWaits.
  destruct (Z.leb_spec 40 (40 - Z.of_nat k)) as [Hle|Hlt].
  - assert (k = 0)%nat by lia. subst k. eexists. split; [reflexivity|].
    rewrite calls_do. lia.
  - destruct (IH fuel totalDeleted maxID skipped
                 (sleep 3000 (EvDo (mkRequest "GET" (apiBase ++ dmSearchPath c channelID maxID)
                                              (token c) "") :: w)))
      as (w' & Hrun & Hcalls); [lia | lia |].
    exists w'. split; [exact Hrun|]. rewrite Hcalls, calls_sleep, calls_do. lia.
Qed.

End SearchLoops2.

Lemma tracked_empty : tracked (∅, []).
Proof.
  split; [constructor|]. intros id. cbn. rewrite mget_empty. split; [discriminate | intros []].
Qed.

Lemma addChannel_tracked id st : tracked st -> tracked (addChannel id st).
Proof.
  intros [Hnd Hseen]. unfold addChannel. destruct (mget (fst st) id) eqn:E; cbn [negb].
  { split; assumption. }
  split; cbn [fst snd].
  - apply NoDup_app. split; [exact Hnd|]. split.
    + intros x Hx Hx'. apply list_elem_of_In in Hx, Hx'. destruct Hx' as [<-|[]].
      apply Hseen in Hx. congruence.
    + apply NoDup_singleton.
  - intros k. rewrite in_app_iff. destruct (String.eqb_spec k id) as [->|Hne].
    + rewrite mget_insert_eq. split; [intros _; right; now left | reflexivity].
    + rewrite mget_insert_ne by congruence. rewrite Hseen. split; [now left|].
      intros [Hin|[Heq|[]]]; [exact Hin | congruence].
Qed.

Lemma addChannel_keeps id st x : In x (snd st) -> In x (snd (addChannel id st)).
Proof.
  intros Hin. unfold addChannel. destruct (negb (mget (fst st) id)); [|exact Hin].
  cbn. apply in_or_app. now left.
Qed.

Lemma addChannel_adds id st : tracked st -> In id (snd (addChannel id st)).
Proof.
  intros [_ Hseen]. unfold addChannel. destruct (mget (fst st) id) eqn:E; cbn [negb].
  - now apply Hseen.
  - cbn. apply in_or_app. right. now left.
Qed.

Lemma addThreads_tracked res st : tracked st -> tracked (addThreads res st).
Proof.
  unfold addThreads. destruct (snd res); [auto|].
  revert st. induction (fst res) as [|t l IH]; intros st Ht; [exact Ht|].
  cbn [fold_left]. apply IH. now apply addChannel_tracked.
Qed.

Lemma addThreads_keeps res st x : In x (snd st) -> In x (snd (addThreads res st)).
Proof.
  unfold addThreads. destruct (snd res); [auto|].
  revert st. induction (fst res) as [|t l IH]; intros st Hin; [exact Hin|].
  cbn [fold_left]. apply IH. now apply addChannel_keeps.
Qed.

Lemma addThreads_adds threads st t :
  tracked st -> In t threads -> In (chanId t) (snd (addThreads (threads, None) st)).
Proof.
  unfold addThreads. cbn [fst snd]. revert st.
  induction threads as [|t0 l IH]; intros st Ht Hin; [destruct Hin|].
  cbn [fold_left]. destruct Hin as [->|Hin].
  - pose proof (addThreads_keeps (l, None) (addChannel (chanId t) st) (chanId t)
                  (addChannel_adds _ _ Ht)) as Hk.
    exact Hk.
  - apply IH; [now apply addChannel_tracked | exact Hin].
Qed.

Lemma classifyChannel_tracked ch st : tracked (fst st) -> tracked (fst (classifyChannel ch st)).
Proof.
  intros Ht. unfold classifyChannel.
  repeat match goal with |- context [if ?b then _ else _] => destruct b end;
    cbn [fst]; auto using addChannel_tracked.
Qed.

Lemma classifyChannel_keeps ch st x :
  In x (snd (fst st)) -> In x (snd (fst (classifyChannel ch st))).
Proof.
  intros Hin. unfold classifyChannel.
  repeat match goal with |- context [if ?b then _ else _] => destruct b end;
    cbn [fst]; auto using addChannel_keeps.
Qed.

Lemma classifyChannel_adds ch st :
  tracked (fst st) -> holdsMessages (chanType ch) = true ->
  In (chanId ch) (snd (fst (classifyChannel ch st))).
Proof.
  intros Ht Hty. unfold classifyChannel, holdsMessages in *.
  destruct ((chanType ch =? ChannelTypeGuildText) || (chanType ch =? ChannelTypeGuildNews))%Z;
    [cbn [fst]; now apply addChannel_adds|].
  destruct ((chanType ch =? ChannelTypeGuildVoice)
            || (chanType ch =? ChannelTypeGuildStageVoice))%Z eqn:Ev;
    [cbn [fst]; now apply addChannel_adds|].
  destruct ((chanType ch =? ChannelTypeGuildNewsThread)
            || (chanType ch =? ChannelTypeGuildPublicThread)
            || (chanType ch =? ChannelTypeGuildPrivateThread))%Z eqn:Et;
    [cbn [fst]; now apply addChannel_adds|].
  exfalso. cbn [orb] in Hty.
  apply orb_false_iff in Ev. destruct Ev as [Ev1 Ev2].
  apply orb_false_iff in Et. destruct Et as [Et12 Et3].
  apply orb_false_iff in Et12. destruct Et12 as [Et1 Et2].
  rewrite Ev1, Ev2, Et1, Et2, Et3 in Hty. discriminate.
Qed.

Lemma classify_fold channels :
  forall st, tracked (fst st) ->
    let st' := fold_left (fun st ch => classifyChannel ch st) channels st in
    tracked (fst st')
    /\ (forall x, In x (snd (fst st)) -> In x (snd (fst st')))
    /\ (forall ch, In ch channels -> holdsMessages (chanType ch) = true ->
                   In (chanId ch) (snd (fst st'))).
Proof.
  induction channels as [|ch0 l IH]; intros st Ht; cbn [fold_left].
  - split; [exact Ht|]. split; [auto | intros ch []].
  - destruct (IH (classifyChannel ch0 st) (classifyChannel_tracked ch0 st Ht))
      as (Ht' & Hkeep & Hadd).
    split; [exact Ht'|]. split.
    + intros x Hx. apply Hkeep. now apply classifyChannel_keeps.
    + intros ch [->|Hin] Hty.
      * apply Hkeep. now apply classifyChannel_adds.
      * now apply Hadd.
Qed.

Section Discovery.
Context `{Runtime}.
Variable c : DiscordClient.

Lemma discoverArchived_tracked fuel :
  forall parents st w st' w',
    discoverArchived fuel c parents st w = Some (st', w') ->
    tracked st -> tracked st' /\ forall x, In x (snd st) -> In x (snd st').
Proof.
  induction parents as [|p rest IH]; intros st w st' w' Hrun Ht.
  - injection Hrun as <- <-. split; [exact Ht | auto].
  - cbn [discoverArchived] in Hrun.
    destruct (GetArchivedPublicThreads fuel c p w) as [[pub w1]|]; [|discriminate].
    destruct (GetArchivedPrivateThreads fuel c p _) as [[priv w2]|]; [|discriminate].
    destruct (GetJoinedArchivedPrivateThreads fuel c p _) as [[joined w3]|]; [|discriminate].
    destruct (IH _ _ _ _ Hrun) as [Ht' Hkeep].
    + auto using addThreads_tracked.
    + split; [exact Ht'|]. intros x Hx. apply Hkeep. auto using addThreads_keeps.
Qed.

Lemma discover_result fuel guildID w ids w' :
  discoverAllGuildChannelsAndThreads fuel c guildID w = Some (ids, w') ->
  NoDup ids
  /\ forall channels w1,
       GetGuildChannels c guildID w = ((channels, None), w1) ->
       (forall ch, In ch channels -> holdsMessages (chanType ch) = true -> In (chanId ch) ids)
       /\ forall threads w2,
            GetActiveGuildThreads c guildID w1 = ((threads, None), w2) ->
            forall t, In t threads -> In (chanId t) ids.
Proof.
  unfold discoverAllGuildChannelsAndThreads. intros Hrun.
  destruct (GetGuildChannels c guildID w) as [[channels err] w1].
  destruct err as [e|].
  { injection Hrun as <- <-. split; [constructor|]. intros ? ? [=]. }
  destruct (classify_fold channels ((∅, []), []) tracked_empty) as (Ht & _ & Hadd).
  cbn zeta in Ht, Hadd.
  destruct (fold_left _ channels _) as [st parents]. cbn [fst] in Ht, Hadd.
  destruct (GetActiveGuildThreads c guildID w1) as [active w2] eqn:Ea.
  destruct (discoverArchived fuel c parents (addThreads active st) w2) as [[st' w3]|] eqn:Ed;
    [|discriminate].
  injection Hrun as <- <-.
  destruct (discoverArchived_tracked _ _ _ _ _ _ Ed (addThreads_tracked _ _ Ht)) as [Ht' Hkeep].
  split; [apply Ht'|].
  intros channels' w1' [= <- <-]. split.
  - intros ch Hin Hty. apply Hkeep, addThreads_keeps. now apply Hadd.
  - intros threads w2' Heq t Hin. rewrite Ea in Heq. injection Heq as -> <-.
    apply Hkeep. now apply addThreads_adds.
Qed.

End Discovery.

Lemma wrapInt_le z : (- 9223372036854775808 <= z)%Z -> (wrapInt z <= z)%Z.
Proof.
  intros Hz. unfold wrapInt.
  pose proof (Z.mod_le (z + 9223372036854775808) 18446744073709551616) as Hm.
  lia.
Qed.

(** A counting loop: each pass leaves the count or adds one to it, the
    latter only on an element that [p] accepts. *)
Lemma forEach_count {A : Type} (body : A -> Z -> World -> Z * World) (p : A -> bool) :
  (forall x n w, fst (body x n w) = n \/ (p x = true /\ fst (body x n w) = addInt n 1)) ->
  forall l n w,
    inIntRange n ->
    inIntRange (fst (forEach body l n w))
    /\ (fst (forEach body l n w) <= n + Z.of_nat (length (List.filter p l)))%Z.
Proof.
  intros Hbody. induction l as [|x l IH]; intros n w Hn.
  - cbn. split; [exact Hn | lia].
  - cbn [forEach]. specialize (Hbody x n w). destruct (body x n w) as [n1 w1]. cbn [fst] in Hbody.
    destruct Hbody as [->|[Hp ->]].
    + destruct (IH n w1 Hn) as [Hr Hle]. split; [exact Hr|].
      cbn [List.filter]. destruct (p x); cbn [length]; lia.
    + destruct (IH (addInt n 1) w1 (wrapInt_range _)) as [Hr Hle]. split; [exact Hr|].
      cbn [List.filter]. rewrite Hp. cbn [length].
      assert (addInt n 1 <= n + 1)%Z.
      { unfold addInt. apply wrapInt_le. unfold inIntRange in Hn. lia. }
      lia.
Qed.

Section Cleanup.
Context `{Runtime}.
Variable c : DiscordClient.

Lemma removeFriendStep_addsOnly rel n w :
  addsOnly (fun req => isFriend rel = true /\ req = removalOfFriend c (userId (relUser rel)))
           w (snd (removeFriendStep c rel n w)).
Proof.
  unfold removeFriendStep, isFriend.
  destruct (relType rel =? RelationshipFriend)%Z; [|apply addsOnly_refl].
  unfold RemoveFriend.
  pose proof (request_addsOnly c "DELETE" ("/users/@me/relationships/" ++ userId (relUser rel))
                "" w) as Hr.
  unfold request. destruct (requestWithBody c "DELETE" _ "" w) as [r w1]. cbn [snd] in Hr.
  assert (Ha : addsOnly (fun req => true = true
                 /\ req = removalOfFriend c (userId (relUser rel))) w w1).
  { eapply addsOnly_mono; [|exact Hr]. intros req ->. split; reflexivity. }
  destruct (replyErr r); [apply addsOnly_sleep; exact Ha|].
  destruct ((replyStatus r =? 204) || (replyStatus r =? 200))%Z; apply addsOnly_sleep; exact Ha.
Qed.

Lemma removeFriendStep_count rel n w :
  fst (removeFriendStep c rel n w) = n
  \/ (isFriend rel = true /\ fst (removeFriendStep c rel n w) = addInt n 1).
Proof.
  unfold removeFriendStep, isFriend.
  destruct (relType rel =? RelationshipFriend)%Z; [|now left].
  destruct (RemoveFriend c (userId (relUser rel)) w) as [[e|] w1]; [now left | now right].
Qed.

Lemma leaveGuildStep_addsOnly guild n w :
  addsOnly (fun req => req = departureFrom c (guildId guild))
           w (snd (leaveGuildStep c guild n w)).
Proof.
  unfold leaveGuildStep, LeaveGuild.
  pose proof (request_addsOnly c "DELETE" ("/users/@me/guilds/" ++ guildId guild) "" w) as Hr.
  unfold request. destruct (requestWithBody c "DELETE" _ "" w) as [r w1]. cbn [snd] in Hr.
  destruct (replyErr r); [apply addsOnly_sleep; exact Hr|].
  destruct ((replyStatus r =? 204) || (replyStatus r =? 200))%Z; apply addsOnly_sleep; exact Hr.
Qed.

Lemma leaveGuildStep_count guild n w :
  fst (leaveGuildStep c guild n w) = n
  \/ (true = true /\ fst (leaveGuildStep c guild n w) = addInt n 1).
Proof.
  unfold leaveGuildStep.
  destruct (LeaveGuild c (guildId guild) w) as [[e|] w1]; [now left | now right].
Qed.

Lemma RemoveAllFriends_spec w :
  match GetRelationships c w with
  | ((rels, None), w1) =>
      exists n w',
        RemoveAllFriends c w = ((n, None), w')
        /\ addsOnly (removesFriend c rels) w1 w'
        /\ inIntRange n
        /\ (n <= Z.of_nat (length (List.filter isFriend rels)))%Z
  | ((_, Some e), w1) =>
      RemoveAllFriends c w = ((0%Z, Some ("fetching relationships: " ++ e)), w1)
  end.
Proof.
  unfold RemoveAllFriends. destruct (GetRelationships c w) as [[rels [e|]] w1]; [reflexivity|].
  pose proof (forEach_addsOnly (removeFriendStep c)
                (fun rel req => isFriend rel = true
                                /\ req = removalOfFriend c (userId (relUser rel)))
                (fun rel n w0 => removeFriendStep_addsOnly rel n w0) rels 0%Z w1) as Ha.
  destruct (forEach_count (removeFriendStep c) isFriend
              (fun rel n w0 => removeFriendStep_count rel n w0) rels 0%Z w1) as [Hr Hle].
  { unfold inIntRange. lia. }
  destruct (forEach (removeFriendStep c) rels 0%Z w1) as [n w']. cbn [fst snd] in *.
  exists n, w'. split; [reflexivity|]. split.
  - eapply addsOnly_mono; [|exact Ha]. intros req (rel & Hin & Hf & ->). exists rel. auto.
  - split; [exact Hr | lia].
Qed.

Lemma LeaveAllGuilds_spec fuel w :
  match GetAllGuilds fuel c w with
  | Some ((guilds, None), w1) =>
      exists n w',
        LeaveAllGuilds fuel c w = Some ((n, None), w')
        /\ addsOnly (leavesOneOf c guilds) w1 w'
        /\ inIntRange n
        /\ (n <= Z.of_nat (length guilds))%Z
  | Some ((_, Some e), w1) =>
      LeaveAllGuilds fuel c w = Some ((0%Z, Some ("fetching guilds: " ++ e)), w1)
  | None => LeaveAllGuilds fuel c w = None
  end.
Proof.
  unfold LeaveAllGuilds. destruct (GetAllGuilds fuel c w) as [[[guilds [e|]] w1]|];
    [reflexivity | | reflexivity].
  pose proof (forEach_addsOnly (leaveGuildStep c)
                (fun guild req => req = departureFrom c (guildId guild))
                (fun guild n w0 => leaveGuildStep_addsOnly guild n w0) guilds 0%Z w1) as Ha.
  destruct (forEach_count (leaveGuildStep c) (fun _ => true)
              (fun guild n w0 => leaveGuildStep_count guild n w0) guilds 0%Z w1) as [Hr Hle].
  { unfold inIntRange. lia. }
  destruct (forEach (leaveGuildStep c) guilds 0%Z w1) as [n w']. cbn [fst snd] in *.
  exists n, w'. split; [reflexivity|]. split.
  - eapply addsOnly_mono; [|exact Ha]. intros req (g & Hin & ->). exists g. auto.
  - split; [exact Hr|].
    assert (length (List.filter (fun _ : Guild => true) guilds) = length guilds) as El.
    { clear. induction guilds; cbn; congruence. }
    lia.
Qed.

End Cleanup.

Lemma select_fold (l : list Z) :
  forall (m : gmap Z bool) i,
    fold_left (fun m i => <[i := true]> m) l m !! i
    = if bool_decide (i ∈ l) then Some true else m !! i.
Proof.
  induction l as [|x l IH]; intros m i; cbn [fold_left].
  - rewrite bool_decide_eq_false_2; [reflexivity | apply not_elem_of_nil].
  - rewrite IH. destruct (decide (i ∈ l)) as [Hin|Hnin].
    + rewrite !bool_decide_eq_true_2; [reflexivity | now right | exact Hin].
    + rewrite (bool_decide_eq_false_2 _ Hnin). destruct (decide (i = x)) as [->|Hne].
      * rewrite lookup_insert_eq. rewrite bool_decide_eq_true_2; [reflexivity | now left].
      * rewrite lookup_insert_ne by congruence.
        rewrite bool_decide_eq_false_2; [reflexivity|].
        intros Hin. apply elem_of_cons in Hin. destruct Hin; contradiction.
Qed.

Lemma selectRange_lookup lo hi selected selected' i :
  selectRange lo hi selected = Some selected' ->
  selected' !! i = if bool_decide (lo <= i <= hi)%Z then Some true else selected !! i.
Proof.
  unfold selectRange. destruct (Z.ltb_spec hi lo) as [Hlt|Hle].
  - intros [= <-]. rewrite bool_decide_eq_false_2; [reflexivity | lia].
  - destruct (hi =? maxInt)%Z; [discriminate|]. intros [= <-].
    rewrite select_fold. apply (f_equal (fun b : bool => if b then Some true else selected !! i)).
    apply bool_decide_ext. rewrite elem_of_seqZ. lia.
Qed.

Lemma selectRange_within lo hi max selected selected' :
  (1 <= lo)%Z -> (hi <= max)%Z -> withinMenu max selected ->
  selectRange lo hi selected = Some selected' -> withinMenu max selected'.
Proof.
  intros Hlo Hhi Hw Hsel i b Hi.
  rewrite (selectRange_lookup _ _ _ _ i Hsel) in Hi.
  destruct (bool_decide (lo <= i <= hi)%Z) eqn:E.
  - apply bool_decide_eq_true in E. injection Hi as <-. split; [lia | reflexivity].
  - now apply Hw.
Qed.

Lemma withinMenu_empty max : withinMenu max ∅.
Proof. intros i b Hi. rewrite lookup_empty in Hi. discriminate. Qed.

Lemma withinMenu_insert max selected idx :
  (1 <= idx <= max)%Z -> withinMenu max selected -> withinMenu max (<[idx := true]> selected).
Proof.
  intros Hidx Hw i b Hi. destruct (decide (i = idx)) as [->|Hne].
  - rewrite lookup_insert_eq in Hi. injection Hi as <-. auto.
  - rewrite lookup_insert_ne in Hi by congruence. now apply Hw.
Qed.

Lemma selectPart_within part max selected selected' :
  withinMenu max selected ->
  selectPart part max selected = Some (inl selected') -> withinMenu max selected'.
Proof.
  intros Hw. unfold selectPart. destruct (Strings.Contains part "-").
  - destruct (Split part "-") as [|first [|second [|third rest]]]; try discriminate.
    destruct ((first =? "") || (second =? "")); [discriminate|].
    destruct (Atoi first) as [start|]; [|discriminate].
    destruct (Atoi second) as [end_|]; [|discriminate].
    destruct (if (end_ <? start)%Z then (end_, start) else (start, end_)) as [lo hi].
    destruct (Z.ltb_spec lo 1); cbn [orb]; [discriminate|].
    destruct (Z.ltb_spec max hi); [discriminate|].
    destruct (selectRange lo hi selected) as [m|] eqn:Er; [|discriminate].
    intros [= <-]. eapply selectRange_within; [| |exact Hw|exact Er]; lia.
  - destruct (Atoi part) as [idx|]; [|discriminate].
    destruct (Z.ltb_spec idx 1); cbn [orb]; [discriminate|].
    destruct (Z.ltb_spec max idx); [discriminate|].
    intros [= <-]. apply withinMenu_insert; [lia | exact Hw].
Qed.

Lemma selectParts_within max :
  forall parts selected selected',
    withinMenu max selected ->
    selectParts parts max selected = Some (inl selected') -> withinMenu max selected'.
Proof.
  induction parts as [|part parts IH]; intros selected selected' Hw; cbn [selectParts].
  - intros [= <-]. exact Hw.
  - destruct (part =? ""); [now apply IH|].
    destruct (selectPart part max selected) as [[m|e]|] eqn:Ep; try discriminate.
    apply IH. eapply selectPart_within; eassumption.
Qed.

Lemma parseSelection_within normalized max selected :
  parseSelection normalized max = Some (inl selected) -> withinMenu max selected.
Proof.
  unfold parseSelection.
  destruct ((normalized =? "") || (normalized =? "none") || (normalized =? "n")
            || (normalized =? "0")).
  { intros [= <-]. apply withinMenu_empty. }
  destruct ((normalized =? "all") || (normalized =? "*")).
  { destruct (selectRange 1 max ∅) as [m|] eqn:Er; [|discriminate].
    intros [= <-]. eapply selectRange_within; [| |apply withinMenu_empty|exact Er]; lia. }
  destruct (length (FieldsFunc normalized isSeparator) =? 0)%nat.
  { intros [= <-]. apply withinMenu_empty. }
  apply selectParts_within, withinMenu_empty.
Qed.

Lemma parseSelection_all normalized max :
  (max < maxInt)%Z -> normalized = "all" \/ normalized = "*" ->
  exists selected,
    parseSelection normalized max = Some (inl selected)
    /\ forall i, mgetInt selected i = true <-> (1 <= i <= max)%Z.
Proof.
  intros Hmax Hall.
  assert (E : parseSelection normalized max = option_map inl (selectRange 1 max ∅)).
  { destruct Hall as [-> | ->]; reflexivity. }
  rewrite E. destruct (selectRange 1 max ∅) as [m|] eqn:Er.
  - exists m. split; [reflexivity|]. intros i. unfold mgetInt.
    rewrite (selectRange_lookup _ _ _ _ i Er), lookup_empty.
    destruct (bool_decide (1 <= i <= max)%Z) eqn:Eb.
    + apply bool_decide_eq_true in Eb. cbn. tauto.
    + apply bool_decide_eq_false in Eb. cbn. split; [discriminate | tauto].
  - exfalso. unfold selectRange in Er. destruct (max <? 1)%Z; [discriminate|].
    destruct (Z.eqb_spec max maxInt); [lia | discriminate].
Qed.

Lemma digitChar_isDigit d : (d < 10)%N -> isDigit (digitChar d) = true.
Proof.
  intros Hd. unfold isDigit. rewrite (N_of_digitChar d Hd).
  apply andb_true_iff. split; apply N.leb_le; lia.
Qed.

Lemma formatDigits_allDigits r :
  forall n acc, allDigits acc = true -> allDigits (formatDigits r n acc) = true.
Proof.
  induction r as [|r IH]; intros n acc Hacc; cbn [formatDigits]; [exact Hacc|].
  assert (Hd : allDigits (String (digitChar (n mod 10)) acc) = true).
  { cbn [allDigits]. rewrite digitChar_isDigit, Hacc; [reflexivity|].
    apply N.mod_upper_bound. discriminate. }
  destruct (n / 10 =? 0)%N; [exact Hd | now apply IH].
Qed.

Lemma FormatUint_allDigits n : allDigits (FormatUint n) = true.
Proof. apply formatDigits_allDigits. reflexivity. Qed.

Lemma isDigit_not_separator ch : isDigit ch = true -> isSeparator ch = false.
Proof.
  intros Hd. unfold isSeparator.
  repeat match goal with
         | |- context [Ascii.eqb ch ?x] =>
             destruct (Ascii.eqb_spec ch x) as [->|_]; [discriminate Hd|]
         end.
  reflexivity.
Qed.

Lemma isDigit_not_sign ch :
  isDigit ch = true -> (ch =? "+")%char = false /\ (ch =? "-")%char = false.
Proof.
  intros Hd. split.
  - destruct (Ascii.eqb_spec ch "+") as [->|_]; [discriminate Hd | reflexivity].
  - destruct (Ascii.eqb_spec ch "-") as [->|_]; [discriminate Hd | reflexivity].
Qed.

Lemma append_cons_assoc field ch s : (field ++ String ch "") ++ s = field ++ String ch s.
Proof.
  induction field as [|a field IH]; [reflexivity|].
  change (String a ((field ++ String ch "") ++ s) = String a (field ++ String ch s)).
  now rewrite IH.
Qed.

Lemma append_empty_r s : s ++ "" = s.
Proof.
  induction s as [|a s IH]; [reflexivity|].
  change (String a (s ++ "") = String a s). now rewrite IH.
Qed.

Lemma fieldsFrom_digits s :
  forall field, allDigits s = true ->
    fieldsFrom isSeparator s field = if field ++ s =? "" then [] else [field ++ s].
Proof.
  induction s as [|ch s IH]; intros field Hs; cbn [fieldsFrom].
  - now rewrite append_empty_r.
  - cbn [allDigits] in Hs. apply andb_true_iff in Hs. destruct Hs as [Hch Hs].
    rewrite (isDigit_not_separator ch Hch), (IH _ Hs).
    rewrite append_cons_assoc. reflexivity.
Qed.

Lemma index_dash_digits s : allDigits s = true -> String.index 0 "-" s = None.
Proof.
  induction s as [|ch s IH]; intros Hs; [reflexivity|].
  cbn [allDigits] in Hs. apply andb_true_iff in Hs. destruct Hs as [Hch Hs].
  cbn [String.index String.prefix].
  destruct (ascii_dec "-" ch) as [<-|_]; [discriminate Hch|].
  now rewrite (IH Hs).
Qed.

Lemma Atoi_FormatUint n :
  (n < 9223372036854775808)%N -> Atoi (FormatUint n) = Some (Z.of_N n).
Proof.
  intros Hn.
  pose proof (FormatUint_allDigits n) as Hd.
  pose proof (ParseUint_FormatUint n) as Hp.
  destruct (FormatUint n) as [|ch rest] eqn:E.
  { exfalso. now apply (FormatUint_nonempty n). }
  cbn [allDigits] in Hd. apply andb_true_iff in Hd. destruct Hd as [Hch _].
  unfold Atoi. destruct (isDigit_not_sign ch Hch) as [-> ->].
  rewrite Hp by (unfold maxUint64; lia).
  destruct (N.ltb_spec n 9223372036854775808); [reflexivity | lia].
Qed.

Lemma FormatUint_differs n s :
  (n <= maxUint64)%N -> ParseUint s <> Some n -> (FormatUint n =? s) = false.
Proof.
  intros Hle Hs. destruct (String.eqb_spec (FormatUint n) s) as [E|]; [|reflexivity].
  exfalso. apply Hs. rewrite <- E. now apply ParseUint_FormatUint.
Qed.

Lemma parseSelection_number i max :
  (1 <= i <= max)%Z -> (max <= maxInt)%Z ->
  parseSelection (itoa i) max = Some (inl (<[i := true]> ∅)).
Proof.
  intros Hi Hmax. unfold maxInt in Hmax. unfold itoa.
  destruct (Z.ltb_spec i 0); [lia|].
  set (n := Z.to_N i).
  assert (Hn : (n < 9223372036854775808)%N) by lia.
  assert (Hle : (n <= maxUint64)%N) by (unfold maxUint64; lia).
  assert (Hpos : n <> 0%N) by lia.
  assert (Hni : Z.of_N n = i) by lia.
  clearbody n.
  pose proof (FormatUint_allDigits n) as Hd.
  unfold parseSelection.
  rewrite (eqb_empty_false _ (FormatUint_nonempty n)).
  rewrite !(FormatUint_differs n)
    by (try exact Hle; intros Hp; vm_compute in Hp; congruence).
  cbn [orb]. unfold FieldsFunc. rewrite (fieldsFrom_digits _ "" Hd).
  change ("" ++ FormatUint n) with (FormatUint n).
  rewrite (eqb_empty_false _ (FormatUint_nonempty n)).
  cbn [length Nat.eqb selectParts].
  rewrite (eqb_empty_false _ (FormatUint_nonempty n)).
  unfold selectPart, Strings.Contains. rewrite (index_dash_digits _ Hd).
  rewrite (Atoi_FormatUint n Hn).
  rewrite Hni.
  destruct (Z.ltb_spec i 1); [lia|]. destruct (Z.ltb_spec max i); [lia|].
  reflexivity.
Qed.

Lemma excludeSelected_spec ids :
  forall i selected excluded id,
    mget (excludeSelected i ids selected excluded) id = true
    <-> mget excluded id = true
        \/ exists k, nth_error ids k = Some id
                     /\ mgetInt selected (i + Z.of_nat k + 1) = true.
Proof.
  induction ids as [|x ids IH]; intros i selected excluded id; cbn [excludeSelected].
  - split; [now left|]. intros [Hm|(k & Hk & _)]; [exact Hm|]. destruct k; discriminate.
  - rewrite IH. split.
    + intros [Hm|(k & Hk & Hsel)].
      * destruct (mgetInt selected (i + 1)) eqn:Es; [|now left].
        destruct (String.eqb_spec id x) as [->|Hne].
        -- right. exists 0%nat. split; [reflexivity|].
           replace (i + Z.of_nat 0 + 1)%Z with (i + 1)%Z by lia. exact Es.
        -- left. rewrite mget_insert_ne in Hm by congruence. exact Hm.
      * right. exists (S k). split; [exact Hk|].
        replace (i + Z.of_nat (S k) + 1)%Z with (i + 1 + Z.of_nat k + 1)%Z by lia. exact Hsel.
    + intros [Hm|(k & Hk & Hsel)].
      * left. destruct (mgetInt selected (i + 1)); [|exact Hm].
        destruct (String.eqb_spec id x) as [->|Hne];
          [apply mget_insert_eq | rewrite mget_insert_ne by congruence; exact Hm].
      * destruct k as [|k].
        -- injection Hk as ->. left.
           replace (i + Z.of_nat 0 + 1)%Z with (i + 1)%Z in Hsel by lia.
           rewrite Hsel. apply mget_insert_eq.
        -- right. exists k. split; [exact Hk|].
           replace (i + 1 + Z.of_nat k + 1)%Z with (i + Z.of_nat (S k) + 1)%Z by lia. exact Hsel.
Qed.

Lemma excludeSelected_listed ids selected id :
  mget (excludeSelected 0 ids selected ∅) id = true -> In id ids.
Proof.
  intros Hm. apply excludeSelected_spec in Hm. destruct Hm as [Hm|(k & Hk & _)].
  - rewrite mget_empty in Hm. discriminate.
  - eapply nth_error_In. exact Hk.
Qed.

Section Prompt.
Context `{Text}.

Lemma promptSelectionLoop_within max :
  forall lines selected rest,
    promptSelectionLoop lines max = Some (selected, rest) -> withinMenu max selected.
Proof.
  induction lines as [|input lines IH]; intros selected rest; cbn [promptSelectionLoop].
  - destruct (parseSelectionInput "" max) as [[m|e]|] eqn:Ep; try discriminate.
    intros [= <- <-]. eapply parseSelection_within. exact Ep.
  - destruct (parseSelectionInput input max) as [[m|e]|] eqn:Ep; try discriminate.
    + intros [= <- <-]. eapply parseSelection_within. exact Ep.
    + apply IH.
Qed.

Lemma promptSelection_within lines max selected rest :
  promptSelection lines max = Some (selected, rest) -> withinMenu max selected.
Proof.
  unfold promptSelection. destruct (max <=? 0)%Z.
  - intros [= <- <-]. apply withinMenu_empty.
  - apply promptSelectionLoop_within.
Qed.

Lemma promptPurgeOptions_listed lines guilds dmChannels options rest :
  promptPurgeOptions lines guilds dmChannels = Some (options, rest) ->
  (forall id, isGuildExcluded options id = true -> In id (map guildId guilds))
  /\ (forall id, isDMExcluded options id = true -> In id (map chanId dmChannels))
  /\ ExcludedGuildIDs options <> None /\ ExcludedDMChannelIDs options <> None.
Proof.
  unfold promptPurgeOptions.
  set (first := if (0 <? length guilds)%nat then _ else _).
  assert (Hfirst : forall ex l, first = Some (ex, l) ->
            forall id, mget ex id = true -> In id (map guildId guilds)).
  { subst first. intros ex l. destruct (0 <? length guilds)%nat.
    - destruct (promptSelection lines _) as [[sel l1]|]; [|discriminate].
      intros [= <- <-] id. apply excludeSelected_listed.
    - intros [= <- <-] id Hm. rewrite mget_empty in Hm. discriminate. }
  destruct first as [[exg l1]|]; [|discriminate].
  set (second := if (0 <? length dmChannels)%nat then _ else _).
  assert (Hsecond : forall ex l, second = Some (ex, l) ->
            forall id, mget ex id = true -> In id (map chanId dmChannels)).
  { subst second. intros ex l. destruct (0 <? length dmChannels)%nat.
    - destruct (promptSelection l1 _) as [[sel l2]|]; [|discriminate].
      intros [= <- <-] id. apply excludeSelected_listed.
    - intros [= <- <-] id Hm. rewrite mget_empty in Hm. discriminate. }
  destruct second as [[exd l2]|]; [|discriminate].
  intros [= <- <-]. unfold isGuildExcluded, isDMExcluded. cbn.
  split; [apply (Hfirst _ _ eq_refl)|]. split; [apply (Hsecond _ _ eq_refl)|].
  split; discriminate.
Qed.

Lemma promptPurgeOptions_number line lines guilds k :
  TrimSpace (ToLower line) = itoa k ->
  (1 <= k <= Z.of_nat (length guilds))%Z ->
  (Z.of_nat (length guilds) <= maxInt)%Z ->
  exists options,
    promptPurgeOptions (line :: lines) guilds [] = Some (options, lines)
    /\ forall id, isGuildExcluded options id = true
                  <-> nth_error (map guildId guilds) (Z.to_nat (k - 1)) = Some id.
Proof.
  intros Hline Hk Hmax. unfold promptPurgeOptions.
  destruct (Nat.ltb_spec 0 (length guilds)) as [_|Hz]; [|lia].
  unfold promptSelection. destruct (Z.leb_spec (Z.of_nat (length guilds)) 0); [lia|].
  cbn [promptSelectionLoop]. unfold parseSelectionInput. rewrite Hline.
  rewrite (parseSelection_number k _ Hk Hmax).
  cbn [length Nat.ltb Nat.leb]. eexists. split; [reflexivity|].
  intros id. unfold isGuildExcluded. cbn [ExcludedGuildIDs].
  rewrite excludeSelected_spec, mget_empty. split.
  - intros [Hf|(j & Hj & Hsel)]; [discriminate|].
    unfold mgetInt in Hsel. destruct (decide (0 + Z.of_nat j + 1 = k)%Z) as [E|E].
    + replace (Z.to_nat (k - 1)) with j by lia. exact Hj.
    + rewrite lookup_insert_ne, lookup_empty in Hsel by congruence. discriminate.
  - intros Hn. right. exists (Z.to_nat (k - 1)). split; [exact Hn|].
    replace (0 + Z.of_nat (Z.to_nat (k - 1)) + 1)%Z with k by lia.
    unfold mgetInt. now rewrite lookup_insert_eq.
Qed.

End Prompt.

Lemma wrapInt_add_l a b : wrapInt (wrapInt a + b) = wrapInt (a + b).
Proof.
  unfold wrapInt.
  replace (((a + 9223372036854775808) mod 18446744073709551616 - 9223372036854775808) + b
           + 9223372036854775808)%Z
    with ((a + 9223372036854775808) mod 18446744073709551616 + b)%Z by lia.
  rewrite Zplus_mod_idemp_l. f_equal. f_equal. lia.
Qed.

Lemma wrapInt_add_r a b : wrapInt (a + wrapInt b) = wrapInt (a + b).
Proof. rewrite (Z.add_comm a), wrapInt_add_l. f_equal. lia. Qed.

Lemma wrapInt_idem a : wrapInt (wrapInt a) = wrapInt a.
Proof. apply wrapInt_id, wrapInt_range. Qed.

Lemma sumMessages_app stats stat :
  sumMessages (stats ++ [stat]) = (sumMessages stats + statMessages stat)%Z.
Proof.
  induction stats as [|s stats IH]; cbn [sumMessages fold_right app]; [lia|].
  fold (sumMessages (stats ++ [stat])). fold (sumMessages stats). rewrite IH. lia.
Qed.

Lemma setReactions_rows guildID n serverStats :
  map statGuildID (setReactions guildID n serverStats) = map statGuildID serverStats
  /\ map statMessages (setReactions guildID n serverStats) = map statMessages serverStats.
Proof.
  induction serverStats as [|stat rest [IH1 IH2]]; cbn [setReactions]; [split; reflexivity|].
  destruct (statGuildID stat =? guildID); cbn [map statGuildID statMessages].
  - split; reflexivity.
  - rewrite IH1, IH2. split; reflexivity.
Qed.

Lemma sumMessages_map stats stats' :
  map statMessages stats' = map statMessages stats -> sumMessages stats' = sumMessages stats.
Proof.
  revert stats'. induction stats as [|s stats IH]; intros [|s' stats'] Hm; try discriminate.
  - reflexivity.
  - cbn in Hm. injection Hm as Hs Hm. cbn [sumMessages fold_right].
    fold (sumMessages stats). fold (sumMessages stats'). rewrite (IH _ Hm), Hs. reflexivity.
Qed.

Lemma keptGuilds_filter options guilds :
  (if (0 <? mapLen (ExcludedGuildIDs options))%nat
   then List.filter (fun guild => negb (isGuildExcluded options (guildId guild))) guilds
   else guilds)
  = keptGuilds options (guilds, None).
Proof.
  unfold keptGuilds. cbn [fst snd].
  destruct (0 <? mapLen (ExcludedGuildIDs options))%nat eqn:E; [reflexivity|].
  symmetry. induction guilds as [|g guilds IH]; [reflexivity|].
  cbn [List.filter]. unfold isGuildExcluded at 1.
  rewrite (mapLen_zero_not_excluded _ _ E). cbn [negb]. now rewrite IH.
Qed.

Lemma balanced_addCount g count st : balanced g st -> balanced g (addCount count st).
Proof.
  unfold balanced, addCount, addInt. cbn [totalDeleted totalDMMessages]. intros ->.
  rewrite wrapInt_add_l, wrapInt_add_r. f_equal. lia.
Qed.

Lemma balanced_markProcessed g id st : balanced g st -> balanced g (markProcessed id st).
Proof. intros Hb. exact Hb. Qed.

Lemma ensures_stuck {W A : Type} (m : Orch W A) tr (Q : A -> list Invocation -> Prop)
    (J J' : list Invocation -> Prop) :
  ensures m tr Q J -> (forall tr', J tr' -> J' tr') -> ensures m tr Q J'.
Proof.
  intros Hm HJ w. specialize (Hm w).
  destruct (m (w, tr)) as [[a|] [w' tr']]; [exact Hm | now apply HJ].
Qed.

(** The phases keep [allPermitted] together with any property [keep] of
    the calls made that further calls do not undo. *)
Section Shape.
Variable options : PurgeOptions.
Variable dataPackagePath : string.
Context {W : Type}.
Variable api : ClientMethods W.
Variable keep : list Invocation -> Prop.
Hypothesis keep_cons : forall i tr, keep tr -> keep (i :: tr).

Abbreviation Allowed := (allowedWith options dataPackagePath keep).

Lemma allowed_cons p c res tr :
  permitted options dataPackagePath (mkInvocation p c res) = true ->
  Allowed tr -> Allowed (mkInvocation p c res :: tr).
Proof. intros Hp [Htr Hk]. split; [constructor; assumption | now apply keep_cons]. Qed.

Lemma phase1_shape tr :
  Allowed tr ->
  ensures (phase1 api options) tr
          (fun res tr' => Allowed tr' /\ phase1Result options res tr') Allowed.
Proof.
  intros Htr. unfold phase1.
  apply ensures_bind, ensures_call; [|now apply allowed_cons].
  intros [guilds err].
  set (listed := mkInvocation Phase1 CallGetAllGuilds (Some (ResGuilds (guilds, err)))).
  assert (Htr1 : Allowed (listed :: tr)) by now apply allowed_cons.
  destruct err as [e|].
  { apply ensures_ret. split; [exact Htr1|]. split; [constructor|]. split; [reflexivity|].
    split; [reflexivity|]. exists (guilds, Some e). split; [now left | reflexivity]. }
  rewrite keptGuilds_filter.
  set (kept := keptGuilds options (guilds, None)).
  apply ensures_bind. eapply ensures_mono.
  - apply (ensures_forM _
             (fun rest (acc : Z * list ServerStat) tr' =>
                Allowed tr' /\ In listed tr'
                /\ List.Forall (fun g => isGuildExcluded options (guildId g) = false) rest
                /\ (map statGuildID (snd acc) ++ map guildId rest)%list = map guildId kept
                /\ fst acc = wrapInt (sumMessages (snd acc)))).
    + intros guild rest acc tr1 (Hal & Hin & Hall & Hrows & Hsum).
      inversion Hall as [|? ? Hg Hall']; subst.
      apply ensures_bind, ensures_call.
      * intros [count err]. apply ensures_ret. split.
        { apply allowed_cons; [|exact Hal]. cbn. now rewrite Hg. }
        split; [now right|]. split; [exact Hall'|]. cbn [fst snd]. split.
        { rewrite map_app, <- app_assoc. exact Hrows. }
        rewrite sumMessages_app. cbn [statMessages]. unfold addInt.
        rewrite Hsum, wrapInt_add_l. reflexivity.
      * apply allowed_cons; [|exact Hal]. cbn. now rewrite Hg.
    + split; [exact Htr1|]. split; [now left|]. split.
      { subst kept. rewrite <- keptGuilds_filter. apply not_excluded_guilds. }
      split; reflexivity.
  - intros acc tr' (Hal & Hin & _ & Hrows & Hsum). apply ensures_ret.
    split; [exact Hal|]. unfold phase1Result. cbn [fst snd].
    split; [subst kept; rewrite <- keptGuilds_filter; apply not_excluded_guilds|].
    split; [rewrite app_nil_r in Hrows; exact Hrows|].
    split; [exact Hsum|]. exists (guilds, None). split; [exact Hin | reflexivity].
Qed.

Lemma phase2a_shape g st tr :
  Allowed tr -> balanced g st ->
  ensures (phase2a api options st) tr (fun st' tr' => Allowed tr' /\ balanced g st') Allowed.
Proof.
  intros Htr Hb. unfold phase2a.
  apply ensures_bind, ensures_call; [|now apply allowed_cons].
  intros [channels err].
  assert (Htr1 : Allowed (mkInvocation Phase2a CallGetDMChannels
                            (Some (ResChannels (channels, err))) :: tr))
    by now apply allowed_cons.
  destruct err as [e|]; [apply ensures_ret; split; assumption|].
  eapply ensures_mono.
  - apply (ensures_forM _
             (fun rest st' tr' =>
                Allowed tr' /\ balanced g st'
                /\ List.Forall (fun ch => isDMExcluded options (chanId ch) = false) rest)).
    + intros ch rest st1 tr1 (Hal & Hb1 & Hall).
      inversion Hall as [|? ? Hch Hall']; subst.
      apply ensures_bind, ensures_call.
      * intros [count err]. apply ensures_ret. split.
        { apply allowed_cons; [|exact Hal]. cbn. now rewrite Hch. }
        split; [|exact Hall']. now apply balanced_addCount.
      * apply allowed_cons; [|exact Hal]. cbn. now rewrite Hch.
    + split; [exact Htr1|]. split; [exact Hb|]. apply not_excluded_channels.
  - intros st' tr' (Hal & Hb' & _). split; assumption.
Qed.

Lemma phase2b_shape g st tr :
  Allowed tr -> balanced g st ->
  ensures (phase2b api options st) tr (fun st' tr' => Allowed tr' /\ balanced g st') Allowed.
Proof.
  intros Htr Hb. unfold phase2b.
  apply ensures_bind, ensures_call; [|now apply allowed_cons].
  intros [rels err].
  assert (Htr1 : Allowed (mkInvocation Phase2b CallGetRelationships
                            (Some (ResRelationships (rels, err))) :: tr))
    by now apply allowed_cons.
  destruct err as [e|]; [apply ensures_ret; split; assumption|].
  eapply ensures_mono.
  - apply (ensures_forM _
             (fun (_ : list Relationship) st' tr' => Allowed tr' /\ balanced g st')).
    + intros rel rest st1 tr1 (Hal & Hb1).
      apply ensures_bind, ensures_call; [|now apply allowed_cons].
      intros [ch|e].
      2:{ apply ensures_ret. split; [now apply allowed_cons | exact Hb1]. }
      assert (Hal1 : Allowed (mkInvocation Phase2b (CallOpenDMChannel (userId (relUser rel)))
                                (Some (ResChannel (inl ch))) :: tr1))
        by now apply allowed_cons.
      destruct (mget (processedDMs st1) (chanId ch)); [apply ensures_ret; split; assumption|].
      destruct (isDMExcluded options (chanId ch)) eqn:Ex;
        [apply ensures_ret; split; assumption|].
      apply ensures_bind, ensures_call.
      * intros [count err].
        assert (Hal2 : Allowed (mkInvocation Phase2b (CallSearchDMMessages (chanId ch))
                                  (Some (ResCount (count, err))) :: _))
          by (apply allowed_cons; [cbn; now rewrite Ex | exact Hal1]).
        apply ensures_bind, ensures_call; [|now apply allowed_cons].
        intros u. apply ensures_ret. split; [now apply allowed_cons|].
        now apply balanced_addCount.
      * apply allowed_cons; [cbn; now rewrite Ex | exact Hal1].
    + split; assumption.
  - intros st' tr' HI. exact HI.
Qed.

Lemma phase2c_shape g st tr :
  Allowed tr -> balanced g st ->
  ensures (phase2c api dataPackagePath options st) tr
          (fun st' tr' => Allowed tr' /\ balanced g st') Allowed.
Proof.
  intros Htr Hb. unfold phase2c.
  destruct (dataPackagePath =? "") eqn:Ep; cbn [negb];
    [apply ensures_ret; split; assumption|].
  assert (Hload : forall res,
            permitted options dataPackagePath
              (mkInvocation Phase2c (CallLoadDataPackageChannelIDs dataPackagePath) res) = true).
  { intros res. cbn. now rewrite String.eqb_refl, Ep. }
  apply ensures_bind, ensures_call; [|now apply allowed_cons].
  intros [ids err].
  assert (Htr1 : Allowed (mkInvocation Phase2c (CallLoadDataPackageChannelIDs dataPackagePath)
                            (Some (ResIDs (ids, err))) :: tr))
    by now apply allowed_cons.
  destruct err as [e|]; [apply ensures_ret; split; assumption|].
  eapply ensures_mono.
  - apply (ensures_forM _ (fun (_ : list string) st' tr' => Allowed tr' /\ balanced g st')).
    + intros chID rest st1 tr1 (Hal & Hb1).
      destruct (isDMExcluded options chID) eqn:Ex; [apply ensures_ret; split; assumption|].
      destruct (mget (processedDMs st1) chID); [apply ensures_ret; split; assumption|].
      assert (Hsearch : forall res,
                permitted options dataPackagePath
                  (mkInvocation Phase2c (CallSearchDMMessages chID) res) = true).
      { intros res. cbn. now rewrite Ex, Ep. }
      assert (Hscan : forall res,
                permitted options dataPackagePath
                  (mkInvocation Phase2c (CallIterateAndDeleteChannel chID) res) = true).
      { intros res. cbn. now rewrite Ex, Ep. }
      apply ensures_bind, ensures_call; [|now apply allowed_cons].
      intros [count err].
      assert (Hal1 : Allowed (mkInvocation Phase2c (CallSearchDMMessages chID)
                                (Some (ResCount (count, err))) :: tr1))
        by now apply allowed_cons.
      apply ensures_bind. destruct err as [e|].
      * apply ensures_bind, ensures_call; [|now apply allowed_cons].
        intros [count' err']. apply ensures_ret, ensures_ret.
        split; [now apply allowed_cons | now apply balanced_addCount].
      * apply ensures_ret, ensures_ret. split; [exact Hal1 | now apply balanced_addCount].
    + split; assumption.
  - intros st' tr' HI. exact HI.
Qed.

Lemma phase3a_shape guilds serverStats tr :
  Allowed tr ->
  List.Forall (fun g => isGuildExcluded options (guildId g) = false) guilds ->
  ensures (phase3a api guilds serverStats) tr
          (fun res tr' => Allowed tr'
                          /\ map statGuildID (fst res) = map statGuildID serverStats
                          /\ map statMessages (fst res) = map statMessages serverStats)
          Allowed.
Proof.
  intros Htr Hguilds. unfold phase3a. eapply ensures_mono.
  - apply (ensures_forM _
             (fun rest (acc : list ServerStat * Z) tr' =>
                Allowed tr'
                /\ List.Forall (fun g => isGuildExcluded options (guildId g) = false) rest
                /\ map statGuildID (fst acc) = map statGuildID serverStats
                /\ map statMessages (fst acc) = map statMessages serverStats)).
    + intros guild rest acc tr1 (Hal & Hall & Hids & Hmsgs).
      inversion Hall as [|? ? Hg Hall']; subst.
      assert (Hdisc : forall res,
                permitted options dataPackagePath
                  (mkInvocation Phase3a (CallDiscoverAllGuildChannelsAndThreads (guildId guild))
                                res) = true).
      { intros res. cbn. now rewrite Hg. }
      apply ensures_bind, ensures_call; [|now apply allowed_cons].
      intros channelIDs. apply ensures_bind. eapply ensures_mono.
      * apply (ensures_forM _ (fun (_ : list string) (_ : Z) tr' => Allowed tr')).
        -- intros chID rest' n tr2 Hal2.
           apply ensures_bind, ensures_call; [|now apply allowed_cons].
           intros removed. apply ensures_ret. now apply allowed_cons.
        -- now apply allowed_cons.
      * intros n tr' Hal'. apply ensures_ret. split; [exact Hal'|]. split; [exact Hall'|].
        cbn [fst]. destruct (setReactions_rows (guildId guild) n (fst acc)) as [-> ->].
        split; assumption.
    + split; [exact Htr|]. split; [exact Hguilds|]. split; reflexivity.
  - intros res tr' (Hal & _ & Hids & Hmsgs). split; [exact Hal | split; assumption].
Qed.

Lemma phase3b_shape (order : RangeOrder) processed tr :
  Allowed tr -> ensures (phase3b api order processed) tr (fun _ tr' => Allowed tr') Allowed.
Proof.
  intros Htr. unfold phase3b.
  apply (ensures_forM _ (fun (_ : list string) (_ : Z) tr' => Allowed tr')); [|exact Htr].
  intros chID rest n tr1 Hal.
  apply ensures_bind, ensures_call; [|now apply allowed_cons].
  intros removed. apply ensures_ret. now apply allowed_cons.
Qed.

End Shape.

Lemma purgeAllBody_shape {W : Type} (api : ClientMethods W) (order : RangeOrder)
    (dataPackagePath : string) (options : PurgeOptions) :
  ensures (purgeAllBody api order dataPackagePath options) []
          (fun res tr =>
             allPermitted options dataPackagePath tr
             /\ (exists listing,
                   In (mkInvocation Phase1 CallGetAllGuilds (Some (ResGuilds listing))) tr
                   /\ map statGuildID (ServerStats (snd res))
                      = map guildId (keptGuilds options listing))
             /\ TotalMessagesDeleted (snd res)
                = wrapInt (sumMessages (ServerStats (snd res))
                           + TotalDMMessagesDeleted (snd res)))
          (allPermitted options dataPackagePath).
Proof.
  unfold purgeAllBody.
  apply ensures_bind.
  eapply ensures_stuck;
    [eapply ensures_mono; [apply (phase1_shape options dataPackagePath api (fun _ => True));
                           [auto | split; [constructor | exact I]] |]
    | intros tr' [Hal _]; exact Hal].
  intros [guilds [guildDeleted serverStats]] tr1
         ([Hal1 _] & Hkept & Hrows & Hsum & listing & Hin & Hk).
  cbn [fst snd] in *.
  set (listed := mkInvocation Phase1 CallGetAllGuilds (Some (ResGuilds listing))) in *.
  assert (Hcons : forall i tr, In listed tr -> In listed (i :: tr)) by (intros; now right).
  assert (Hb0 : balanced guildDeleted (mkDMState ∅ 0 guildDeleted)).
  { unfold balanced. cbn. rewrite Z.add_0_r, Hsum. symmetry. apply wrapInt_idem. }
  eapply ensures_stuck with (J := allowedWith options dataPackagePath (In listed));
    [|intros tr' [Hal _]; exact Hal].
  apply ensures_bind.
  eapply ensures_mono;
    [apply (phase2a_shape options dataPackagePath api (In listed) Hcons guildDeleted);
     [split; assumption | exact Hb0]|].
  intros st1 tr2 (Hal2 & Hb1).
  apply ensures_bind.
  eapply ensures_mono;
    [apply (phase2b_shape options dataPackagePath api (In listed) Hcons guildDeleted);
     assumption|].
  intros st2 tr3 (Hal3 & Hb2).
  apply ensures_bind.
  eapply ensures_mono;
    [apply (phase2c_shape options dataPackagePath api (In listed) Hcons guildDeleted);
     assumption|].
  intros st3 tr4 (Hal4 & Hb3).
  apply ensures_bind.
  eapply ensures_mono;
    [apply (phase3a_shape options dataPackagePath api (In listed) Hcons); eassumption|].
  intros [serverStats' total] tr5 (Hal5 & Hids & Hmsgs). cbn [fst] in Hids, Hmsgs.
  apply ensures_bind.
  eapply ensures_mono;
    [apply (phase3b_shape options dataPackagePath api (In listed) Hcons); eassumption|].
  intros n tr6 [Hal6 Hin6]. apply ensures_ret.
  cbn [snd ServerStats TotalMessagesDeleted TotalDMMessagesDeleted].
  split; [exact Hal6|]. split.
  - exists listing. split; [exact Hin6 | now rewrite Hids, Hrows, Hk].
  - rewrite (sumMessages_map _ _ Hmsgs). unfold balanced in Hb3. rewrite Hb3, Hsum.
    apply wrapInt_add_l.
Qed.

Section WalkerSafety.
Context `{Runtime}.
Variable c : DiscordClient.









End WalkerSafety.

Section DeepScan.
Context `{Runtime}.
Variable c : DiscordClient.









Lemma requestLoop_reply method path jsonBody :
  forall remaining w,
    match replyErr (fst (requestLoop c remaining method path jsonBody w)) with
    | None =>
        replyStatus (fst (requestLoop c remaining method path jsonBody w)) <> 429%Z
        /\ (calls w < calls (snd (requestLoop c remaining method path jsonBody w)))%nat
    | Some _ =>
        replyBody (fst (requestLoop c remaining method path jsonBody w)) = ""
        /\ (replyStatus (fst (requestLoop c remaining method path jsonBody w)) = 0%Z
            \/ replyStatus (fst (requestLoop c remaining method path jsonBody w)) = 429%Z)
    end.
Proof.
  induction remaining as [|remaining IH]; intros w.
  - cbn. split; [reflexivity | now right].
  - cbn [requestLoop].
    destruct (newRequestOK method (apiBase ++ path)); cbn [negb];
      [|cbn; split; [reflexivity | now left]].
    destruct (httpClient c (calls w) _) as [e|resp]; [cbn; split; [reflexivity | now left]|].
    destruct ((200 <=? StatusCode resp) && (StatusCode resp <? 300))%Z eqn:E2.
    { cbn [fst snd replyErr replyStatus]. split; [|rewrite calls_do; lia].
      intros E. rewrite E in E2. discriminate. }
    destruct (Z.eqb_spec (StatusCode resp) 429) as [E|E].
    + specialize (IH (sleepFor (waitDuration (rateLimitWait method path resp))
                            (EvDo (mkRequest method (apiBase ++ path) (token c) jsonBody) :: w))).
      destruct (replyErr (fst (requestLoop c remaining method path jsonBody _))); [exact IH|].
      destruct IH as [Hs Hc]. split; [exact Hs|].
      rewrite calls_sleepFor, calls_do in Hc. lia.
    + cbn [fst snd replyErr replyStatus]. split; [exact E | rewrite calls_do; lia].
Qed.

End DeepScan.

Lemma previous_fixed_points id :
  previousSnowflakeID id = id <-> ParseUint id = None \/ ParseUint id = Some 0%N.
Proof.
  unfold previousSnowflakeID. destruct (ParseUint id) as [n|] eqn:Ep.
  - destruct (N.eqb_spec n 0) as [->|Hn].
    + split; [now right | reflexivity].
    + split; [|intros [E|E]; [discriminate | congruence]].
      intros E. exfalso.
      pose proof (ParseUint_bound _ _ Ep) as Hb. unfold maxUint64 in Hb.
      assert (Hw : wrapUint64 (n - 1) = (n - 1)%N).
      { unfold wrapUint64. apply N.mod_small. lia. }
      rewrite Hw in E.
      pose proof (ParseUint_FormatUint (n - 1)) as Hp. rewrite E, Ep in Hp.
      assert (Some n = Some (n - 1)%N) by (apply Hp; unfold maxUint64; lia).
      assert (n = (n - 1)%N) by congruence. lia.
  - split; [now left | reflexivity].
Qed.

Lemma older_numeric cur cand x y :
  ParseUint cur = Some x -> ParseUint cand = Some y ->
  olderSnowflakeID cur cand = if (y <? x)%N then cand else cur.
Proof.
  intros Hx Hy. unfold olderSnowflakeID.
  now rewrite (ParseUint_Some_nonempty _ _ Hx), (ParseUint_Some_nonempty _ _ Hy), Hx, Hy.
Qed.

Lemma older_fold_min ids :
  forall cur,
    List.Forall (fun id => ParseUint id <> None) ids ->
    cur = "" \/ ParseUint cur <> None ->
    let oldest := fold_left olderSnowflakeID ids cur in
    (oldest = cur \/ In oldest ids)
    /\ (cur <> "" -> snowflakeLe oldest cur)
    /\ forall id, In id ids -> snowflakeLe oldest id.
Proof.
  induction ids as [|id ids IH]; intros cur Hall Hcur; cbn [fold_left].
  - split; [now left|]. split; [|intros id []].
    intros Hne. destruct Hcur as [->|Hp]; [contradiction|].
    destruct (ParseUint cur) as [x|] eqn:Ex; [|contradiction].
    exists x, x. repeat split; try assumption. lia.
  - inversion Hall as [|? ? Hid Hall']; subst.
    destruct (ParseUint id) as [y|] eqn:Ey; [|contradiction]. clear Hid.
    assert (Hstep : exists z, ParseUint (olderSnowflakeID cur id) = Some z
                              /\ (z <= y)%N
                              /\ (olderSnowflakeID cur id = cur \/ olderSnowflakeID cur id = id)
                              /\ (forall x, ParseUint cur = Some x -> (z <= x)%N)).
    { destruct Hcur as [->|Hp].
      - exists y. unfold olderSnowflakeID. rewrite (ParseUint_Some_nonempty _ _ Ey).
        cbn. rewrite Ey. repeat split; [lia | now right | discriminate].
      - destruct (ParseUint cur) as [x|] eqn:Ex; [|contradiction].
        rewrite (older_numeric _ _ _ _ Ex Ey). destruct (N.ltb_spec y x).
        + exists y. repeat split; [exact Ey | lia | now right | intros ? [= <-]; lia].
        + exists x. repeat split; [exact Ex | lia | now left | intros ? [= <-]; lia]. }
    destruct Hstep as (z & Hz & Hzy & Hwhich & Hzx).
    destruct (IH (olderSnowflakeID cur id) Hall') as (Hin & Hle & Hrest).
    { right. rewrite Hz. discriminate. }
    assert (Hne : olderSnowflakeID cur id <> "").
    { intros E. rewrite E in Hz. discriminate. }
    specialize (Hle Hne). destruct Hle as (a & b & Ha & Hb & Hab).
    rewrite Hz in Hb. injection Hb as <-.
    split; [|split].
    + destruct Hin as [->|Hin]; [|right; now right].
      destruct Hwhich as [->| ->]; [now left | right; now left].
    + intros Hcne. destruct Hcur as [->|Hp]; [contradiction|].
      destruct (ParseUint cur) as [x|] eqn:Ex; [|contradiction].
      exists a, x. repeat split; try assumption. specialize (Hzx x eq_refl). lia.
    + intros id' [<-|Hin'].
      * exists a, y. repeat split; try assumption. lia.
      * now apply Hrest.
Qed.

Section Cursor.
Context `{Runtime}.
Variable c : DiscordClient.

Lemma deleteHit_oldest channelID id ps w :
  psOldestHitID (fst (deleteHit c channelID id ps w)) = psOldestHitID ps.
Proof.
  unfold deleteHit. destruct (request c "DELETE" _ w) as [r w1].
  destruct (replyErr r); [reflexivity|].
  repeat match goal with |- context [if ?b then _ else _] => destruct b end; reflexivity.
Qed.

Lemma guildHit_oldest msg ps w :
  psOldestHitID (fst (guildHit c msg ps w))
  = if (userId (Author msg) =? userID c) && Hit msg
    then olderSnowflakeID (psOldestHitID ps) (msgID msg)
    else psOldestHitID ps.
Proof.
  unfold guildHit. destruct ((userId (Author msg) =? userID c) && Hit msg); [|reflexivity].
  destruct ((msgID msg =? "") || _ || _); [reflexivity|].
  destruct (ChannelID msg =? ""); [reflexivity|].
  rewrite deleteHit_oldest. reflexivity.
Qed.

Lemma guildHits_oldest msgs :
  forall ps w,
    psOldestHitID (fst (forEach (guildHit c) msgs ps w))
    = fold_left olderSnowflakeID (ownHitIDs c [msgs]) (psOldestHitID ps).
Proof.
  unfold ownHitIDs. cbn [concat]. rewrite app_nil_r.
  induction msgs as [|msg msgs IH]; intros ps w; [reflexivity|].
  cbn [forEach List.filter]. pose proof (guildHit_oldest msg ps w) as Hh.
  destruct (guildHit c msg ps w) as [ps1 w1]. cbn [fst] in Hh. rewrite IH, Hh.
  destruct ((userId (Author msg) =? userID c) && Hit msg); reflexivity.
Qed.

Lemma ownHitIDs_cons msgGroup groups :
  ownHitIDs c (msgGroup :: groups) = (ownHitIDs c [msgGroup] ++ ownHitIDs c groups)%list.
Proof.
  unfold ownHitIDs. cbn [concat]. rewrite app_nil_r, List.filter_app, map_app. reflexivity.
Qed.

Lemma guildPage_oldest groups :
  forall ps w,
    psOldestHitID (fst (guildPage c groups ps w))
    = fold_left olderSnowflakeID (ownHitIDs c groups) (psOldestHitID ps).
Proof.
  unfold guildPage. induction groups as [|g groups IH]; intros ps w; [reflexivity|].
  cbn [forEach]. pose proof (guildHits_oldest g ps w) as Hg.
  destruct (forEach (guildHit c) g ps w) as [ps1 w1]. cbn [fst] in Hg.
  rewrite IH, (ownHitIDs_cons g groups), fold_left_app, Hg. reflexivity.
Qed.

End Cursor.

(** ** Further properties of the request executor *)

(** Property X1. Whatever the server answers, [requestWithBody] only adds
    to the log of events: besides its pauses it starts at most five
    exchanges, each of them the request it was asked for (the method,
    [apiBase ++ path], the client's token and the body). *)
Theorem executor_trace_bounded `{Runtime} (c : DiscordClient)
    (method path jsonBody : string) (w : World) :
  exists evs,
    snd (requestWithBody c method path jsonBody w) = (evs ++ w)%list
    /\ List.Forall (requestEvent c method path jsonBody) evs
    /\ (calls evs <= 5)%nat.
Proof. apply requestLoop_trace. Qed.

(** Property X2. What [requestWithBody] hands back: with an error, the
    body is empty and the status is 0 or 429; without one, the status is
    not 429 and at least one exchange was made. A caller never sees a 429
    as an ordinary status. *)
Theorem executor_reply_shape `{Runtime} (c : DiscordClient)
    (method path jsonBody : string) (w : World) :
  match replyErr (fst (requestWithBody c method path jsonBody w)) with
  | None =>
      replyStatus (fst (requestWithBody c method path jsonBody w)) <> 429%Z
      /\ (calls w < calls (snd (requestWithBody c method path jsonBody w)))%nat
  | Some _ =>
      replyBody (fst (requestWithBody c method path jsonBody w)) = ""
      /\ (replyStatus (fst (requestWithBody c method path jsonBody w)) = 0%Z
          \/ replyStatus (fst (requestWithBody c method path jsonBody w)) = 429%Z)
  end.
Proof. apply requestLoop_reply. Qed.

(** ** Further properties of the walkers *)



(** Property X4. Over one page of guild search hits the set of skipped
    identifiers only grows, and every exchange is the deletion of a hit of
    the page that the user wrote, that has an identifier and a channel and
    that was not in the skipped set when the page began: a message marked
    as skipped is not asked to be deleted again. *)
Theorem guild_page_respects_skipped `{Runtime} (c : DiscordClient)
    (groups : list (list Message)) (ps : PageState) (w : World) :
  keepsSkipped (psSkippedMessageIDs ps) (psSkippedMessageIDs (fst (guildPage c groups ps w)))
  /\ addsOnly (deletesOwnHit c (psSkippedMessageIDs ps) groups) w
              (snd (guildPage c groups ps w)).
Proof.
  apply guildPage_page; [auto | apply keepsSkipped_refl].
Qed.



(** Property X6. Neither search walker ever returns the error "search
    index requested retry too many times": the wait counter is reset just
    before the retry flag of a decoded result is read, so the bound of 40
    is never reached on that path and a server that keeps setting the
    flag is asked again without end. *)
Theorem retry_flag_limit_unreachable `{Runtime} (c : DiscordClient) (id : string)
    (fuel : nat) (w : World) :
  errorIs retryLimitText (walkerError (SearchGuildMessages fuel c id w)) = false
  /\ errorIs retryLimitText (walkerError (SearchDMMessages fuel c id w)) = false.
Proof.
  split; [|apply searchDMLoop_retryLimit].
  unfold SearchGuildMessages.
  pose proof (searchGuildLoop_retryLimit c id fuel 0 0 "" ∅ w) as Hl.
  destruct (searchGuildLoop fuel c id 0 0 "" ∅ w) as [[[n|n e] w1]|]; [|exact Hl|reflexivity].
  destruct (n =? 0)%Z; [|reflexivity].
  destruct (deepScanGuildMessages fuel c id w1) as [[k w2]|]; reflexivity.
Qed.

(** Property X7. When every exchange is answered with HTTP 202, both
    search walkers give up with the error "search index not ready after
    40 retries" and no deletion, after exactly 40 search requests. *)
Theorem index_wait_gives_up `{Runtime} (c : DiscordClient) (id : string)
    (fuel : nat) (w : World) :
  (forall path, newRequestOK "GET" (apiBase ++ path) = true) ->
  alwaysIndexing c ->
  (40 <= fuel)%nat ->
  (walkerResult (SearchGuildMessages fuel c id w) = (0%Z, Some indexLimitText)
   /\ calls (walkerWorld (SearchGuildMessages fuel c id w)) = (calls w + 40)%nat)
  /\ (walkerResult (SearchDMMessages fuel c id w) = (0%Z, Some indexLimitText)
      /\ calls (walkerWorld (SearchDMMessages fuel c id w)) = (calls w + 40)%nat).
Proof.
  intros Hok Hall Hfuel. split.
  - destruct (searchGuildLoop_indexing c id Hok Hall 40 fuel 0 "" ∅ w) as (w' & Hrun & Hc);
      [lia | lia |].
    unfold SearchGuildMessages. change (40 - Z.of_nat 40)%Z with 0%Z in Hrun.
    rewrite Hrun. split; [reflexivity | exact Hc].
  - destruct (searchDMLoop_indexing c id Hok Hall 40 fuel 0 "" ∅ w) as (w' & Hrun & Hc);
      [lia | lia |].
    unfold SearchDMMessages. change (40 - Z.of_nat 40)%Z with 0%Z in Hrun.
    rewrite Hrun. split; [reflexivity | exact Hc].
Qed.

Lemma index_wait_gives_up_witness :
  walkerResult indexingRun = (0%Z, Some indexLimitText)
  /\ calls (walkerWorld indexingRun) = 40%nat.
Proof.
  apply (@index_wait_gives_up exampleRuntime indexingClient "g1" 40 []).
  - reflexivity.
  - intros n req. exists (plainResponse 202 ""). split; reflexivity.
  - lia.
Defined.





(** ** Further properties of the snowflake cursors *)

(** Property X17. [previousSnowflakeID] leaves a cursor unchanged exactly
    when the cursor does not parse or its value is zero; a cursor with a
    positive value always moves. *)
Theorem predecessor_fixed_points (id : string) :
  previousSnowflakeID id = id <-> ParseUint id = None \/ ParseUint id = Some 0%N.
Proof. apply previous_fixed_points. Qed.

(** Property X18. The oldest-hit cursor a page of guild search hits ends
    with depends on the hits alone, not on what the deletions answer:
    when the identifiers of the user's own hits all parse, the cursor is
    one of them and its value is the least among them. *)
Theorem page_cursor_is_oldest_hit `{Runtime} (c : DiscordClient)
    (groups : list (list Message)) (totalDeleted : Z)
    (seen skipped : gmap string bool) (w : World) (id : string) :
  List.Forall (fun id => ParseUint id <> None) (ownHitIDs c groups) ->
  In id (ownHitIDs c groups) ->
  In (psOldestHitID (fst (guildPage c groups (mkPage totalDeleted 0 "" seen skipped) w)))
     (ownHitIDs c groups)
  /\ snowflakeLe
       (psOldestHitID (fst (guildPage c groups (mkPage totalDeleted 0 "" seen skipped) w)))
       id.
Proof.
  intros Hall Hin. rewrite guildPage_oldest. cbn [psOldestHitID].
  destruct (older_fold_min (ownHitIDs c groups) "" Hall (or_introl eq_refl))
    as (Hwhich & _ & Hle).
  split; [|now apply Hle].
  destruct Hwhich as [E|Hin']; [|exact Hin'].
  exfalso. destruct (Hle id Hin) as (x & y & Hx & _). rewrite E in Hx. discriminate.
Qed.

Lemma page_cursor_is_oldest_hit_witness :
  In (psOldestHitID (fst (@guildPage sampleRuntime sampleClient sampleHits emptyPage [])))
     (ownHitIDs sampleClient sampleHits)
  /\ snowflakeLe
       (psOldestHitID (fst (@guildPage sampleRuntime sampleClient sampleHits emptyPage [])))
       "1200".
Proof.
  apply (@page_cursor_is_oldest_hit sampleRuntime sampleClient sampleHits 0 ∅ ∅ [] "1200").
  - repeat constructor; discriminate.
  - now left.
Defined.

(** ** Channel discovery *)

(** Property X8. The list of channels and threads that the discovery
    returns names no identifier twice, however often the listings repeat
    one. *)
Theorem discovery_without_repetition `{Runtime} (c : DiscordClient) (guildID : string)
    (fuel : nat) (w : World) (ids : list string) (w' : World) :
  discoverAllGuildChannelsAndThreads fuel c guildID w = Some (ids, w') ->
  NoDup ids.
Proof. intros Hrun. now apply discover_result in Hrun as [Hnd _]. Qed.

Lemma discovery_without_repetition_witness : NoDup (discoveredIDs discoveryRun).
Proof.
  apply (@discovery_without_repetition sampleRuntime sampleClient "g1" 2 []
           (discoveredIDs discoveryRun) (discoveryWorld discoveryRun)).
  vm_compute. reflexivity.
Defined.



(** ** Friend removal and server leaving *)

(** Property X10. [RemoveAllFriends]: when the listing of relationships
    fails, no removal is asked and the count is 0 with the error wrapped;
    otherwise every exchange after the listing is the removal of a
    relationship of the listing whose type is friend, and the count
    returned is at most the number of friends listed. Blocked users and
    pending requests are not touched. *)
Theorem remove_all_friends_only_friends `{Runtime} (c : DiscordClient) (w : World) :
  match GetRelationships c w with
  | ((rels, None), w1) =>
      exists n w',
        RemoveAllFriends c w = ((n, None), w')
        /\ addsOnly (removesFriend c rels) w1 w'
        /\ inIntRange n
        /\ (n <= Z.of_nat (length (List.filter isFriend rels)))%Z
  | ((_, Some e), w1) =>
      RemoveAllFriends c w = ((0%Z, Some ("fetching relationships: " ++ e)), w1)
  end.
Proof. apply RemoveAllFriends_spec. Qed.

(** Property X11. [LeaveAllGuilds]: when the listing of guilds fails, no
    guild is left and the count is 0 with the error wrapped, the guilds
    read before the failure being dropped; otherwise every exchange after
    the listing asks to leave a guild of the listing, and the count
    returned is at most the number of guilds listed. *)
Theorem leave_all_guilds_only_listed `{Runtime} (c : DiscordClient) (fuel : nat)
    (w : World) :
  match GetAllGuilds fuel c w with
  | Some ((guilds, None), w1) =>
      exists n w',
        LeaveAllGuilds fuel c w = Some ((n, None), w')
        /\ addsOnly (leavesOneOf c guilds) w1 w'
        /\ inIntRange n
        /\ (n <= Z.of_nat (length guilds))%Z
  | Some ((_, Some e), w1) =>
      LeaveAllGuilds fuel c w = Some ((0%Z, Some ("fetching guilds: " ++ e)), w1)
  | None => LeaveAllGuilds fuel c w = None
  end.
Proof. apply LeaveAllGuilds_spec. Qed.

(** ** Selection of exclusions *)

(** Property X12. A selection that [parseSelectionInput] accepts holds
    only indices of the menu, from 1 to [max], each with the value
    [true]. *)
Theorem selection_within_menu `{Text} (input : string) (max : Z)
    (selected : gmap Z bool) :
  parseSelectionInput input max = Some (inl selected) -> withinMenu max selected.
Proof. apply parseSelection_within. Qed.

Lemma selection_within_menu_witness :
  withinMenu 6 (selectionOf (@parseSelectionInput plainText "5-3; 1" 6)).
Proof.
  apply (@selection_within_menu plainText "5-3; 1" 6). vm_compute. reflexivity.
Defined.

(** Property X13. An input that normalises to ["all"] or ["*"] selects
    exactly the indices from 1 to [max]. *)
Theorem selection_all `{Text} (input : string) (max : Z) :
  (max < maxInt)%Z ->
  TrimSpace (ToLower input) = "all" \/ TrimSpace (ToLower input) = "*" ->
  parseSelectionInput input max
  = Some (inl (selectionOf (parseSelectionInput input max)))
  /\ forall i, mgetInt (selectionOf (parseSelectionInput input max)) i = true
               <-> (1 <= i <= max)%Z.
Proof.
  intros Hmax Hall. unfold parseSelectionInput.
  destruct (parseSelection_all _ max Hmax Hall) as (selected & -> & Hsel).
  split; [reflexivity | exact Hsel].
Qed.

Lemma selection_all_witness :
  @parseSelectionInput plainText "all" 3
  = Some (inl (selectionOf (@parseSelectionInput plainText "all" 3)))
  /\ forall i, mgetInt (selectionOf (@parseSelectionInput plainText "all" 3)) i = true
               <-> (1 <= i <= 3)%Z.
Proof.
  apply (@selection_all plainText "all" 3); [reflexivity | now left].
Defined.

(** Property X14. An input that normalises to the decimal form of an
    index of the menu, as the menu prints it, selects that index and no
    other. *)
Theorem selection_of_printed_index `{Text} (input : string) (i max : Z) :
  TrimSpace (ToLower input) = itoa i ->
  (1 <= i <= max)%Z -> (max <= maxInt)%Z ->
  parseSelectionInput input max = Some (inl (<[i := true]> ∅)).
Proof.
  intros Hin Hi Hmax. unfold parseSelectionInput. rewrite Hin.
  now apply parseSelection_number.
Qed.

Lemma selection_of_printed_index_witness :
  @parseSelectionInput plainText "12" 20 = Some (inl (<[12%Z := true]> ∅)).
Proof.
  apply (@selection_of_printed_index plainText "12" 12 20); [reflexivity | lia |].
  unfold maxInt. lia.
Defined.

(** Property X15. The options that [promptPurgeOptions] returns carry two
    maps, neither [nil], and exclude only guilds and conversations of the
    two lists it was given. *)
Theorem prompt_excludes_only_listed `{Text} (lines : list string) (guilds : list Guild)
    (dmChannels : list Channel) (options : PurgeOptions) (rest : list string) :
  promptPurgeOptions lines guilds dmChannels = Some (options, rest) ->
  (forall id, isGuildExcluded options id = true -> In id (map guildId guilds))
  /\ (forall id, isDMExcluded options id = true -> In id (map chanId dmChannels))
  /\ ExcludedGuildIDs options <> None /\ ExcludedDMChannelIDs options <> None.
Proof. apply promptPurgeOptions_listed. Qed.

Lemma prompt_excludes_only_listed_witness :
  (forall id,
     isGuildExcluded
       (optionsOf (@promptPurgeOptions plainText ["9"; "2-3"; "none"] threeGuilds
                     [dmChannel "42"])) id = true ->
     In id (map guildId threeGuilds))
  /\ (forall id,
        isDMExcluded
          (optionsOf (@promptPurgeOptions plainText ["9"; "2-3"; "none"] threeGuilds
                        [dmChannel "42"])) id = true ->
        In id (map chanId [dmChannel "42"]))
  /\ ExcludedGuildIDs
       (optionsOf (@promptPurgeOptions plainText ["9"; "2-3"; "none"] threeGuilds
                     [dmChannel "42"])) <> None
  /\ ExcludedDMChannelIDs
       (optionsOf (@promptPurgeOptions plainText ["9"; "2-3"; "none"] threeGuilds
                     [dmChannel "42"])) <> None.
Proof.
  apply (@prompt_excludes_only_listed plainText ["9"; "2-3"; "none"] threeGuilds
           [dmChannel "42"] _ []).
  vm_compute. reflexivity.
Defined.

(** Property X16. When the first line read normalises to the number the
    menu prints beside a guild, and no conversation is listed, the
    options exclude exactly the identifier of that guild. *)
Theorem typed_number_excludes_that_guild `{Text} (line : string) (lines : list string)
    (guilds : list Guild) (k : Z) :
  TrimSpace (ToLower line) = itoa k ->
  (1 <= k <= Z.of_nat (length guilds))%Z ->
  (Z.of_nat (length guilds) <= maxInt)%Z ->
  promptPurgeOptions (line :: lines) guilds []
  = Some (optionsOf (promptPurgeOptions (line :: lines) guilds []), lines)
  /\ forall id,
       isGuildExcluded (optionsOf (promptPurgeOptions (line :: lines) guilds [])) id = true
       <-> nth_error (map guildId guilds) (Z.to_nat (k - 1)) = Some id.
Proof.
  intros Hline Hk Hmax.
  destruct (promptPurgeOptions_number line lines guilds k Hline Hk Hmax)
    as (options & -> & Hex).
  split; [reflexivity | exact Hex].
Qed.

Lemma typed_number_excludes_that_guild_witness :
  @promptPurgeOptions plainText ["2"] threeGuilds []
  = Some (optionsOf (@promptPurgeOptions plainText ["2"] threeGuilds []), [])
  /\ forall id,
       isGuildExcluded (optionsOf (@promptPurgeOptions plainText ["2"] threeGuilds [])) id
       = true
       <-> nth_error (map guildId threeGuilds) (Z.to_nat (2 - 1)) = Some id.
Proof.
  apply (@typed_number_excludes_that_guild plainText "2" [] threeGuilds 2).
  - vm_compute. reflexivity.
  - cbn. lia.
  - unfold maxInt. cbn. lia.
Defined.

(** ** Further properties of the orchestrator *)

Lemma purgeAllBody_allowed {W : Type} (api : ClientMethods W) (order : RangeOrder)
    (dataPackagePath : string) (options : PurgeOptions) w r w' tr :
  purgeAllBody api order dataPackagePath options (w, []) = (r, (w', tr)) ->
  allPermitted options dataPackagePath tr
  /\ forall processed stats, r = Some (processed, stats) ->
       (exists listing,
          In (mkInvocation Phase1 CallGetAllGuilds (Some (ResGuilds listing))) tr
          /\ map statGuildID (ServerStats stats) = map guildId (keptGuilds options listing))
       /\ TotalMessagesDeleted stats
          = wrapInt (sumMessages (ServerStats stats) + TotalDMMessagesDeleted stats).
Proof.
  intros Hrun. pose proof (purgeAllBody_shape api order dataPackagePath options w) as H.
  rewrite Hrun in H. destruct r as [[processed stats]|].
  - destruct H as (Hal & Hrows & Hsum). split; [exact Hal|].
    intros p s [= <- <-]. split; assumption.
  - split; [exact H | discriminate].
Qed.

Lemma PurgeAll_finished {W : Type} (api : ClientMethods W) (order : RangeOrder)
    (dataPackagePath : string) (options : PurgeOptions) w stats w' tr :
  PurgeAll api order dataPackagePath options (w, []) = (Some stats, (w', tr)) ->
  exists processed,
    purgeAllBody api order dataPackagePath options (w, []) = (Some (processed, stats), (w', tr)).
Proof.
  unfold PurgeAll, obind.
  destruct (purgeAllBody api order dataPackagePath options (w, [])) as [[[p s]|] [w1 tr1]];
    cbn; intros [= <- <- <-]. now exists p.
Qed.

Lemma countIf_none (f : Invocation -> bool) (tr : list Invocation) :
  (forall i, In i tr -> f i = false) -> countIf f tr = 0%nat.
Proof.
  unfold countIf. induction tr as [|i tr IH]; intros Hall; [reflexivity|].
  cbn [List.filter]. rewrite (Hall i (or_introl eq_refl)). apply IH.
  intros j Hj. apply Hall. now right.
Qed.

(** Property X19. In a run of [PurgeAll], finished or not, the channel
    discovery of the reaction sweep (phase 3a) is never run on an excluded
    guild. *)
Theorem excluded_guild_not_discovered {W : Type} (api : ClientMethods W)
    (order : RangeOrder) (dataPackagePath : string) (options : PurgeOptions) w r w' tr
    (g : string) :
  PurgeAll api order dataPackagePath options (w, []) = (r, (w', tr)) ->
  isGuildExcluded options g = true ->
  countIf (discoversGuild g) tr = 0%nat.
Proof.
  intros Hrun Hex. apply PurgeAll_body in Hrun as (r' & Hrun & _).
  apply purgeAllBody_allowed in Hrun as [Hal _].
  apply countIf_none. intros i Hi.
  unfold allPermitted in Hal. rewrite List.Forall_forall in Hal. specialize (Hal i Hi).
  unfold discoversGuild. unfold permitted in Hal.
  destruct (invCall i) as [| | | | | | | |g'| |]; try reflexivity.
  destruct (String.eqb_spec g' g) as [->|]; [|reflexivity].
  destruct (invPhase i); try discriminate Hal. rewrite Hex in Hal. discriminate Hal.
Qed.

Lemma excluded_guild_not_discovered_witness :
  countIf (discoversGuild "g1") (traceOf exclusionRun) = 0%nat.
Proof.
  apply (excluded_guild_not_discovered
           (exampleMethods ["42"; "43"] ["43"; "99"; "42"]) canonicalRange "package"
           exclusionOptions tt (fst exclusionRun) tt (traceOf exclusionRun) "g1"
           (run_eta exclusionRun)).
  reflexivity.
Defined.

(** Property X20. Without a data package path, a run of [PurgeAll] makes
    no call in phase 2c: the index is not read and no walker or history
    scan is started from it. *)
Theorem no_path_no_package_phase {W : Type} (api : ClientMethods W)
    (order : RangeOrder) (options : PurgeOptions) w r w' tr :
  PurgeAll api order "" options (w, []) = (r, (w', tr)) ->
  countIf inPackagePhase tr = 0%nat.
Proof.
  intros Hrun. apply PurgeAll_body in Hrun as (r' & Hrun & _).
  apply purgeAllBody_allowed in Hrun as [Hal _].
  apply countIf_none. intros i Hi.
  unfold allPermitted in Hal. rewrite List.Forall_forall in Hal. specialize (Hal i Hi).
  unfold inPackagePhase. unfold permitted in Hal.
  destruct (invPhase i); try reflexivity.
  destruct (invCall i); try discriminate Hal;
    rewrite andb_comm in Hal; discriminate Hal.
Qed.

Lemma no_path_no_package_phase_witness :
  countIf inPackagePhase (traceOf repeatedListingRun) = 0%nat.
Proof.
  apply (no_path_no_package_phase (exampleMethods ["42"; "42"] []) canonicalRange
           (mkPurgeOptions None None) tt (fst repeatedListingRun) tt
           (traceOf repeatedListingRun) (run_eta repeatedListingRun)).
Defined.

(** Property X21. The statistics of a finished run hold one row per guild
    that phase 1 walked, in the order of the listing: the guilds of the
    listing that are not excluded, or none when the listing failed. *)
Theorem server_rows_are_kept_guilds {W : Type} (api : ClientMethods W)
    (order : RangeOrder) (dataPackagePath : string) (options : PurgeOptions)
    w stats w' tr :
  PurgeAll api order dataPackagePath options (w, []) = (Some stats, (w', tr)) ->
  exists listing,
    In (mkInvocation Phase1 CallGetAllGuilds (Some (ResGuilds listing))) tr
    /\ map statGuildID (ServerStats stats) = map guildId (keptGuilds options listing).
Proof.
  intros Hrun. apply PurgeAll_finished in Hrun as (processed & Hrun).
  apply purgeAllBody_allowed in Hrun as [_ Hfin]. exact (proj1 (Hfin _ _ eq_refl)).
Qed.

Lemma server_rows_are_kept_guilds_witness :
  exists listing,
    In (mkInvocation Phase1 CallGetAllGuilds (Some (ResGuilds listing)))
       (traceOf repeatedListingRun)
    /\ map statGuildID (ServerStats (finalStats repeatedListingRun))
       = map guildId (keptGuilds (mkPurgeOptions None None) listing).
Proof.
  apply (server_rows_are_kept_guilds (exampleMethods ["42"; "42"] []) canonicalRange ""
           (mkPurgeOptions None None) tt (finalStats repeatedListingRun) tt
           (traceOf repeatedListingRun)).
  vm_compute. reflexivity.
Defined.

(** Property X22. The totals of a finished run add up: the messages
    deleted in all are the messages of the guild rows plus the messages
    deleted in conversations, as [int]s add. *)
Theorem totals_add_up {W : Type} (api : ClientMethods W)
    (order : RangeOrder) (dataPackagePath : string) (options : PurgeOptions)
    w stats w' tr :
  PurgeAll api order dataPackagePath options (w, []) = (Some stats, (w', tr)) ->
  TotalMessagesDeleted stats
  = wrapInt (sumMessages (ServerStats stats) + TotalDMMessagesDeleted stats).
Proof.
  intros Hrun. apply PurgeAll_finished in Hrun as (processed & Hrun).
  apply purgeAllBody_allowed in Hrun as [_ Hfin]. exact (proj2 (Hfin _ _ eq_refl)).
Qed.

Lemma totals_add_up_witness :
  TotalMessagesDeleted (finalStats repeatedListingRun)
  = wrapInt (sumMessages (ServerStats (finalStats repeatedListingRun))
             + TotalDMMessagesDeleted (finalStats repeatedListingRun)).
Proof.
  apply (totals_add_up (exampleMethods ["42"; "42"] []) canonicalRange ""
           (mkPurgeOptions None None) tt (finalStats repeatedListingRun) tt
           (traceOf repeatedListingRun)).
  vm_compute. reflexivity.
Defined.
